(** * ClassScheduler: a shallow embedding of models/scheduler.py

    The development follows the Python class [ClassScheduler] function by
    function.  Tables (pandas DataFrames) are lists of row records in row
    order, dictionaries are finite maps, the mutable lists and dictionaries
    that the methods pass around are threaded through a state-and-exception
    monad, and every Python exception the code can raise on its own data
    ([KeyError], [ValueError]) is a value of that monad. *)

From Stdlib Require Import ZArith Lia Bool Ascii String.
From stdpp Require Import gmap strings list fin_maps.

Local Open Scope string_scope.
Local Open Scope list_scope.
Local Open Scope stdpp_scope.
Local Open Scope Z_scope.

(** ** Python values used by the scheduler *)

(** Exceptions raised by the modelled code. *)
Inductive exn :=
| KeyError (key : string)
| ValueError (msg : string).

(** Outcome of a call: a value, a raised exception, or an exhausted
    recursion budget (only the CSP loops carry a budget). *)
Inductive result (A : Type) :=
| Ok (a : A)
| Raise (e : exn)
| OutOfFuel.
Arguments Ok {A} a.
Arguments Raise {A} e.
Arguments OutOfFuel {A}.

Definition rbind {A B} (r : result A) (k : A → result B) : result B :=
  match r with
  | Ok a => k a
  | Raise e => Raise e
  | OutOfFuel => OutOfFuel
  end.

Definition rmap {A B} (f : A → B) (r : result A) : result B :=
  rbind r (λ a, Ok (f a)).

(** [str.lower()] on ASCII letters. *)
Definition lower_ascii (c : ascii) : ascii :=
  let n := nat_of_ascii c in
  if ((65 <=? n) && (n <=? 90))%nat then ascii_of_nat (n + 32) else c.

Fixpoint lower (s : string) : string :=
  match s with
  | EmptyString => EmptyString
  | String c r => String (lower_ascii c) (lower r)
  end.

(** [sub in s] for strings: [sub] occurs in [s] as a contiguous block. *)
Fixpoint str_contains (sub s : string) : bool :=
  String.prefix sub s ||
  match s with
  | EmptyString => false
  | String _ r => str_contains sub r
  end.

(** [seq[:-n]] for a positive [n]: all but the last [n] elements. *)
Definition drop_last {A} (n : nat) (l : list A) : list A :=
  take (length l - n)%nat l.
Arguments drop_last : simpl never.

(** ** Time domain *)

Definition digit_char (d : Z) : ascii := ascii_of_nat (48 + Z.to_nat d).

(** [f"{n:02d}"] and [strftime]'s [%H], [%M] for [0 <= n < 100]. *)
Definition two_digits (n : Z) : string :=
  String (digit_char (n / 10)) (String (digit_char (n mod 10)) EmptyString).

Definition digit_val (c : ascii) : option Z :=
  let n := nat_of_ascii c in
  if ((48 <=? n) && (n <=? 57))%nat then Some (Z.of_nat (n - 48)) else None.

(** A [datetime.time] restricted to the fields [%H:%M] fills. *)
Record time := Time { hour : Z; minute : Z }.

(** [datetime.strptime(s, "%H:%M").time()].  The directive [%H] is the
    regular expression [2[0-3]|[0-1]\d|\d], [%M] is [[0-5]\d|\d], and the
    whole string must be consumed; [None] stands for the [ValueError]
    raised otherwise (every caller catches it).  Digits are the ASCII
    digits. *)
Definition parse_minute (s : string) : option Z :=
  match s with
  | String a (String b EmptyString) =>
      match digit_val a, digit_val b with
      | Some x, Some y => if x <=? 5 then Some (10 * x + y) else None
      | _, _ => None
      end
  | String a EmptyString => digit_val a
  | _ => None
  end.

Definition strptime (s : string) : option time :=
  match s with
  | String a (String b r) =>
      if bool_decide (b = ":"%char) then
        x ← digit_val a;
        Time x <$> parse_minute r
      else
        match r with
        | String c r' =>
            if bool_decide (c = ":"%char) then
              x ← digit_val a;
              y ← digit_val b;
              if (x =? 2) && (y <=? 3) || (x <=? 1)
              then Time (10 * x + y) <$> parse_minute r'
              else None
            else None
        | EmptyString => None
        end
  | _ => None
  end.

(** Minutes after midnight, the number a [datetime.time] stands for. *)
Definition minutes_of (t : time) : Z := 60 * hour t + minute t.

(** [t1 <= t2] on [datetime.time] values: lexicographic on the fields. *)
Definition time_le (t1 t2 : time) : bool :=
  (hour t1 <? hour t2) || ((hour t1 =? hour t2) && (minute t1 <=? minute t2)).

(** [strftime("%H:%M")] of a number of minutes after midnight. *)
Definition strftime (m : Z) : string :=
  two_digits (m / 60) +:+ ":" +:+ two_digits (m mod 60).

(** [_generate_time_slots]: the half-hour grid of one day. *)
Definition _generate_time_slots : list string :=
  let start_hour := 7 in
  let end_hour := 21 in
  h ← seqZ start_hour (end_hour - start_hour);
  m ← [0; 30];
  if (h <? end_hour) || ((h =? end_hour) && (m =? 0))
  then [two_digits h +:+ ":" +:+ two_digits m]
  else [].

Definition time_slots : list string := _generate_time_slots.
Arguments time_slots : simpl never.

Definition days : list string :=
  ["Monday"; "Tuesday"; "Wednesday"; "Thursday"; "Friday"; "Saturday"].
Arguments days : simpl never.

(** [x in self.time_slots] where [x] may be Python's [None]. *)
Definition in_time_slots (x : option string) : bool :=
  match x with
  | Some s => bool_decide (s ∈ time_slots)
  | None => false
  end.

(** [_times_overlap]: parse failures are swallowed by the bare [except]
    and answer [False]. *)
Definition _times_overlap (start1 end1 start2 end2 : string) : bool :=
  match strptime start1, strptime end1, strptime start2, strptime end2 with
  | Some start1_dt, Some end1_dt, Some start2_dt, Some end2_dt =>
      negb (time_le end1_dt start2_dt || time_le end2_dt start1_dt)
  | _, _, _, _ => false
  end.


(** ** Data model: the rows of the four input tables *)

(** The rows are those of tables without blank cells: a text column
    holds a string in every row and a number column an integer.  A blank
    CSV field reaches the scheduler as a float NaN, on which the first
    [course_type.lower()] raises [AttributeError]; such tables are outside
    the records below.  [hours_per_week] holds whole hours. *)
Record course := Course {
  course_code : string;
  course_title : string;
  program : string;
  year_level : Z;
  term : Z;
  course_type : string;
  units : Z;
  hours_per_week : Z
}.

Record room := Room {
  room_name : string;
  room_type : string;
  capacity : Z
}.

Record faculty_row := Faculty { faculty_name : string }.

Record section := Section_ {
  section_name : string;
  sec_program : string;
  sec_year_level : Z;
  sec_term : Z;
  students_count : Z
}.

(** A duration is an [int] number of hours or the [float] [hours / 2] in
    the source; both are whole multiples of half an hour.  [duration]
    counts half hours: the source's [hours] is [2 * hours] here and the
    source's [hours / 2] is [hours]. *)
Abbreviation duration := Z.

(** One element of a pattern: the dictionary with keys [day],
    [start_time], [end_time], [duration]. *)
Record session := Session {
  day : string;
  start_time : string;
  end_time : string;
  session_duration : duration
}.

Abbreviation pattern := (list session).

(** What the ledgers store per booked session ([session_info]). *)
Record session_info := SessionInfo {
  si_start_time : string;
  si_end_time : string;
  si_course : string;
  si_section : string
}.

(** One row of the output ([schedule_entry]). *)
Record schedule_entry := Entry {
  e_course_code : string;
  e_course_title : string;
  e_program : string;
  e_year_level : Z;
  e_term : Z;
  e_section : string;
  e_day : string;
  e_start_time : string;
  e_end_time : string;
  e_room : string;
  e_faculty : string;
  e_course_type : string;
  e_students_count : Z
}.

Global Instance session_eq_dec : EqDecision session.
Proof. solve_decision. Defined.
Global Instance session_info_eq_dec : EqDecision session_info.
Proof. solve_decision. Defined.
Global Instance schedule_entry_eq_dec : EqDecision schedule_entry.
Proof. solve_decision. Defined.
Global Instance course_eq_dec : EqDecision course.
Proof. solve_decision. Defined.
Global Instance section_eq_dec : EqDecision section.
Proof. solve_decision. Defined.

(** An occupancy ledger: resource name, then day, then booked sessions. *)
Abbreviation day_map := (gmap string (list session_info)).
Abbreviation ledger := (gmap string (gmap string (list session_info))).

(** The mutable objects of one run: the three ledgers and the output list
    (locals of the algorithm, passed by reference) and the attribute
    [self.day_pairing_counter]. *)
Record state := State {
  schedule_list : list schedule_entry;
  faculty_schedule : ledger;
  room_schedule : ledger;
  section_schedule : ledger;
  day_pairing_counter : Z
}.

(** ** The state-and-exception monad *)

Definition M (A : Type) : Type := state → result (A * state).

Definition ret {A} (a : A) : M A := λ st, Ok (a, st).

Definition bind {A B} (m : M A) (k : A → M B) : M B :=
  λ st, match m st with
        | Ok (a, st') => k a st'
        | Raise e => Raise e
        | OutOfFuel => OutOfFuel
        end.

(** A computation that only reads the state. *)
Definition lift {A} (r : state → result A) : M A :=
  λ st, rbind (r st) (λ a, Ok (a, st)).

(** A computation that replaces the state. *)
Definition update (f : state → result state) : M unit :=
  λ st, rbind (f st) (λ st', Ok (tt, st')).

Notation "'let*' x := m 'in' k" := (bind m (λ x, k))
  (at level 10, x name, m at level 100, k at level 200).
Notation "m ;;; k" := (bind m (λ _, k))
  (at level 100, k at level 200, right associativity).
Notation "'let?' x := r 'in' k" := (rbind r (λ x, k))
  (at level 10, x name, r at level 100, k at level 200).

(** ** Pattern generator *)

Definition base_day_pairings : list (string * string) :=
  [("Monday", "Thursday"); ("Tuesday", "Friday"); ("Wednesday", "Saturday")].

(** ** Sample inputs

    The tables of the repository's own conflict test (two two-hour
    lectures for one section, two lecture rooms, two faculty members), and
    small variations of them used to run the model. *)

(** 2026-11-03 as a proleptic Gregorian ordinal. *)
Definition sample_today : Z := 739923.

Definition cs101 : course := Course "CS101" "Intro to CS" "BSCS" 1 1 "Lecture" 3 2.
Definition cs102 : course := Course "CS102" "Programming I" "BSCS" 1 1 "Lecture" 3 2.
Definition cs103_lab : course := Course "CS103" "Programming Lab" "BSCS" 1 1 "Lab" 1 2.
Definition cs104_both : course := Course "CS104" "Data Structures" "BSCS" 1 1 "Both" 4 6.
Definition cs105 : course := Course "CS105" "Discrete Structures" "BSCS" 1 1 "Lecture" 3 3.
Definition cs201 : course := Course "CS201" "Algorithms" "BSCS" 1 2 "Lecture" 3 2.

Definition r101 : room := Room "R101" "Lecture" 40.
Definition r102 : room := Room "R102" "Lecture" 40.
Definition lab1 : room := Room "ComLab1" "Lab" 40.

Definition alice : faculty_row := Faculty "Alice".
Definition bob : faculty_row := Faculty "Bob".

Definition bscs11a : section := Section_ "BSCS11A" "BSCS" 1 1 30.
(** [generate_sections] names a section by program, year level and a
    letter, so the sections of two terms of one year share a name. *)
Definition bscs1a_term1 : section := Section_ "BSCS1A" "BSCS" 1 1 30.
Definition bscs1a_term2 : section := Section_ "BSCS1A" "BSCS" 1 2 30.

(** The state reached by an answer, [d] when there is none. *)
Definition state_of {A} (r : result (A * state)) (d : state) : state :=
  match r with
  | Ok (_, st) => st
  | _ => d
  end.

Section Scheduler.

(** [datetime.today()] as the proleptic Gregorian ordinal of its date
    (0001-01-01 is day 1, 9999-12-31 is day 3652059). *)
Variable today : Z.

(** The tables held by the scheduler object after [load_data]. *)
Variable courses : list course.
Variable rooms : list room.
Variable faculty : list faculty_row.
Variable sections : list section.

(** [_add_hours_to_time]: the sum is taken on today's date, and the bare
    [except] answers [None] when the string does not parse or the
    resulting date leaves the range of [datetime]. *)
Definition _add_hours_to_time (time_str : string) (hours : duration)
    : option string :=
  match strptime time_str with
  | Some time_obj =>
      let total := 60 * hour time_obj + minute time_obj + 30 * hours in
      let new_day := today + total / 1440 in
      if (1 <=? new_day) && (new_day <=? 3652059)
      then Some (strftime (total mod 1440))
      else None
  | None => None
  end.

(** Two sessions of [session_hours] on a pair of days, one candidate per
    start time of [starts] whose end is on the grid. *)
Definition paired_patterns (day_pairings : list (string * string))
    (starts : list string) (session_hours : duration) : list pattern :=
  '(day1, day2) ← day_pairings;
  start_time ← starts;
  let end_time := _add_hours_to_time start_time session_hours in
  match end_time with
  | Some e =>
      if in_time_slots end_time
      then [[Session day1 start_time e session_hours;
             Session day2 start_time e session_hours]]
      else []
  | None => []
  end.

(** One session of [hours] on one day, one candidate per day and per
    start time of [starts] whose end is on the grid. *)
Definition single_patterns (starts : list string) (hours : duration)
    : list pattern :=
  day ← days;
  start_time ← starts;
  let end_time := _add_hours_to_time start_time hours in
  match end_time with
  | Some e =>
      if in_time_slots end_time
      then [[Session day start_time e hours]]
      else []
  | None => []
  end.

(** [_get_time_patterns], reading [self.day_pairing_counter]; [hours] is
    the source's integer argument. *)
Definition _get_time_patterns (counter : Z) (hours : Z)
    (component_type : string) : list pattern :=
  let rotation := Z.to_nat (counter mod 3) in
  let day_pairings :=
    drop rotation base_day_pairings ++ take rotation base_day_pairings in
  let should_split :=
    (bool_decide (component_type = "Lab") && (2 <=? hours))
    || ((2 <? hours) && (hours <=? 4)) in
  if (hours <=? 2) && negb should_split then
    single_patterns (drop_last 4 time_slots) (2 * hours)
  else if (hours =? 2) && bool_decide (component_type = "Lab") then
    let session_hours := 2 * 1 in
    paired_patterns day_pairings (drop_last 2 time_slots) session_hours
  else if hours <=? 4 then
    let session_hours := hours in
    let slots_needed := hours in
    paired_patterns day_pairings
      (drop_last (if 0 <? slots_needed then Z.to_nat slots_needed else 1%nat)
                 time_slots)
      session_hours
  else
    let session_hours := hours in
    let slots_needed := hours in
    paired_patterns day_pairings
      (drop_last (if 0 <? slots_needed then Z.to_nat slots_needed else 1%nat)
                 time_slots)
      session_hours.

(** ** Conflict model *)

(** [d[name]] on a ledger: a missing key raises [KeyError]. *)
Definition ledger_get (l : ledger) (name : string) : result day_map :=
  match l !! name with
  | Some d => Ok d
  | None => Raise (KeyError name)
  end.

(** The sessions booked on [day], the empty list when the day is not a
    key (the source guards each read with [if day in ...]). *)
Definition booked (d : day_map) (day : string) : list session_info :=
  default [] (d !! day).

(** The inner [for existing_session in ...] loop of [_can_assign_pattern]:
    some booked session overlaps the candidate. *)
Definition conflicts (s : session) (existing : list session_info) : bool :=
  existsb (λ existing_session,
             _times_overlap (start_time s) (end_time s)
               (si_start_time existing_session)
               (si_end_time existing_session))
          existing.

(** [_can_assign_pattern], the loop over the sessions of the pattern. *)
Fixpoint can_assign_sessions (p : pattern)
    (faculty_name room_name section_name : string)
    (fs rs ss : ledger) : result bool :=
  match p with
  | [] => Ok true
  | s :: rest =>
      let? fd := ledger_get fs faculty_name in
      if conflicts s (booked fd (day s)) then Ok false else
      let? rd := ledger_get rs room_name in
      if conflicts s (booked rd (day s)) then Ok false else
      let? sd := ledger_get ss section_name in
      if conflicts s (booked sd (day s)) then Ok false else
      can_assign_sessions rest faculty_name room_name section_name fs rs ss
  end.

Definition _can_assign_pattern (p : pattern)
    (faculty_name room_name section_name : string)
    (fs rs ss : ledger) (allow_conflicts : bool) : result bool :=
  if allow_conflicts then Ok true
  else can_assign_sessions p faculty_name room_name section_name fs rs ss.

(** [ledger[name][day].append(info)], creating the day's list first when
    the day is not a key. *)
Definition ledger_append (l : ledger) (name day : string)
    (info : session_info) : result ledger :=
  let? d := ledger_get l name in
  Ok (<[name := <[day := booked d day ++ [info]]> d]> l).

Definition make_entry (course_row : course) (section_row : section)
    (s : session) (room_name faculty_name component_type : string)
    : schedule_entry :=
  {| e_course_code := course_code course_row;
     e_course_title := course_title course_row;
     e_program := sec_program section_row;
     e_year_level := sec_year_level section_row;
     e_term := sec_term section_row;
     e_section := section_name section_row;
     e_day := day s;
     e_start_time := start_time s;
     e_end_time := end_time s;
     e_room := room_name;
     e_faculty := faculty_name;
     e_course_type := component_type;
     e_students_count := students_count section_row |}.

Definition make_info (course_row : course) (section_row : section)
    (s : session) : session_info :=
  {| si_start_time := start_time s;
     si_end_time := end_time s;
     si_course := course_code course_row;
     si_section := section_name section_row |}.

(** One iteration of the [for session in pattern] loop shared by
    [_make_assignment] and [_make_assignment_backtrack]: append the output
    row, then book the session in the three ledgers. *)
Definition record_session (course_row : course) (section_row : section)
    (faculty_name room_name component_type : string) (s : session)
    : M unit :=
  update (λ st,
    let schedule_list' :=
      schedule_list st ++
      [make_entry course_row section_row s room_name faculty_name
         component_type] in
    let session_info := make_info course_row section_row s in
    let? fs := ledger_append (faculty_schedule st) faculty_name (day s)
                 session_info in
    let? rs := ledger_append (room_schedule st) room_name (day s)
                 session_info in
    let? ss := ledger_append (section_schedule st)
                 (section_name section_row) (day s) session_info in
    Ok {| schedule_list := schedule_list';
          faculty_schedule := fs;
          room_schedule := rs;
          section_schedule := ss;
          day_pairing_counter := day_pairing_counter st |}).

Fixpoint record_sessions (course_row : course) (section_row : section)
    (faculty_name room_name component_type : string) (p : pattern)
    : M unit :=
  match p with
  | [] => ret tt
  | s :: rest =>
      record_session course_row section_row faculty_name room_name
        component_type s ;;;
      record_sessions course_row section_row faculty_name room_name
        component_type rest
  end.

(** [self.day_pairing_counter += delta]. *)
Definition bump_counter (delta : Z) : M unit :=
  update (λ st,
    Ok {| schedule_list := schedule_list st;
          faculty_schedule := faculty_schedule st;
          room_schedule := room_schedule st;
          section_schedule := section_schedule st;
          day_pairing_counter := day_pairing_counter st + delta |}).

(** [_make_assignment]. *)
Definition _make_assignment (p : pattern) (course_row : course)
    (section_row : section) (faculty_name room_name component_type : string)
    : M unit :=
  record_sessions course_row section_row faculty_name room_name
    component_type p ;;;
  bump_counter 1.

(** ** Greedy assigner *)

(** [_find_suitable_faculty]: every faculty member. *)
Definition _find_suitable_faculty (course_row : course) : list faculty_row :=
  faculty.

Definition rooms_of_type (required_room_type : string) : list room :=
  filter (λ r, room_type r = required_room_type) rooms.

(** The three nested loops of [_schedule_course_component], in iteration
    order: patterns, then faculty, then rooms. *)
Definition candidates (time_patterns : list pattern)
    (suitable_faculty : list faculty_row) (suitable_rooms : list room)
    : list (pattern * string * string) :=
  p ← time_patterns;
  faculty_row ← suitable_faculty;
  room_row ← suitable_rooms;
  [(p, faculty_name faculty_row, room_name room_row)].

(** The body of those loops: take the first candidate that can be
    assigned, record it and answer [True]; answer [False] when none can. *)
Fixpoint try_candidates (cands : list (pattern * string * string))
    (course_row : course) (section_row : section) (component_type : string)
    (allow_conflicts : bool) : M bool :=
  match cands with
  | [] => ret false
  | (p, faculty_name, room_name) :: rest =>
      let* ok := lift (λ st,
        _can_assign_pattern p faculty_name room_name
          (section_name section_row)
          (faculty_schedule st) (room_schedule st) (section_schedule st)
          allow_conflicts) in
      if ok then
        _make_assignment p course_row section_row faculty_name room_name
          component_type ;;;
        ret true
      else
        try_candidates rest course_row section_row component_type
          allow_conflicts
  end.

(** [_schedule_course_component]. *)
Definition _schedule_course_component (course_row : course)
    (section_row : section) (component_type : string) (hours : Z)
    (suitable_faculty : list faculty_row) (suitable_rooms : list room)
    (allow_conflicts : bool) : M bool :=
  let* time_patterns := lift (λ st,
    Ok (_get_time_patterns (day_pairing_counter st) hours component_type)) in
  try_candidates (candidates time_patterns suitable_faculty suitable_rooms)
    course_row section_row component_type allow_conflicts.

(** [_schedule_lecture_lab_course]. *)
Definition _schedule_lecture_lab_course (course_row : course)
    (section_row : section) (suitable_faculty : list faculty_row)
    (allow_conflicts : bool) : M bool :=
  let hours_per_week := hours_per_week course_row in
  let lecture_hours := hours_per_week / 2 in
  let lab_hours := hours_per_week - lecture_hours in
  let lecture_rooms := rooms_of_type "Lecture" in
  let* lecture_assigned :=
    _schedule_course_component course_row section_row "Lecture"
      lecture_hours suitable_faculty lecture_rooms allow_conflicts in
  if negb lecture_assigned && negb allow_conflicts then ret false else
  let lab_rooms := rooms_of_type "Lab" in
  let* lab_assigned :=
    _schedule_course_component course_row section_row "Lab"
      lab_hours suitable_faculty lab_rooms allow_conflicts in
  ret (lecture_assigned && lab_assigned).

(** [_schedule_single_type_course]. *)
Definition _schedule_single_type_course (course_row : course)
    (section_row : section) (suitable_faculty : list faculty_row)
    (suitable_rooms : list room) (allow_conflicts : bool) : M bool :=
  let hours_per_week := hours_per_week course_row in
  let component_type :=
    if str_contains "lecture" (lower (course_type course_row))
    then "Lecture" else "Lab" in
  _schedule_course_component course_row section_row component_type
    hours_per_week suitable_faculty suitable_rooms allow_conflicts.

(** The room type a course asks for: ['Lab' if 'lab' in
    course_type.lower() else 'Lecture']. *)
Definition required_room_type_of (course_row : course) : string :=
  if str_contains "lab" (lower (course_type course_row))
  then "Lab" else "Lecture".

(** [_assign_course_to_section]. *)
Definition _assign_course_to_section (course_row : course)
    (section_row : section) (allow_conflicts : bool) : M bool :=
  let required_room_type := required_room_type_of course_row in
  let suitable_faculty := _find_suitable_faculty course_row in
  if bool_decide (suitable_faculty = []) then ret false else
  let suitable_rooms := rooms_of_type required_room_type in
  if bool_decide (suitable_rooms = []) then ret false else
  if bool_decide (lower (course_type course_row) = "both") then
    _schedule_lecture_lab_course course_row section_row suitable_faculty
      allow_conflicts
  else
    _schedule_single_type_course course_row section_row suitable_faculty
      suitable_rooms allow_conflicts.

(** The rows of [courses_to_schedule] that match a section's program,
    year level and term. *)
Definition courses_of_section (courses_to_schedule : list course)
    (section_row : section) : list course :=
  filter (λ c, program c = sec_program section_row
               ∧ year_level c = sec_year_level section_row
               ∧ term c = sec_term section_row)
         courses_to_schedule.

(** The inner loop of [_greedy_scheduling] over the courses of a section;
    the answer of each call only feeds a warning. *)
Fixpoint greedy_courses (section_courses : list course)
    (section_row : section) (allow_conflicts : bool) : M unit :=
  match section_courses with
  | [] => ret tt
  | course_row :: rest =>
      let* assigned :=
        _assign_course_to_section course_row section_row allow_conflicts in
      greedy_courses rest section_row allow_conflicts
  end.

(** [section_schedule[section_name] = {}]. *)
Definition reset_section (name : string) : M unit :=
  update (λ st,
    Ok {| schedule_list := schedule_list st;
          faculty_schedule := faculty_schedule st;
          room_schedule := room_schedule st;
          section_schedule := <[name := ∅]> (section_schedule st);
          day_pairing_counter := day_pairing_counter st |}).

(** The outer loop of [_greedy_scheduling] over the section rows. *)
Fixpoint greedy_sections (section_rows : list section)
    (courses_to_schedule : list course) (allow_conflicts : bool) : M unit :=
  match section_rows with
  | [] => ret tt
  | section_row :: rest =>
      reset_section (section_name section_row) ;;;
      greedy_courses (courses_of_section courses_to_schedule section_row)
        section_row allow_conflicts ;;;
      greedy_sections rest courses_to_schedule allow_conflicts
  end.

(** [{name: {} for name in names}], built by successive assignments. *)
Definition empty_ledger (names : list string) : ledger :=
  foldl (λ l name, <[name := ∅]> l) ∅ names.

(** The fresh locals of a run, around the counter held by the object. *)
Definition fresh_state (counter : Z) : state :=
  {| schedule_list := [];
     faculty_schedule := empty_ledger (faculty_name <$> faculty);
     room_schedule := empty_ledger (room_name <$> rooms);
     section_schedule := ∅;
     day_pairing_counter := counter |}.

(** The outcome of an algorithm: the output rows (the empty list for the
    empty DataFrame) and the counter it leaves on the object. *)
Abbreviation run_result := (result (list schedule_entry * Z)).

Definition finish (r : result (unit * state)) : run_result :=
  rmap (λ x, (schedule_list x.2, day_pairing_counter x.2)) r.

(** [_greedy_scheduling]. *)
Definition _greedy_scheduling (courses_to_schedule : list course)
    (allow_conflicts : bool) (counter : Z) : run_result :=
  finish (greedy_sections sections courses_to_schedule allow_conflicts
            (fresh_state counter)).

(** ** Backtracking assigner *)

(** [sorted(..., key=...)] and [list.sort(key=..., reverse=...)] on a list
    already paired with its keys: a stable sort, also when reversed. *)
Fixpoint insert_by_key {A} (reverse : bool) (k : Z) (x : A)
    (l : list (Z * A)) : list (Z * A) :=
  match l with
  | [] => [(k, x)]
  | (k', y) :: rest =>
      if (if reverse then k <? k' else k' <? k)
      then (k', y) :: insert_by_key reverse k x rest
      else (k, x) :: l
  end.

Definition sort_by_key {A} (reverse : bool) (l : list (Z * A)) : list A :=
  snd <$> foldr (λ kx acc, insert_by_key reverse kx.1 kx.2 acc) [] l.

(** [_calculate_constraint_complexity]. *)
Definition _calculate_constraint_complexity (course_row : course) : Z :=
  let complexity := 0 in
  let complexity :=
    if str_contains "lab" (lower (course_type course_row))
       || bool_decide (lower (course_type course_row) = "both")
    then complexity + 10 else complexity in
  let complexity := complexity + hours_per_week course_row in
  if bool_decide (lower (course_type course_row) = "both")
  then complexity + 5 else complexity.

(** One candidate of the backtracking search: the dictionary with keys
    [pattern], [faculty], [room] and, once recorded, [assignment_data]. *)
Record assignment_option := AssignmentOption {
  opt_pattern : pattern;
  opt_faculty : string;
  opt_room : string;
  assignment_data : option (list nat)
}.

(** [s.split(':')[0]]. *)
Fixpoint before_colon (s : string) : string :=
  match s with
  | EmptyString => EmptyString
  | String c r => if bool_decide (c = ":"%char) then EmptyString
                  else String c (before_colon r)
  end.

(** [int(s)] for a non-empty string of ASCII digits; any other string
    stands for the [ValueError] of a text that is not a number. *)
Fixpoint digits_value (acc : Z) (s : string) : option Z :=
  match s with
  | EmptyString => Some acc
  | String c r =>
      match digit_val c with
      | Some d => digits_value (10 * acc + d) r
      | None => None
      end
  end.

Definition py_int (s : string) : result Z :=
  match s with
  | EmptyString => Raise (ValueError "invalid literal for int()")
  | _ => match digits_value 0 s with
         | Some n => Ok n
         | None => Raise (ValueError "invalid literal for int()")
         end
  end.

(** [_assignment_preference]. *)
Definition _assignment_preference (opt : assignment_option)
    : result Z :=
  let p := opt_pattern opt in
  let preference := 0 in
  let? preference :=
    match p with
    | first_session :: _ =>
        let? start_hour := py_int (before_colon (start_time first_session)) in
        Ok (preference + start_hour)
    | [] => Ok preference
    end in
  if existsb (λ s, bool_decide (day s = "Saturday")) p
  then Ok (preference + 20) else Ok preference.

(** The filter loop of [_get_possible_assignments] on fixed ledgers. *)
Fixpoint feasible_options (cands : list (pattern * string * string))
    (section_name : string) (fs rs ss : ledger) (allow_conflicts : bool)
    : result (list assignment_option) :=
  match cands with
  | [] => Ok []
  | (p, faculty_name, room_name) :: rest =>
      let? ok :=
        if allow_conflicts then Ok true
        else _can_assign_pattern p faculty_name room_name section_name
               fs rs ss allow_conflicts in
      let? more := feasible_options rest section_name fs rs ss
                     allow_conflicts in
      Ok (if ok
          then AssignmentOption p faculty_name room_name None :: more
          else more)
  end.

(** The keys of a sort, computed before any element moves. *)
Fixpoint with_keys {A} (key : A → result Z) (l : list A)
    : result (list (Z * A)) :=
  match l with
  | [] => Ok []
  | x :: rest =>
      let? k := key x in
      let? more := with_keys key rest in
      Ok ((k, x) :: more)
  end.

(** [_get_possible_assignments]. *)
Definition _get_possible_assignments (course_row : course)
    (section_row : section) (allow_conflicts : bool)
    : M (list assignment_option) :=
  lift (λ st,
    let required_room_type := required_room_type_of course_row in
    let suitable_rooms := rooms_of_type required_room_type in
    let suitable_faculty := _find_suitable_faculty course_row in
    let hours_per_week := hours_per_week course_row in
    let time_patterns :=
      _get_time_patterns (day_pairing_counter st) hours_per_week "Lecture" in
    let? possible_assignments :=
      feasible_options
        (candidates time_patterns suitable_faculty suitable_rooms)
        (section_name section_row)
        (faculty_schedule st) (room_schedule st) (section_schedule st)
        allow_conflicts in
    let? keyed := with_keys _assignment_preference possible_assignments in
    Ok (sort_by_key false keyed)).

(** The tag [_make_assignment_backtrack] and
    [_convert_csp_solution_to_schedule] write into the output rows. *)
Definition backtrack_component_type (course_row : course) : string :=
  let component_type :=
    if str_contains "lecture" (lower (course_type course_row))
    then "Lecture" else "Lab" in
  if bool_decide (lower (course_type course_row) = "both")
  then "Both" else component_type.

(** The session loop of [_make_assignment_backtrack], collecting the
    index of each appended row. *)
Fixpoint record_sessions_backtrack (course_row : course)
    (section_row : section) (faculty_name room_name component_type : string)
    (p : pattern) (assignment_data : list nat) : M (list nat) :=
  match p with
  | [] => ret assignment_data
  | s :: rest =>
      record_session course_row section_row faculty_name room_name
        component_type s ;;;
      let* idx := lift (λ st, Ok (length (schedule_list st) - 1)%nat) in
      record_sessions_backtrack course_row section_row faculty_name
        room_name component_type rest (assignment_data ++ [idx])
  end.

(** [_make_assignment_backtrack]; the answer is the option after the
    assignment [assignment_option['assignment_data'] = ...]. *)
Definition _make_assignment_backtrack (opt : assignment_option)
    (course_row : course) (section_row : section) : M assignment_option :=
  let p := opt_pattern opt in
  let faculty_name := opt_faculty opt in
  let room_name := opt_room opt in
  let component_type := backtrack_component_type course_row in
  let* assignment_data :=
    record_sessions_backtrack course_row section_row faculty_name room_name
      component_type p [] in
  bump_counter 1 ;;;
  ret (AssignmentOption p faculty_name room_name (Some assignment_data)).

(** [for idx in reversed(assignment_data): if idx < len(schedule_list):
    schedule_list.pop(idx)], on the indices already reversed. *)
Fixpoint pop_indices (indices : list nat) (l : list schedule_entry)
    : list schedule_entry :=
  match indices with
  | [] => l
  | idx :: rest =>
      pop_indices rest (if (idx <? length l)%nat then delete idx l else l)
  end.

(** The removal of one day's bookings from one ledger: keep the sessions
    that satisfy [keep] and drop the day when none is left. *)
Definition ledger_remove (l : ledger) (name day : string)
    (keep : session_info → bool) : result ledger :=
  let? d := ledger_get l name in
  match d !! day with
  | Some existing =>
      let kept := List.filter keep existing in
      Ok (<[name := match kept with
                    | [] => delete day d
                    | _ => <[day := kept]> d
                    end]> l)
  | None => Ok l
  end.

Definition unrecord_session (course_row : course) (section_row : section)
    (faculty_name room_name : string) (s : session) : M unit :=
  update (λ st,
    let same_pair (x : session_info) :=
      bool_decide (si_course x = course_code course_row)
      && bool_decide (si_section x = section_name section_row) in
    let same_course (x : session_info) :=
      bool_decide (si_course x = course_code course_row) in
    let? fs := ledger_remove (faculty_schedule st) faculty_name (day s)
                 (λ x, negb (same_pair x)) in
    let? rs := ledger_remove (room_schedule st) room_name (day s)
                 (λ x, negb (same_pair x)) in
    let? ss := ledger_remove (section_schedule st)
                 (section_name section_row) (day s)
                 (λ x, negb (same_course x)) in
    Ok {| schedule_list := schedule_list st;
          faculty_schedule := fs;
          room_schedule := rs;
          section_schedule := ss;
          day_pairing_counter := day_pairing_counter st |}).

Fixpoint unrecord_sessions (course_row : course) (section_row : section)
    (faculty_name room_name : string) (p : pattern) : M unit :=
  match p with
  | [] => ret tt
  | s :: rest =>
      unrecord_session course_row section_row faculty_name room_name s ;;;
      unrecord_sessions course_row section_row faculty_name room_name rest
  end.

(** [_undo_assignment_backtrack]. *)
Definition _undo_assignment_backtrack (opt : assignment_option)
    (course_row : course) (section_row : section) : M unit :=
  match assignment_data opt with
  | None => ret tt
  | Some data =>
      update (λ st,
        Ok {| schedule_list := pop_indices (reverse data) (schedule_list st);
              faculty_schedule := faculty_schedule st;
              room_schedule := room_schedule st;
              section_schedule := section_schedule st;
              day_pairing_counter := day_pairing_counter st |}) ;;;
      unrecord_sessions course_row section_row
        (opt_faculty opt) (opt_room opt)
        (opt_pattern opt) ;;;
      bump_counter (-1)
  end.

(** The [for assignment_option in possible_assignments] loop of
    [_backtrack_assign]: record the option, run [rest] (the recursive call
    on [index + 1]), and undo the option when [rest] fails. *)
Fixpoint try_options (rest : M bool) (course_row : course)
    (section_row : section) (options : list assignment_option) : M bool :=
  match options with
  | [] => ret false
  | opt :: more =>
      let* recorded :=
        _make_assignment_backtrack opt course_row section_row in
      let* done_ := rest in
      if done_ then ret true else
      _undo_assignment_backtrack recorded course_row section_row ;;;
      try_options rest course_row section_row more
  end.

(** [_backtrack_assign] on the obligations from position [index] on:
    the recursion on [index + 1] is the recursion on the tail. *)
Fixpoint backtrack_from (assignments : list (course * section))
    (max_iterations : Z) (allow_conflicts : bool) {struct assignments}
    : M bool :=
  match assignments with
  | [] => ret true
  | (course_row, section_row) :: rest =>
      let* placed := lift (λ st, Ok (Z.of_nat (length (schedule_list st)))) in
      if max_iterations <? placed then ret false else
      let* possible_assignments :=
        _get_possible_assignments course_row section_row allow_conflicts in
      try_options (backtrack_from rest max_iterations allow_conflicts)
        course_row section_row possible_assignments
  end.

Definition _backtrack_assign (assignments : list (course * section))
    (index : nat) (max_iterations : Z) (allow_conflicts : bool) : M bool :=
  backtrack_from (drop index assignments) max_iterations allow_conflicts.

(** The obligations in collection order: for each section row, the
    matching course rows. *)
Definition obligations (courses_to_schedule : list course)
    : list (course * section) :=
  section_row ← sections;
  course_row ← courses_of_section courses_to_schedule section_row;
  [(course_row, section_row)].

(** [_backtracking_scheduling]. *)
Definition _backtracking_scheduling (courses_to_schedule : list course)
    (max_iterations : Z) (allow_conflicts : bool) (counter : Z)
    : run_result :=
  let st0 :=
    {| schedule_list := [];
       faculty_schedule := empty_ledger (faculty_name <$> faculty);
       room_schedule := empty_ledger (room_name <$> rooms);
       section_schedule := empty_ledger (section_name <$> sections);
       day_pairing_counter := counter |} in
  let assignments :=
    sort_by_key true
      ((λ a, (_calculate_constraint_complexity a.1, a)) <$>
         obligations courses_to_schedule) in
  match _backtrack_assign assignments 0 max_iterations allow_conflicts st0 with
  | Ok (true, st) => Ok (schedule_list st, day_pairing_counter st)
  | Ok (false, st) =>
      _greedy_scheduling courses_to_schedule true (day_pairing_counter st)
  | Raise e => Raise e
  | OutOfFuel => OutOfFuel
  end.

(** ** CSP solver *)

(** One value of a CSP domain: the dictionary with keys [pattern],
    [faculty], [room], [course], [section]. *)
Record csp_value := CspValue {
  v_pattern : pattern;
  v_faculty : string;
  v_room : string;
  v_course : course;
  v_section : section
}.

Global Instance csp_value_eq_dec : EqDecision csp_value.
Proof. solve_decision. Defined.

(** A Python dictionary whose iteration order is observed: keys in
    insertion order, assignment to a present key keeps its position. *)
Abbreviation odict V := (list (string * V)).

Fixpoint odict_get {V} (d : odict V) (k : string) : option V :=
  match d with
  | [] => None
  | (k', v) :: rest => if bool_decide (k' = k) then Some v else odict_get rest k
  end.

Fixpoint odict_set {V} (d : odict V) (k : string) (v : V) : odict V :=
  match d with
  | [] => [(k, v)]
  | (k', v') :: rest =>
      if bool_decide (k' = k) then (k, v) :: rest
      else (k', v') :: odict_set rest k v
  end.

Definition odict_del {V} (d : odict V) (k : string) : odict V :=
  List.filter (λ kv, negb (bool_decide (kv.1 = k))) d.

Definition odict_mem {V} (d : odict V) (k : string) : bool :=
  bool_decide (is_Some (odict_get d k)).

Abbreviation domains_t := (gmap string (list csp_value)).

(** [domains[var]]. *)
Definition domain_get (domains : domains_t) (var : string)
    : result (list csp_value) :=
  match domains !! var with
  | Some d => Ok d
  | None => Raise (KeyError var)
  end.

(** [list.remove(x)] for an element known to be present: the first
    element equal to [x] goes. *)
Fixpoint list_remove_first {A} `{EqDecision A} (x : A) (l : list A) : list A :=
  match l with
  | [] => []
  | y :: rest => if bool_decide (y = x) then rest
                 else y :: list_remove_first x rest
  end.

(** [_generate_csp_domain]. *)
Definition _generate_csp_domain (counter : Z) (course_row : course)
    (section_row : section) : list csp_value :=
  let required_room_type := required_room_type_of course_row in
  let suitable_rooms := rooms_of_type required_room_type in
  let suitable_faculty := _find_suitable_faculty course_row in
  let hours_per_week := hours_per_week course_row in
  let time_patterns := _get_time_patterns counter hours_per_week "Lecture" in
  (λ c, CspValue c.1.1 c.1.2 c.2 course_row section_row) <$>
    candidates time_patterns suitable_faculty suitable_rooms.

(** [_generate_csp_constraints]: one pair per [i < j]. *)
Fixpoint _generate_csp_constraints (variables : list string)
    : list (string * string) :=
  match variables with
  | [] => []
  | var1 :: rest =>
      ((λ var2, (var1, var2)) <$> rest) ++ _generate_csp_constraints rest
  end.

(** [_time_patterns_overlap]. *)
Definition _time_patterns_overlap (pattern1 pattern2 : pattern) : bool :=
  existsb (λ session1,
    existsb (λ session2,
      bool_decide (day session1 = day session2)
      && _times_overlap (start_time session1) (end_time session1)
           (start_time session2) (end_time session2))
      pattern2)
    pattern1.

(** [_values_satisfy_constraint]. *)
Definition _values_satisfy_constraint (value1 value2 : csp_value) : bool :=
  if bool_decide (v_faculty value1 = v_faculty value2)
     && _time_patterns_overlap (v_pattern value1) (v_pattern value2)
  then false
  else if bool_decide (v_room value1 = v_room value2)
          && _time_patterns_overlap (v_pattern value1) (v_pattern value2)
  then false
  else if bool_decide (section_name (v_section value1)
                       = section_name (v_section value2))
          && _time_patterns_overlap (v_pattern value1) (v_pattern value2)
  then false
  else true.

(** The loop of [_revise_domain] over the copy [domains[var1][:]]; each
    iteration reads the current [domains[var2]]. *)
Fixpoint revise_loop (values : list csp_value) (var1 var2 : string)
    (domains : domains_t) (revised : bool) : result (bool * domains_t) :=
  match values with
  | [] => Ok (revised, domains)
  | value1 :: rest =>
      let? d2 := domain_get domains var2 in
      if existsb (λ value2, _values_satisfy_constraint value1 value2) d2
      then revise_loop rest var1 var2 domains revised
      else
        let? d1 := domain_get domains var1 in
        revise_loop rest var1 var2
          (<[var1 := list_remove_first value1 d1]> domains) true
  end.

(** [_revise_domain]. *)
Definition _revise_domain (var1 var2 : string) (domains : domains_t)
    : result (bool * domains_t) :=
  let? d1 := domain_get domains var1 in
  revise_loop d1 var1 var2 domains false.

(** The arcs [_apply_arc_consistency] puts back on the queue after
    [var1] was revised against [var2]. *)
Definition neighbour_arcs (constraints : list (string * string))
    (var1 var2 : string) : list (string * string) :=
  c ← constraints;
  if bool_decide (c.1 = var1) && negb (bool_decide (c.2 = var2))
  then [(c.2, var1)]
  else if bool_decide (c.2 = var1) && negb (bool_decide (c.1 = var2))
  then [(c.1, var1)]
  else [].

(** The [while queue] loop of [_apply_arc_consistency]; [fuel] bounds the
    number of iterations. *)
Fixpoint ac3_loop (fuel : nat) (queue : list (string * string))
    (constraints : list (string * string)) (domains : domains_t)
    : result domains_t :=
  match queue with
  | [] => Ok domains
  | (var1, var2) :: queue' =>
      match fuel with
      | O => OutOfFuel
      | S fuel' =>
          let? r := _revise_domain var1 var2 domains in
          if r.1 then
            let? d1 := domain_get r.2 var1 in
            match d1 with
            | [] => Ok ∅
            | _ => ac3_loop fuel'
                     (queue' ++ neighbour_arcs constraints var1 var2)
                     constraints r.2
            end
          else ac3_loop fuel' queue' constraints r.2
      end
  end.

(** [_apply_arc_consistency]. *)
Definition _apply_arc_consistency (fuel : nat)
    (constraints : list (string * string)) (domains : domains_t)
    : result domains_t :=
  let queue := constraints ++ ((λ c, (c.2, c.1)) <$> constraints) in
  ac3_loop fuel queue constraints domains.

(** [_count_conflicts]. *)
Definition _count_conflicts (value : csp_value)
    (assignment : odict csp_value) : Z :=
  Z.of_nat (length (List.filter
    (λ kv, negb (_values_satisfy_constraint value kv.2)) assignment)).

(** [_assignment_consistent]. *)
Definition _assignment_consistent (value : csp_value)
    (assignment : odict csp_value) : bool :=
  forallb (λ kv, _values_satisfy_constraint value kv.2) assignment.

(** [_forward_check]; [None] inside [Ok] is Python's [None]. *)
Fixpoint forward_check_loop (others : list string) (var : string)
    (value : csp_value) (domains : domains_t)
    (assignment : odict csp_value) (inference : odict (list csp_value))
    : result (option (odict (list csp_value))) :=
  match others with
  | [] => Ok (Some inference)
  | other_var :: rest =>
      if negb (bool_decide (other_var = var))
         && negb (odict_mem assignment other_var)
      then
        let? d := domain_get domains other_var in
        let removed_values :=
          List.filter (λ other_value,
            negb (_values_satisfy_constraint value other_value)) d in
        match removed_values with
        | [] => forward_check_loop rest var value domains assignment inference
        | _ =>
            if (length removed_values =? length d)%nat then Ok None
            else forward_check_loop rest var value domains assignment
                   (odict_set inference other_var removed_values)
        end
      else forward_check_loop rest var value domains assignment inference
  end.

Definition _forward_check (var : string) (value : csp_value)
    (variables : list string) (domains : domains_t)
    (assignment : odict csp_value)
    : result (option (odict (list csp_value))) :=
  forward_check_loop variables var value domains assignment [].

(** Applying an inference: remember each touched domain, then remove the
    values that are still present. *)
Fixpoint apply_inference (inference : odict (list csp_value))
    (domains : domains_t) (old_domains : odict (list csp_value))
    : result (domains_t * odict (list csp_value)) :=
  match inference with
  | [] => Ok (domains, old_domains)
  | (inf_var, removed_values) :: rest =>
      let? d := domain_get domains inf_var in
      let d' :=
        foldl (λ acc removed_val,
                 if bool_decide (removed_val ∈ acc)
                 then list_remove_first removed_val acc else acc)
              d removed_values in
      apply_inference rest (<[inf_var := d']> domains)
        (odict_set old_domains inf_var d)
  end.

Definition restore_domains (old_domains : odict (list csp_value))
    (domains : domains_t) : domains_t :=
  foldl (λ acc kv, <[kv.1 := kv.2]> acc) domains old_domains.

(** [min(unassigned_vars, key=lambda v: len(domains[v]))]: the first
    variable of least domain size. *)
Fixpoint min_by_domain (vars : list string) (domains : domains_t)
    (best : option (string * nat)) : result (option (string * nat)) :=
  match vars with
  | [] => Ok best
  | v :: rest =>
      let? d := domain_get domains v in
      let n := length d in
      match best with
      | Some (_, m) =>
          min_by_domain rest domains
            (if (n <? m)%nat then Some (v, n) else best)
      | None => min_by_domain rest domains (Some (v, n))
      end
  end.

(** [_csp_backtrack]: the mutable [domains] and [assignment] are returned
    with the answer; [fuel] bounds the recursion depth. *)
Fixpoint _csp_backtrack (fuel : nat) (variables : list string)
    (domains : domains_t) (assignment : odict csp_value)
    (max_iterations : Z) (allow_conflicts : bool)
    : result (option (odict csp_value) * domains_t * odict csp_value) :=
  match fuel with
  | O => OutOfFuel
  | S fuel' =>
      if (length assignment =? length variables)%nat
      then Ok (Some assignment, domains, assignment)
      else if max_iterations <? Z.of_nat (length assignment)
      then Ok (None, domains, assignment)
      else
        let unassigned_vars :=
          List.filter (λ v, negb (odict_mem assignment v)) variables in
        let? best := min_by_domain unassigned_vars domains None in
        match best with
        | None => Raise (ValueError "min() arg is an empty sequence")
        | Some (var, _) =>
            let? d := domain_get domains var in
            let domain_values :=
              sort_by_key false
                ((λ val, (_count_conflicts val assignment, val)) <$> d) in
            (fix try_values (values : list csp_value) (domains : domains_t)
                 (assignment : odict csp_value)
                 : result (option (odict csp_value) * domains_t
                           * odict csp_value) :=
               match values with
               | [] => Ok (None, domains, assignment)
               | value :: more =>
                   if allow_conflicts
                      || _assignment_consistent value assignment
                   then
                     let assignment1 := odict_set assignment var value in
                     let? inference :=
                       _forward_check var value variables domains
                         assignment1 in
                     match inference, allow_conflicts with
                     | None, false =>
                         try_values more domains (odict_del assignment1 var)
                     | _, _ =>
                         let? applied :=
                           apply_inference (default [] inference) domains
                             [] in
                         let? r :=
                           _csp_backtrack fuel' variables applied.1
                             assignment1 max_iterations allow_conflicts in
                         match r.1.1 with
                         | Some solution => Ok r
                         | None =>
                             try_values more
                               (restore_domains applied.2 r.1.2)
                               (odict_del r.2 var)
                         end
                     end
                   else try_values more domains assignment
               end) domain_values domains assignment
        end
  end.

(** [_solve_csp]. *)
Definition _solve_csp (fuel : nat) (variables : list string)
    (domains : domains_t) (constraints : list (string * string))
    (max_iterations : Z) (allow_conflicts : bool)
    : result (option (odict csp_value)) :=
  let? domains :=
    if allow_conflicts then Ok (Some domains)
    else
      let? domains := _apply_arc_consistency fuel constraints domains in
      let? some_empty :=
        foldr (λ var acc,
                 let? d := domain_get domains var in
                 match d with
                 | [] => Ok true
                 | _ => acc
                 end)
              (Ok false) variables in
      Ok (if some_empty then None else Some domains) in
  match domains with
  | None => Ok None
  | Some domains =>
      rmap (λ r, r.1.1)
        (_csp_backtrack fuel variables domains [] max_iterations
           allow_conflicts)
  end.

(** [_convert_csp_solution_to_schedule]. *)
Definition _convert_csp_solution_to_schedule (solution : odict csp_value)
    : list schedule_entry :=
  kv ← solution;
  let assignment := kv.2 in
  let component_type := backtrack_component_type (v_course assignment) in
  session ← v_pattern assignment;
  [make_entry (v_course assignment) (v_section assignment) session
     (v_room assignment) (v_faculty assignment) component_type].

(** The name of the variable of an obligation,
    [f"{course_code}_{section_name}"]. *)
Definition csp_var_name (o : course * section) : string :=
  course_code o.1 +:+ "_" +:+ section_name o.2.

(** The dictionary [domains] after the loop over the obligations; a
    later obligation of the same name replaces the domain of an earlier
    one. *)
Definition csp_domains (counter : Z) (obs : list (course * section))
    : domains_t :=
  foldl (λ acc o,
           <[csp_var_name o := _generate_csp_domain counter o.1 o.2]> acc)
        ∅ obs.

(** [_constraint_satisfaction_scheduling]. *)
Definition _constraint_satisfaction_scheduling (fuel : nat)
    (courses_to_schedule : list course) (max_iterations : Z)
    (allow_conflicts : bool) (counter : Z) : run_result :=
  let obs := obligations courses_to_schedule in
  let variables := csp_var_name <$> obs in
  let domains := csp_domains counter obs in
  let constraints := _generate_csp_constraints variables in
  let? solution :=
    _solve_csp fuel variables domains constraints max_iterations
      allow_conflicts in
  match solution with
  | Some (kv :: rest) =>
      Ok (_convert_csp_solution_to_schedule (kv :: rest), counter)
  | _ => _greedy_scheduling courses_to_schedule true counter
  end.

(** ** Entry point *)

(** [generate_schedule] on a scheduler object whose four tables are
    loaded; [counter] is the object's [day_pairing_counter] at the call,
    and the answer carries the value the call leaves there.  [fuel] is
    the budget of the two CSP loops. *)
Definition generate_schedule (fuel : nat) (algorithm : string)
    (max_iterations : Z) (term_filter : option Z) (allow_conflicts : bool)
    (counter : Z) : run_result :=
  let courses_to_schedule :=
    match term_filter with
    | Some t => if t =? 0 then courses
                else filter (λ c, term c = t) courses
    | None => courses
    end in
  if bool_decide (algorithm = "greedy") then
    _greedy_scheduling courses_to_schedule allow_conflicts counter
  else if bool_decide (algorithm = "backtracking") then
    _backtracking_scheduling courses_to_schedule max_iterations
      allow_conflicts counter
  else if bool_decide (algorithm = "constraint satisfaction") then
    _constraint_satisfaction_scheduling fuel courses_to_schedule
      max_iterations allow_conflicts counter
  else Raise (ValueError "Unknown algorithm").

(** ** Sample states and sessions *)

(** The ledgers of a run on faculty Alice and Bob, rooms R101 and R102
    and section BSCS11A, before any booking. *)
Definition sample_state : state :=
  {| schedule_list := [];
     faculty_schedule := empty_ledger ["Alice"; "Bob"];
     room_schedule := empty_ledger ["R101"; "R102"];
     section_schedule := empty_ledger ["BSCS11A"];
     day_pairing_counter := 0 |}.

Definition monday_7_to_9 : session := Session "Monday" "07:00" "09:00" 4.
Definition monday_9_to_11 : session := Session "Monday" "09:00" "11:00" 4.

(** ** Vocabulary of the properties *)

(** Every slot of the grid reads as a time between 07:00 and 20:30. *)
Definition slot_in_range (x : string) : bool :=
  match strptime x with
  | Some t => (420 <=? minutes_of t) && (minutes_of t <=? 1230)
  | None => false
  end.

Definition on_grid (s : session) : Prop :=
  start_time s ∈ time_slots ∧ end_time s ∈ time_slots.

(** The day map of one resource after the sessions of a pattern were
    booked in it. *)
Definition book_days (course_row : course) (section_row : section)
    (d : day_map) (p : pattern) : day_map :=
  foldl (λ d s,
           <[day s := booked d (day s) ++ [make_info course_row section_row s]]> d)
        d p.

Definition entries_of (course_row : course) (section_row : section)
    (p : pattern) (room_name faculty_name component_type : string)
    : list schedule_entry :=
  (λ s, make_entry course_row section_row s room_name faculty_name
          component_type) <$> p.

(** What [ledger_remove] does to the day map of the resource. *)
Definition clean_day (keep : session_info → bool) (dy : string)
    (d : day_map) : day_map :=
  match d !! dy with
  | Some existing =>
      match List.filter keep existing with
      | [] => delete dy d
      | kept => <[dy := kept]> d
      end
  | None => d
  end.

Definition unbook_days (keep : session_info → bool) (d : day_map)
    (p : pattern) : day_map :=
  foldl (λ d s, clean_day keep (day s) d) d p.

Definition clean_opt (keep : session_info → bool)
    (o : option (list session_info)) : option (list session_info) :=
  match o with
  | Some existing =>
      match List.filter keep existing with
      | [] => None
      | kept => Some kept
      end
  | None => None
  end.

(** The filters of [_undo_assignment_backtrack]: a booking survives in
    the faculty and room ledgers unless it carries the course code and the
    section name, and in the section ledger unless it carries the course
    code. *)
Definition keep_pair (c : course) (s : section) (x : session_info) : bool :=
  negb (bool_decide (si_course x = course_code c)
        && bool_decide (si_section x = section_name s)).

Definition keep_course (c : course) (x : session_info) : bool :=
  negb (bool_decide (si_course x = course_code c)).

(** A day map is ready for a record that [unbook_days] can take back:
    under each day of the pattern it holds no booking the filter would
    remove, and no empty list. *)
Definition undoable (keep : session_info → bool) (d : day_map)
    (p : pattern) : Prop :=
  ∀ sess, sess ∈ p →
    Forall (λ x, keep x = true) (booked d (day sess))
    ∧ d !! day sess ≠ Some [].

(** The rows a placed component adds. *)
Definition component_rows (c : course) (s : section) (ct : string)
    (hours : Z) (room_kind : string) (es : list schedule_entry) : Prop :=
  es = []
  ∨ ∃ counter p fr rr,
      p ∈ _get_time_patterns counter hours ct
      ∧ fr ∈ faculty
      ∧ rr ∈ rooms ∧ room_type rr = room_kind
      ∧ es = entries_of c s p (room_name rr) (faculty_name fr) ct.

(** No two rows of [l] with the same [key] (room, faculty or section)
    and the same day overlap in time. *)
Definition overlap_free (key : schedule_entry → string)
    (l : list schedule_entry) : Prop :=
  ∀ i j e1 e2,
    i ≠ j → l !! i = Some e1 → l !! j = Some e2 →
    key e1 = key e2 → e_day e1 = e_day e2 →
    _times_overlap (e_start_time e1) (e_end_time e1)
      (e_start_time e2) (e_end_time e2) = false.

(** The row [e] is booked in the ledger [L] under its [key] and day. *)
Definition booked_in (L : ledger) (key : schedule_entry → string)
    (e : schedule_entry) : Prop :=
  ∃ d x, L !! key e = Some d ∧ x ∈ booked d (e_day e)
         ∧ si_start_time x = e_start_time e
         ∧ si_end_time x = e_end_time e.

(** The ledger [L] knows every row of the output and the output is free
    of overlaps for the resource [key]. *)
Definition tracked (key : schedule_entry → string) (L : ledger)
    (sched : list schedule_entry) : Prop :=
  (∀ e, e ∈ sched → booked_in L key e) ∧ overlap_free key sched.

(** No booked session of the day overlaps a session of the pattern. *)
Definition fits (p : pattern) (d : day_map) : Prop :=
  ∀ sess, sess ∈ p → conflicts sess (booked d (day sess)) = false.

(** The state of a greedy run: the ledgers have their keys, the faculty
    and room ledgers track the output, the section ledger tracks it when
    [track_sections] is set, every row belongs to a section already
    started, and every row lies on the grid. *)
Record greedy_inv (seen : list string) (track_sections : bool)
    (st : state) : Prop := GreedyInv {
  inv_faculty_keys :
    ∀ fr, fr ∈ faculty → is_Some (faculty_schedule st !! faculty_name fr);
  inv_room_keys :
    ∀ rr, rr ∈ rooms → is_Some (room_schedule st !! room_name rr);
  inv_faculty : tracked e_faculty (faculty_schedule st) (schedule_list st);
  inv_room : tracked e_room (room_schedule st) (schedule_list st);
  inv_section :
    track_sections = true →
    tracked e_section (section_schedule st) (schedule_list st);
  inv_seen : ∀ e, e ∈ schedule_list st → e_section e ∈ seen;
  inv_grid :
    ∀ e, e ∈ schedule_list st →
         e_start_time e ∈ time_slots ∧ e_end_time e ∈ time_slots
}.

(** A computation of the greedy run for the section named [sn]: from a
    state that satisfies the invariant it answers, without an exception,
    in a state that satisfies it. *)
Definition preserves {A} (seen : list string) (ts : bool) (sn : string)
    (m : M A) : Prop :=
  ∀ st, greedy_inv seen ts st → is_Some (section_schedule st !! sn) →
        ∃ a st', m st = Ok (a, st') ∧ greedy_inv seen ts st'
                 ∧ is_Some (section_schedule st' !! sn).

(** A candidate the greedy search may meet: a generated pattern with a
    faculty member and a room of the tables. *)
Definition good_candidate (x : pattern * string * string) : Prop :=
  NoDup (day <$> x.1.1) ∧ Forall on_grid x.1.1
  ∧ (∃ fr, fr ∈ faculty ∧ x.1.2 = faculty_name fr)
  ∧ (∃ rr, rr ∈ rooms ∧ x.2 = room_name rr).

(** The state with the rotation counter moved by [k] full rotations. *)
Definition shift (k : Z) (st : state) : state :=
  {| schedule_list := schedule_list st;
     faculty_schedule := faculty_schedule st;
     room_schedule := room_schedule st;
     section_schedule := section_schedule st;
     day_pairing_counter := day_pairing_counter st + 3 * k |}.

Definition shift_answer {A} (k : Z) (r : result (A * state))
    : result (A * state) :=
  match r with
  | Ok (a, st) => Ok (a, shift k st)
  | Raise e => Raise e
  | OutOfFuel => OutOfFuel
  end.

(** A computation that reads the counter only through its rotation: on
    a shifted state it gives the same answer in the shifted state. *)
Definition rotation_only {A} (m : M A) : Prop :=
  ∀ k st, m (shift k st) = shift_answer k (m st).

Definition shift_run (k : Z) (r : run_result) : run_result :=
  match r with
  | Ok (schedule, counter) => Ok (schedule, counter + 3 * k)
  | Raise e => Raise e
  | OutOfFuel => OutOfFuel
  end.

(** The schedule of an outcome, the exception or the exhausted budget
    kept as they are. *)
Definition schedule_of (r : run_result) : result (list schedule_entry) :=
  rmap fst r.


(** ** The conflict detector of utils/helpers.py

    [detect_scheduling_conflicts] reads the DataFrame [generate_schedule]
    returns: its rows are the output rows, its index their positions. *)

(** [times_overlap] of helpers.py. *)
Definition times_overlap (start1 end1 start2 end2 : string) : bool :=
  match strptime start1, strptime end1, strptime start2, strptime end2 with
  | Some start1_dt, Some end1_dt, Some start2_dt, Some end2_dt =>
      negb (time_le end1_dt start2_dt || time_le end2_dt start1_dt)
  | _, _, _, _ => false
  end.

(** One row of the DataFrame of conflicts. *)
Record conflict := Conflict {
  conflict_type : string;
  resource : string;
  conflict_day : string;
  time1 : string;
  time2 : string;
  course1 : string;
  course2 : string
}.

(** [Series.unique()]: the values in order of first appearance. *)
Definition unique (values : list string) : list string :=
  foldl (λ seen x, if bool_decide (x ∈ seen) then seen else seen ++ [x])
        [] values.

(** [DataFrame.iterrows()] on the default index. *)
Definition iterrows (df : list schedule_entry)
    : list (nat * schedule_entry) :=
  imap (λ idx row, (idx, row)) df.

(** The row appended for two rows of one room. *)
Definition room_conflict (room : string) (row1 row2 : schedule_entry)
    : conflict :=
  {| conflict_type := "Room";
     resource := room;
     conflict_day := e_day row1;
     time1 := e_start_time row1 +:+ "-" +:+ e_end_time row1;
     time2 := e_start_time row2 +:+ "-" +:+ e_end_time row2;
     course1 := e_course_code row1 +:+ " (" +:+ e_section row1 +:+ ")";
     course2 := e_course_code row2 +:+ " (" +:+ e_section row2 +:+ ")" |}.

(** [detect_scheduling_conflicts]; the empty list is the empty
    DataFrame. *)
Definition detect_scheduling_conflicts (schedule_df : list schedule_entry)
    : list conflict :=
  match schedule_df with
  | [] => []
  | _ =>
      room ← unique (e_room <$> schedule_df);
      let room_schedule :=
        filter (λ ir, e_room ir.2 = room) (iterrows schedule_df) in
      ir1 ← room_schedule;
      ir2 ← room_schedule;
      if (ir2.1 <=? ir1.1)%nat then [] else
      if bool_decide (e_day ir1.2 = e_day ir2.2)
         && times_overlap (e_start_time ir1.2) (e_end_time ir1.2)
              (e_start_time ir2.2) (e_end_time ir2.2)
      then [room_conflict room ir1.2 ir2.2]
      else []
  end.

(** ** Further sample inputs

    Two studio courses of many weekly hours, which have few candidate
    patterns. *)

Definition ar301 : course :=
  Course "AR301" "Design Studio I" "BSCS" 1 1 "Lecture" 5 20.
Definition ar302 : course :=
  Course "AR302" "Design Studio II" "BSCS" 1 1 "Lecture" 5 22.

(** ** Vocabulary of the further properties *)

(** [strptime] reads [strftime m] back as the time of minute [m]. *)
Definition reads_back (m : Z) : bool :=
  match strptime (strftime m) with
  | Some t => (hour t =? m / 60) && (minute t =? m mod 60)
  | None => false
  end.

(** The (start, end) pairs of a paired branch that yield a candidate. *)
Definition fitting_slots (starts : list string) (session_hours : duration)
    : list (string * string) :=
  start_time ← starts;
  match _add_hours_to_time start_time session_hours with
  | Some e => if in_time_slots (Some e) then [(start_time, e)] else []
  | None => []
  end.

(** A row the greedy assigner writes for course [c] and section [s]:
    one session on the grid, a faculty member and a room of the tables,
    a tag that is Lecture or Lab, and, for the three course types Lecture,
    Lab and Both (in any letter case), a room whose type is the tag. *)
Definition greedy_row (c : course) (s : section) (e : schedule_entry)
    : Prop :=
  ∃ sess fr rr ct,
    fr ∈ faculty ∧ rr ∈ rooms ∧ on_grid sess
    ∧ e = make_entry c s sess (room_name rr) (faculty_name fr) ct
    ∧ (ct = "Lecture" ∨ ct = "Lab")
    ∧ (lower (course_type c) ∈ ["lecture"; "lab"; "both"] →
       room_type rr = ct).

(** The course [c] is taught to the section [s]: same program, year
    level and term. *)
Definition matches (c : course) (s : section) : Prop :=
  program c = sec_program s ∧ year_level c = sec_year_level s
  ∧ term c = sec_term s.

(** The ledgers hold the faculty members and the rooms of the tables and
    the sections named in [sns]. *)
Definition keyed (sns : list string) (st : state) : Prop :=
  (∀ fr, fr ∈ faculty → is_Some (faculty_schedule st !! faculty_name fr))
  ∧ (∀ rr, rr ∈ rooms → is_Some (room_schedule st !! room_name rr))
  ∧ (∀ sn, sn ∈ sns → is_Some (section_schedule st !! sn)).

(** The output of [st'] is the output of [st] with rows appended, one
    or two for each step of the rotation counter. *)
Definition extends (st st' : state) : Prop :=
  ∃ es, schedule_list st' = schedule_list st ++ es
        ∧ day_pairing_counter st' - day_pairing_counter st
          ≤ Z.of_nat (length es)
          ≤ 2 * (day_pairing_counter st' - day_pairing_counter st).

(** The components the greedy assigner schedules for a course: the tag,
    the weekly hours and the type of room of each. *)
Definition components (c : course) : list (string * Z * string) :=
  if bool_decide (lower (course_type c) = "both")
  then [("Lecture", hours_per_week c / 2, "Lecture");
        ("Lab", hours_per_week c - hours_per_week c / 2, "Lab")]
  else [(if str_contains "lecture" (lower (course_type c))
         then "Lecture" else "Lab",
         hours_per_week c, required_room_type_of c)].

(** The rows hold every component of [c] for [s] that has fewer than 28
    hours and a room of its type. *)
Definition covered (c : course) (s : section) (sched : list schedule_entry)
    : Prop :=
  ∀ ct h kind,
    (ct, h, kind) ∈ components c → 0 ≤ h < 28 → rooms_of_type kind ≠ [] →
    ∃ e, e ∈ sched ∧ e_course_code e = course_code c
         ∧ e_section e = section_name s ∧ e_course_type e = ct.

(** A candidate names a faculty member and a room of the tables. *)
Definition named_candidate (x : pattern * string * string) : Prop :=
  (1 ≤ length x.1.1 ≤ 2)%nat
  ∧ (∃ fr, fr ∈ faculty ∧ x.1.2 = faculty_name fr)
  ∧ (∃ rr, rr ∈ rooms ∧ x.2 = room_name rr).

(** An option [_get_possible_assignments] offers for course [c]: not yet
    recorded, a generated Lecture pattern of the course's weekly hours, a
    faculty member of the table and a room of the type the course asks
    for. *)
Definition option_for (c : course) (o : assignment_option) : Prop :=
  assignment_data o = None
  ∧ ∃ counter fr rr,
      opt_pattern o ∈ _get_time_patterns counter (hours_per_week c) "Lecture"
      ∧ fr ∈ faculty ∧ opt_faculty o = faculty_name fr
      ∧ rr ∈ rooms ∧ room_type rr = required_room_type_of c
      ∧ opt_room o = room_name rr.

(** The rows the backtracking search writes for one obligation: the
    sessions of one option, tagged by [backtrack_component_type]. *)
Definition placed_rows (a : course * section) (rows : list schedule_entry)
    : Prop :=
  ∃ o, option_for a.1 o
       ∧ rows = entries_of a.1 a.2 (opt_pattern o) (opt_room o)
                  (opt_faculty o) (backtrack_component_type a.1).

(** What a call of [_backtrack_assign] on the obligations [assignments]
    leaves behind: on success one option's rows for each obligation, in
    order, and one step of the counter for each; on failure the output
    and the counter as they were. *)
Definition search_outcome (assignments : list (course * section))
    (max_iterations : Z) (st st' : state) (b : bool) : Prop :=
  if b then
    day_pairing_counter st'
    = day_pairing_counter st + Z.of_nat (length assignments)
    ∧ (∃ rowss, Forall2 placed_rows assignments rowss
                ∧ schedule_list st' = schedule_list st ++ concat rowss)
    ∧ (assignments ≠ [] →
       Z.of_nat (length (schedule_list st')) ≤ max_iterations + 2)
  else
    schedule_list st' = schedule_list st
    ∧ day_pairing_counter st' = day_pairing_counter st.

(** The obligations in the order the backtracking search takes them. *)
Definition search_order (courses_to_schedule : list course)
    : list (course * section) :=
  sort_by_key true
    ((λ a, (_calculate_constraint_complexity a.1, a)) <$>
       obligations courses_to_schedule).

(** Every two elements of the list are related, the earlier to the
    later. *)
Fixpoint pairwise {A} (R : A → A → Prop) (l : list A) : Prop :=
  match l with
  | [] => True
  | x :: rest => Forall (R x) rest ∧ pairwise R rest
  end.

(** The value [v] is in the domain the dictionary [domains0] gives the
    variable [var]. *)
Definition from_domains (domains0 : domains_t) (var : string)
    (v : csp_value) : Prop :=
  ∃ d0, domains0 !! var = Some d0 ∧ v ∈ d0.

(** The dictionary [domains] gives each variable values of its domain in
    [domains0] only. *)
Definition within (domains0 domains : domains_t) : Prop :=
  ∀ var d, domains !! var = Some d → Forall (from_domains domains0 var) d.

(** The two values satisfy the constraint between two variables. *)
Definition compatible (kv1 kv2 : string * csp_value) : Prop :=
  _values_satisfy_constraint kv1.2 kv2.2 = true.

(** An assignment of the CSP search: each variable at most once, only
    variables of the problem, each with a value of its domain, and, with
    conflicts disallowed, values that satisfy the constraints two by
    two. *)
Definition partial_solution (variables : list string)
    (domains0 : domains_t) (allow_conflicts : bool)
    (assignment : odict csp_value) : Prop :=
  NoDup assignment.*1
  ∧ assignment.*1 ⊆ variables
  ∧ Forall (λ kv, from_domains domains0 kv.1 kv.2) assignment
  ∧ (allow_conflicts = false → pairwise compatible assignment).

(** The dictionary has a domain for each of the names. *)
Definition has_keys (names : list string) (domains : domains_t) : Prop :=
  ∀ var, var ∈ names → is_Some (domains !! var).

(** What a call of [_csp_backtrack] on [assignment] may answer: a
    solution that assigns every variable, or no solution with the
    assignment as it was, or the [ValueError] of [min] on an empty list,
    which takes two variables of the same name; it does not exhaust the
    budget. *)
Definition search_answer (variables : list string) (domains0 : domains_t)
    (allow_conflicts : bool) (assignment : odict csp_value)
    (r : result (option (odict csp_value) * domains_t * odict csp_value))
    : Prop :=
  match r with
  | Ok (Some solution, domains', _) =>
      within domains0 domains' ∧ has_keys variables domains'
      ∧ partial_solution variables domains0 allow_conflicts solution
      ∧ length solution = length variables
  | Ok (None, domains', assignment') =>
      within domains0 domains' ∧ has_keys variables domains'
      ∧ assignment' = assignment
  | Raise e =>
      e = ValueError "min() arg is an empty sequence" ∧ ¬ NoDup variables
  | OutOfFuel => False
  end.

(** The domains [_csp_backtrack] saves before an inference hold values
    of the variables' domains in [domains0] only. *)
Definition saved_within (domains0 : domains_t)
    (old_domains : odict (list csp_value)) : Prop :=
  Forall (λ kv, Forall (from_domains domains0 kv.1) kv.2) old_domains.

(** A value the CSP solver may give the variable of an obligation of
    [obs]: a value of the domain generated for that obligation. *)
Definition csp_choice (counter : Z) (obs : list (course * section))
    (kv : string * csp_value) : Prop :=
  ∃ o, o ∈ obs ∧ csp_var_name o = kv.1
       ∧ kv.2 ∈ _generate_csp_domain counter o.1 o.2.



(** A row any of the three algorithms writes for course [c] and section
    [s]: one session on the grid with a faculty member and a room of the
    tables. *)
Definition scheduled_row (c : course) (s : section) (e : schedule_entry)
    : Prop :=
  ∃ sess fr rr ct,
    fr ∈ faculty ∧ rr ∈ rooms ∧ on_grid sess
    ∧ e = make_entry c s sess (room_name rr) (faculty_name fr) ct.

(** Every row is for a course of [cts] and a section of the table that
    have the same program, year level and term. *)
Definition rows_match (cts : list course) (schedule : list schedule_entry)
    : Prop :=
  Forall (λ e, ∃ c s, c ∈ cts ∧ s ∈ sections ∧ matches c s
                      ∧ scheduled_row c s e) schedule.

(** The rows of a component that was placed: the sessions of one
    generated pattern, with a faculty member of the table and a room of
    the kind. *)
Definition component_placed (c : course) (s : section) (ct : string)
    (hours : Z) (room_kind : string) (es : list schedule_entry) : Prop :=
  ∃ counter p fr rr,
    p ∈ _get_time_patterns counter hours ct
    ∧ fr ∈ faculty
    ∧ rr ∈ rooms ∧ room_type rr = room_kind
    ∧ es = entries_of c s p (room_name rr) (faculty_name fr) ct.

(** * Properties *)

(** ** Time domain *)

Lemma digit_val_range c d : digit_val c = Some d → 0 ≤ d ≤ 9.
Proof.
  unfold digit_val. case_match eqn:E; [|done].
  intros [= <-]. apply andb_prop in E as [?%Nat.leb_le ?%Nat.leb_le]. lia.
Qed.

Lemma parse_minute_range s m : parse_minute s = Some m → 0 ≤ m ≤ 59.
Proof.
  destruct s as [|a [|b [|c r]]]; simpl; try done.
  - intros ?%digit_val_range. lia.
  - destruct (digit_val a) as [x|] eqn:Ha; [|done].
    destruct (digit_val b) as [y|] eqn:Hb; [|done].
    apply digit_val_range in Ha, Hb.
    case_match eqn:E; [|done]. intros [= <-]. lia.
Qed.

Lemma strptime_range s t :
  strptime s = Some t → 0 ≤ hour t ≤ 23 ∧ 0 ≤ minute t ≤ 59.
Proof.
  destruct s as [|a [|b r]]; simpl; try done.
  case_bool_decide.
  - destruct (digit_val a) as [x|] eqn:Ha; simpl; [|done].
    destruct (parse_minute r) as [m|] eqn:Hm; simpl; [|done].
    intros [= <-]. simpl.
    apply digit_val_range in Ha. apply parse_minute_range in Hm. lia.
  - destruct r as [|c r']; [done|]. case_bool_decide; [|done].
    destruct (digit_val a) as [x|] eqn:Ha; simpl; [|done].
    destruct (digit_val b) as [y|] eqn:Hb; simpl; [|done].
    case_match eqn:E; [|done].
    destruct (parse_minute r') as [m|] eqn:Hm; simpl; [|done].
    intros [= <-]. simpl.
    apply digit_val_range in Ha, Hb. apply parse_minute_range in Hm. lia.
Qed.

Lemma time_le_minutes a b :
  0 ≤ minute a ≤ 59 → 0 ≤ minute b ≤ 59 →
  time_le a b = (minutes_of a <=? minutes_of b).
Proof.
  intros Ha Hb. unfold time_le, minutes_of.
  destruct (hour a <? hour b) eqn:E1, (hour a =? hour b) eqn:E2,
    (minute a <=? minute b) eqn:E3; simpl; symmetry;
    first [apply Z.leb_le | apply Z.leb_gt]; lia.
Qed.

Lemma time_le_refl t : time_le t t = true.
Proof.
  unfold time_le. rewrite Z.eqb_refl, Z.leb_refl. by rewrite orb_true_r.
Qed.

Lemma times_overlap_sym s1 e1 s2 e2 :
  _times_overlap s1 e1 s2 e2 = _times_overlap s2 e2 s1 e1.
Proof.
  unfold _times_overlap.
  destruct (strptime s1), (strptime e1), (strptime s2), (strptime e2);
    try done.
  by rewrite orb_comm.
Qed.

(** C8.  On strings that [strptime] accepts, [_times_overlap] answers
    [True] exactly when each interval starts strictly before the other
    ends, that is when neither ends at or before the start of the other;
    intervals that only touch ([end1 = start2] or [end2 = start1]) do not
    overlap. *)
Theorem times_overlap_half_open s1 e1 s2 e2 a1 b1 a2 b2 :
  strptime s1 = Some a1 → strptime e1 = Some b1 →
  strptime s2 = Some a2 → strptime e2 = Some b2 →
  (_times_overlap s1 e1 s2 e2 = true
   ↔ ¬ minutes_of b1 ≤ minutes_of a2 ∧ ¬ minutes_of b2 ≤ minutes_of a1)
  ∧ (e1 = s2 → _times_overlap s1 e1 s2 e2 = false)
  ∧ (e2 = s1 → _times_overlap s1 e1 s2 e2 = false).
Proof.
  intros H1 H2 H3 H4.
  pose proof (strptime_range _ _ H1) as [_ ?].
  pose proof (strptime_range _ _ H2) as [_ ?].
  pose proof (strptime_range _ _ H3) as [_ ?].
  pose proof (strptime_range _ _ H4) as [_ ?].
  unfold _times_overlap. rewrite H1, H2, H3, H4.
  split; [|split].
  - rewrite !time_le_minutes by done.
    rewrite negb_true_iff, orb_false_iff, !Z.leb_gt. lia.
  - intros ->. assert (b1 = a2) as -> by congruence.
    by rewrite time_le_refl.
  - intros ->. assert (b2 = a1) as -> by congruence.
    by rewrite time_le_refl, orb_true_r.
Qed.

(** ** Pattern generator *)

Lemma time_slots_in_range : Forall (λ x, slot_in_range x = true) time_slots.
Proof.
  apply Forall_forall. intros x Hx%list_elem_of_In. revert x Hx.
  apply forallb_forall. by vm_compute.
Qed.

Lemma time_slots_parse x :
  x ∈ time_slots →
  ∃ t, strptime x = Some t ∧ 420 ≤ minutes_of t ≤ 1230.
Proof.
  intros Hx.
  pose proof (proj1 (Forall_forall _ _) time_slots_in_range x Hx) as H.
  unfold slot_in_range in H. destruct (strptime x) as [t|]; [|done].
  exists t. split; [done|]. apply andb_prop in H as [?%Z.leb_le ?%Z.leb_le].
  lia.
Qed.

Lemma drop_last_subseteq {A} n (l : list A) : drop_last n l ⊆ l.
Proof. apply subseteq_take. Qed.

Lemma paired_patterns_on_grid pairings starts h :
  starts ⊆ time_slots →
  Forall (Forall on_grid) (paired_patterns pairings starts h).
Proof.
  intros Hsub. unfold paired_patterns.
  apply Forall_bind, Forall_forall. intros [day1 day2] _. simpl.
  apply Forall_bind, Forall_forall. intros start Hstart. simpl.
  destruct (_add_hours_to_time start h) as [e|] eqn:He; [|constructor].
  simpl. case_bool_decide as Hin; [|constructor].
  apply Forall_singleton.
  repeat (apply Forall_cons; split; [split; simpl; auto|]). apply Forall_nil_2.
Qed.

Lemma single_patterns_on_grid starts h :
  starts ⊆ time_slots →
  Forall (Forall on_grid) (single_patterns starts h).
Proof.
  intros Hsub. unfold single_patterns.
  apply Forall_bind, Forall_forall. intros d _. simpl.
  apply Forall_bind, Forall_forall. intros start Hstart. simpl.
  destruct (_add_hours_to_time start h) as [e|] eqn:He; [|constructor].
  simpl. case_bool_decide as Hin; [|constructor].
  apply Forall_singleton, Forall_singleton. split; simpl; auto.
Qed.

Lemma get_time_patterns_on_grid counter hours component_type :
  Forall (Forall on_grid) (_get_time_patterns counter hours component_type).
Proof.
  unfold _get_time_patterns.
  repeat case_match;
    first [apply paired_patterns_on_grid | apply single_patterns_on_grid];
    apply drop_last_subseteq.
Qed.

(** C10.  The grid has the 28 slots 07:00 to 20:30 and 21:00 is not one of
    them; both ends of every session of every generated pattern are slots
    of the grid, so every generated session ends at 20:30 at the
    latest. *)
Theorem generated_sessions_end_by_2030 counter hours component_type :
  length time_slots = 28%nat
  ∧ head time_slots = Some "07:00"
  ∧ last time_slots = Some "20:30"
  ∧ ("21:00" ∉ time_slots)
  ∧ Forall (Forall (λ s,
        start_time s ∈ time_slots ∧ end_time s ∈ time_slots
        ∧ ∃ t, strptime (end_time s) = Some t ∧ minutes_of t ≤ 20 * 60 + 30))
      (_get_time_patterns counter hours component_type).
Proof.
  split; [by vm_compute|]. split; [by vm_compute|]. split; [by vm_compute|].
  split.
  { intros Hin. by apply (bool_decide_pack _) in Hin; vm_compute in Hin. }
  eapply Forall_impl; [apply get_time_patterns_on_grid|].
  intros p Hp. eapply Forall_impl; [exact Hp|].
  intros s [Hs He]. repeat split; try done.
  destruct (time_slots_parse _ He) as (t & Ht & Hr).
  exists t. split; [done|lia].
Qed.

(** ** The monad *)

Lemma bind_ok {A B} (m : M A) (k : A → M B) st a st' :
  m st = Ok (a, st') → bind m k st = k a st'.
Proof. unfold bind. by intros ->. Qed.

Lemma bind_inv {A B} (m : M A) (k : A → M B) st x :
  bind m k st = Ok x → ∃ a st', m st = Ok (a, st') ∧ k a st' = Ok x.
Proof.
  unfold bind. destruct (m st) as [[a st']| |]; try done. eauto.
Qed.

Lemma rbind_inv {A B} (r : result A) (k : A → result B) x :
  rbind r k = Ok x → ∃ a, r = Ok a ∧ k a = Ok x.
Proof. destruct r; try done. eauto. Qed.

Lemma lift_inv {A} (r : state → result A) st a st' :
  lift r st = Ok (a, st') → r st = Ok a ∧ st' = st.
Proof.
  unfold lift. intros (a' & Hr & [= -> ->])%rbind_inv. done.
Qed.

Lemma update_inv (f : state → result state) st u st' :
  update f st = Ok (u, st') → f st = Ok st'.
Proof.
  unfold update. intros (a' & Hr & [= _ ->])%rbind_inv. done.
Qed.

Lemma ledger_get_inv l name d : ledger_get l name = Ok d → l !! name = Some d.
Proof. unfold ledger_get. by destruct (l !! name); intros [=]; subst. Qed.

Lemma ledger_get_ok l name d : l !! name = Some d → ledger_get l name = Ok d.
Proof. unfold ledger_get. by intros ->. Qed.

(** ** Recording a pattern *)

Lemma ledger_append_ok l name d dy info :
  l !! name = Some d →
  ledger_append l name dy info
  = Ok (<[name := <[dy := booked d dy ++ [info]]> d]> l).
Proof. unfold ledger_append. by intros ->%ledger_get_ok. Qed.

Lemma record_session_ok c s f r ct sess st df dr ds :
  faculty_schedule st !! f = Some df →
  room_schedule st !! r = Some dr →
  section_schedule st !! section_name s = Some ds →
  record_session c s f r ct sess st
  = Ok (tt,
        {| schedule_list := schedule_list st ++ [make_entry c s sess r f ct];
           faculty_schedule :=
             <[f := book_days c s df [sess]]> (faculty_schedule st);
           room_schedule := <[r := book_days c s dr [sess]]> (room_schedule st);
           section_schedule :=
             <[section_name s := book_days c s ds [sess]]>
               (section_schedule st);
           day_pairing_counter := day_pairing_counter st |}).
Proof.
  intros Hf Hr Hs. unfold record_session, update.
  rewrite (ledger_append_ok _ _ _ _ _ Hf), (ledger_append_ok _ _ _ _ _ Hr),
    (ledger_append_ok _ _ _ _ _ Hs).
  done.
Qed.

Lemma record_sessions_ok c s f r ct p : ∀ st df dr ds,
  faculty_schedule st !! f = Some df →
  room_schedule st !! r = Some dr →
  section_schedule st !! section_name s = Some ds →
  record_sessions c s f r ct p st
  = Ok (tt,
        {| schedule_list := schedule_list st ++ entries_of c s p r f ct;
           faculty_schedule := <[f := book_days c s df p]> (faculty_schedule st);
           room_schedule := <[r := book_days c s dr p]> (room_schedule st);
           section_schedule :=
             <[section_name s := book_days c s ds p]> (section_schedule st);
           day_pairing_counter := day_pairing_counter st |}).
Proof.
  induction p as [|sess p IH]; intros st df dr ds Hf Hr Hs.
  - cbn. unfold ret. rewrite app_nil_r, !insert_id by done. by destruct st.
  - cbn [record_sessions].
    erewrite bind_ok by (by apply record_session_ok).
    erewrite IH; cbn [faculty_schedule room_schedule section_schedule];
      [|apply lookup_insert_eq..].
    cbn [schedule_list day_pairing_counter].
    rewrite !insert_insert_eq, <-app_assoc. done.
Qed.

Lemma record_session_counter c s f r ct sess st u st' :
  record_session c s f r ct sess st = Ok (u, st') →
  day_pairing_counter st' = day_pairing_counter st.
Proof.
  unfold record_session. intros H%update_inv.
  apply rbind_inv in H as (? & _ & H). apply rbind_inv in H as (? & _ & H).
  apply rbind_inv in H as (? & _ & H). by injection H as <-.
Qed.

Lemma record_sessions_counter c s f r ct p : ∀ st u st',
  record_sessions c s f r ct p st = Ok (u, st') →
  day_pairing_counter st' = day_pairing_counter st.
Proof.
  induction p as [|sess p IH]; intros st u st' H.
  - by injection H as _ <-.
  - apply bind_inv in H as (? & st1 & H1 & H2).
    apply record_session_counter in H1. apply IH in H2. congruence.
Qed.

Lemma record_sessions_backtrack_counter c s f r ct p : ∀ acc st data st',
  record_sessions_backtrack c s f r ct p acc st = Ok (data, st') →
  day_pairing_counter st' = day_pairing_counter st.
Proof.
  induction p as [|sess p IH]; intros acc st data st' H.
  - by injection H as _ <-.
  - apply bind_inv in H as (? & st1 & H1 & H2).
    apply bind_inv in H2 as (idx & st2 & [_ ->]%lift_inv & H2).
    apply record_session_counter in H1. apply IH in H2. congruence.
Qed.

Lemma bump_counter_eq delta st :
  bump_counter delta st
  = Ok (tt, {| schedule_list := schedule_list st;
               faculty_schedule := faculty_schedule st;
               room_schedule := room_schedule st;
               section_schedule := section_schedule st;
               day_pairing_counter := day_pairing_counter st + delta |}).
Proof. done. Qed.

(** C6 (amended).  Every successful record, by [_make_assignment] and by
    [_make_assignment_backtrack] alike, leaves the rotation counter
    exactly one higher, whatever the number of sessions of the pattern. *)
Theorem record_increments_counter c s st :
  (∀ p f r ct st1,
     _make_assignment p c s f r ct st = Ok (tt, st1) →
     day_pairing_counter st1 = day_pairing_counter st + 1)
  ∧ (∀ opt recorded st2,
       _make_assignment_backtrack opt c s st = Ok (recorded, st2) →
       day_pairing_counter st2 = day_pairing_counter st + 1).
Proof.
  split.
  - intros p f r ct st1 H1.
    apply bind_inv in H1 as (? & st' & Hrec & Hbump).
    apply record_sessions_counter in Hrec.
    rewrite bump_counter_eq in Hbump. injection Hbump as <-. simpl. lia.
  - intros opt recorded st2 H2.
    apply bind_inv in H2 as (? & st' & Hrec & H2).
    apply record_sessions_backtrack_counter in Hrec.
    apply bind_inv in H2 as (? & st'' & Hbump & Hret).
    rewrite bump_counter_eq in Hbump. injection Hbump as _ <-.
    injection Hret as _ <-. simpl. lia.
Qed.

(** ** Undoing a record *)

Lemma ledger_remove_ok l name d dy keep :
  l !! name = Some d →
  ledger_remove l name dy keep = Ok (<[name := clean_day keep dy d]> l).
Proof.
  intros Hl. unfold ledger_remove, clean_day.
  rewrite (ledger_get_ok _ _ _ Hl). cbn [rbind].
  destruct (d !! dy) as [existing|]; [|by rewrite insert_id].
  by destruct (List.filter keep existing).
Qed.

Lemma unrecord_sessions_ok c s f r p : ∀ st df dr ds,
  faculty_schedule st !! f = Some df →
  room_schedule st !! r = Some dr →
  section_schedule st !! section_name s = Some ds →
  unrecord_sessions c s f r p st
  = Ok (tt,
        {| schedule_list := schedule_list st;
           faculty_schedule :=
             <[f := unbook_days (keep_pair c s) df p]> (faculty_schedule st);
           room_schedule :=
             <[r := unbook_days (keep_pair c s) dr p]> (room_schedule st);
           section_schedule :=
             <[section_name s := unbook_days (keep_course c) ds p]>
               (section_schedule st);
           day_pairing_counter := day_pairing_counter st |}).
Proof.
  induction p as [|sess p IH]; intros st df dr ds Hf Hr Hs.
  - cbn. unfold ret. rewrite !insert_id by done. by destruct st.
  - cbn [unrecord_sessions]. unfold unrecord_session at 1.
    unfold bind at 1, update.
    rewrite (ledger_remove_ok _ _ _ _ _ Hf), (ledger_remove_ok _ _ _ _ _ Hr),
      (ledger_remove_ok _ _ _ _ _ Hs).
    cbn [rbind].
    erewrite IH; cbn [faculty_schedule room_schedule section_schedule];
      [|apply lookup_insert_eq..].
    cbn [schedule_list day_pairing_counter].
    by rewrite !insert_insert_eq.
Qed.

Lemma clean_day_lookup keep dy d k :
  clean_day keep dy d !! k
  = if decide (k = dy) then clean_opt keep (d !! k) else d !! k.
Proof.
  unfold clean_day, clean_opt. case_decide as Hk.
  - subst k. destruct (d !! dy) as [existing|] eqn:Hd; [|by rewrite Hd].
    destruct (List.filter keep existing).
    + apply lookup_delete_eq.
    + apply lookup_insert_eq.
  - destruct (d !! dy) as [existing|] eqn:Hd; [|done].
    destruct (List.filter keep existing).
    + by apply lookup_delete_ne.
    + by apply lookup_insert_ne.
Qed.

Lemma clean_opt_idemp keep o : clean_opt keep (clean_opt keep o) = clean_opt keep o.
Proof.
  destruct o as [existing|]; [|done]. unfold clean_opt.
  destruct (List.filter keep existing) as [|x kept] eqn:E; [done|].
  assert (List.filter keep (x :: kept) = x :: kept) as ->; [|done].
  rewrite <-E. clear. induction existing as [|y l IH]; [done|].
  simpl. destruct (keep y) eqn:Ey; [|done]. simpl. by rewrite Ey, IH.
Qed.

Lemma unbook_days_lookup keep p : ∀ d k,
  unbook_days keep d p !! k
  = if decide (k ∈ day <$> p) then clean_opt keep (d !! k) else d !! k.
Proof.
  induction p as [|sess p IH]; intros d k.
  - cbn. case_decide as H; [|done]. by apply elem_of_nil in H.
  - cbn [unbook_days foldl]. fold (unbook_days keep (clean_day keep (day sess) d) p).
    rewrite IH, clean_day_lookup, fmap_cons.
    destruct (decide (k = day sess)) as [->|Hne].
    + rewrite (decide_True (P := day sess ∈ day sess :: (day <$> p)))
        by left.
      case_decide; [apply clean_opt_idemp | done].
    + case_decide as H1; case_decide as H2; try done.
      * exfalso. apply H2. by right.
      * exfalso. apply elem_of_cons in H2 as [?|?]; done.
Qed.

Lemma booked_insert_eq d dy l : booked (<[dy := l]> d) dy = l.
Proof. unfold booked. by rewrite lookup_insert_eq. Qed.

Lemma booked_insert_ne d dy k l : dy ≠ k → booked (<[dy := l]> d) k = booked d k.
Proof. intros. unfold booked. by rewrite lookup_insert_ne. Qed.

Lemma book_days_lookup c s p : ∀ d k,
  book_days c s d p !! k
  = match filter (λ sess, day sess = k) p with
    | [] => d !! k
    | ss => Some (booked d k ++ (make_info c s <$> ss))
    end.
Proof.
  induction p as [|sess p IH]; intros d k; [done|].
  cbn [book_days foldl].
  fold (book_days c s
          (<[day sess := booked d (day sess) ++ [make_info c s sess]]> d) p).
  rewrite IH. destruct (decide (day sess = k)) as [<-|Hne].
  - rewrite filter_cons_True by done.
    rewrite lookup_insert_eq, booked_insert_eq.
    destruct (filter _ p); [done|]. by rewrite <-app_assoc.
  - rewrite filter_cons_False by done.
    by rewrite lookup_insert_ne, booked_insert_ne.
Qed.

Lemma booked_book_days c s p d k :
  booked (book_days c s d p) k
  = booked d k ++ (make_info c s <$> filter (λ sess, day sess = k) p).
Proof.
  unfold booked at 1. rewrite book_days_lookup.
  destruct (filter _ p); [by rewrite app_nil_r|done].
Qed.

Lemma filter_keep_all keep (l : list session_info) :
  Forall (λ x, keep x = true) l → List.filter keep l = l.
Proof. induction 1 as [|x l Hx _ IH]; [done|]. simpl. by rewrite Hx, IH. Qed.

Lemma filter_keep_none keep (l : list session_info) :
  Forall (λ x, keep x = false) l → List.filter keep l = [].
Proof. induction 1 as [|x l Hx _ IH]; [done|]. simpl. by rewrite Hx, IH. Qed.

Lemma unbook_book_days c s keep d p :
  (∀ sess, keep (make_info c s sess) = false) →
  undoable keep d p →
  unbook_days keep (book_days c s d p) p = d.
Proof.
  intros Hinfo Hd. apply map_eq. intros k.
  rewrite unbook_days_lookup, book_days_lookup. case_decide as Hk.
  - apply list_elem_of_fmap in Hk as (sess & -> & Hsess).
    destruct (Hd _ Hsess) as [Hkeep Hne].
    destruct (filter (λ sess0, day sess0 = day sess) p) as [|s0 ss] eqn:E.
    { assert (sess ∈ filter (λ sess0, day sess0 = day sess) p) as Hin
        by by apply list_elem_of_filter.
      rewrite E in Hin. by apply elem_of_nil in Hin. }
    unfold clean_opt. rewrite List.filter_app, filter_keep_all by done.
    rewrite filter_keep_none, app_nil_r
      by (apply Forall_fmap, Forall_forall; intros; apply Hinfo).
    unfold booked in *. destruct (d !! day sess) as [[|x l]|]; done.
  - destruct (filter (λ sess0, day sess0 = k) p) as [|s0 ss] eqn:E; [done|].
    exfalso. apply Hk.
    assert (s0 ∈ filter (λ sess0, day sess0 = k) p) as Hin
      by (rewrite E; left).
    apply list_elem_of_filter in Hin as [<- Hin].
    by apply list_elem_of_fmap_2.
Qed.

Lemma record_sessions_backtrack_ok c s f r ct p : ∀ acc st df dr ds,
  faculty_schedule st !! f = Some df →
  room_schedule st !! r = Some dr →
  section_schedule st !! section_name s = Some ds →
  record_sessions_backtrack c s f r ct p acc st
  = Ok (acc ++ seq (length (schedule_list st)) (length p),
        {| schedule_list := schedule_list st ++ entries_of c s p r f ct;
           faculty_schedule := <[f := book_days c s df p]> (faculty_schedule st);
           room_schedule := <[r := book_days c s dr p]> (room_schedule st);
           section_schedule :=
             <[section_name s := book_days c s ds p]> (section_schedule st);
           day_pairing_counter := day_pairing_counter st |}).
Proof.
  induction p as [|sess p IH]; intros acc st df dr ds Hf Hr Hs.
  - cbn. unfold ret. rewrite !app_nil_r, !insert_id by done. by destruct st.
  - cbn [record_sessions_backtrack].
    erewrite bind_ok by (by apply record_session_ok).
    unfold bind at 1, lift. cbn [rbind].
    erewrite IH; cbn [faculty_schedule room_schedule section_schedule];
      [|apply lookup_insert_eq..].
    cbn [schedule_list day_pairing_counter].
    rewrite !insert_insert_eq, <-!app_assoc, length_app. cbn [length seq app].
    replace (length (schedule_list st) + 1 - 1)%nat
      with (length (schedule_list st)) by lia.
    replace (length (schedule_list st) + 1)%nat
      with (S (length (schedule_list st))) by lia.
    done.
Qed.

Lemma pop_indices_appended (es l : list schedule_entry) :
  pop_indices (reverse (seq (length l) (length es))) (l ++ es) = l.
Proof.
  induction es as [|e es IH] using rev_ind; [by rewrite app_nil_r|].
  rewrite length_app. cbn [length]. rewrite seq_app, reverse_app.
  cbn [seq reverse rev_append app pop_indices].
  assert (length l + length es < length (l ++ es ++ [e]))%nat as Hlt
    by (rewrite !length_app; simpl; lia).
  apply Nat.ltb_lt in Hlt. rewrite Hlt.
  rewrite app_assoc.
  replace (length l + length es)%nat with (length (l ++ es))
    by by rewrite length_app.
  rewrite delete_middle, app_nil_r. apply IH.
Qed.

(** C7 (amended).  When the faculty, the room and the section are keys of
    their ledgers and, under each day of the pattern, those three day maps
    hold neither an empty list nor a booking the undo filter removes
    (same course code and section name; same course code in the section
    ledger), the backtracking record succeeds and the undo that follows
    it gives back the three ledgers, the output list and the rotation
    counter exactly as they were. *)
Theorem undo_after_record_restores opt c s st df dr ds :
  faculty_schedule st !! opt_faculty opt = Some df →
  room_schedule st !! opt_room opt = Some dr →
  section_schedule st !! section_name s = Some ds →
  undoable (keep_pair c s) df (opt_pattern opt) →
  undoable (keep_pair c s) dr (opt_pattern opt) →
  undoable (keep_course c) ds (opt_pattern opt) →
  ∃ recorded st1,
    _make_assignment_backtrack opt c s st = Ok (recorded, st1)
    ∧ _undo_assignment_backtrack recorded c s st1 = Ok (tt, st).
Proof.
  intros Hf Hr Hs Uf Ur Us. do 2 eexists. split.
  - unfold _make_assignment_backtrack.
    erewrite bind_ok by (by eapply record_sessions_backtrack_ok).
    unfold bind, ret. rewrite bump_counter_eq. reflexivity.
  - unfold _undo_assignment_backtrack.
    cbn [assignment_data opt_pattern opt_faculty opt_room app].
    unfold bind at 1, update. cbn [rbind].
    cbn [schedule_list faculty_schedule room_schedule section_schedule
         day_pairing_counter].
    unfold bind at 1.
    erewrite unrecord_sessions_ok;
      cbn [schedule_list faculty_schedule room_schedule section_schedule
           day_pairing_counter]; [|apply lookup_insert_eq..].
    rewrite bump_counter_eq.
    cbn [schedule_list faculty_schedule room_schedule section_schedule
         day_pairing_counter].
    rewrite !insert_insert_eq.
    rewrite !unbook_book_days; try done.
    + rewrite !insert_id by done.
      unfold entries_of.
      replace (length (opt_pattern opt))
        with (length ((λ s0, make_entry c s s0 (opt_room opt) (opt_faculty opt)
                               (backtrack_component_type c))
                      <$> opt_pattern opt))
        by apply length_fmap.
      rewrite pop_indices_appended.
      replace (day_pairing_counter st + 1 + -1) with (day_pairing_counter st)
        by lia.
      by destruct st.
    + intros sess. unfold keep_course. simpl. by rewrite bool_decide_eq_true_2.
    + intros sess. unfold keep_pair. simpl. by rewrite !bool_decide_eq_true_2.
    + intros sess. unfold keep_pair. simpl. by rewrite !bool_decide_eq_true_2.
Qed.

(** ** What a record appends *)

Lemma record_session_inv c s f r ct sess st u st' :
  record_session c s f r ct sess st = Ok (u, st') →
  ∃ df dr ds,
    faculty_schedule st !! f = Some df
    ∧ room_schedule st !! r = Some dr
    ∧ section_schedule st !! section_name s = Some ds.
Proof.
  unfold record_session. intros H%update_inv.
  apply rbind_inv in H as (? & Hf & H). apply rbind_inv in H as (? & Hr & H).
  apply rbind_inv in H as (? & Hs & H).
  unfold ledger_append in Hf, Hr, Hs.
  apply rbind_inv in Hf as (df & Hf%ledger_get_inv & _).
  apply rbind_inv in Hr as (dr & Hr%ledger_get_inv & _).
  apply rbind_inv in Hs as (ds & Hs%ledger_get_inv & _).
  by exists df, dr, ds.
Qed.

Lemma record_sessions_schedule c s f r ct p : ∀ st u st',
  record_sessions c s f r ct p st = Ok (u, st') →
  schedule_list st' = schedule_list st ++ entries_of c s p r f ct.
Proof.
  destruct p as [|sess p]; intros st u st' H.
  - injection H as _ <-. by rewrite app_nil_r.
  - pose proof H as H'. apply bind_inv in H' as (? & st1 & H1 & _).
    apply record_session_inv in H1 as (df & dr & ds & Hf & Hr & Hs).
    rewrite (record_sessions_ok _ _ _ _ _ _ _ _ _ _ Hf Hr Hs) in H.
    by injection H as _ <-.
Qed.

Lemma make_assignment_schedule p c s f r ct st u st' :
  _make_assignment p c s f r ct st = Ok (u, st') →
  schedule_list st' = schedule_list st ++ entries_of c s p r f ct
  ∧ day_pairing_counter st' = day_pairing_counter st + 1.
Proof.
  intros H. apply bind_inv in H as (? & st1 & Hrec & Hbump).
  pose proof (record_sessions_schedule _ _ _ _ _ _ _ _ _ Hrec) as Hs.
  apply record_sessions_counter in Hrec.
  rewrite bump_counter_eq in Hbump. injection Hbump as _ <-. simpl.
  split; congruence.
Qed.

Lemma record_sessions_backtrack_schedule c s f r ct p : ∀ acc st data st',
  record_sessions_backtrack c s f r ct p acc st = Ok (data, st') →
  schedule_list st' = schedule_list st ++ entries_of c s p r f ct.
Proof.
  destruct p as [|sess p]; intros acc st data st' H.
  - injection H as _ <-. by rewrite app_nil_r.
  - pose proof H as H'. apply bind_inv in H' as (? & st1 & H1 & _).
    apply record_session_inv in H1 as (df & dr & ds & Hf & Hr & Hs).
    rewrite (record_sessions_backtrack_ok _ _ _ _ _ _ _ _ _ _ _ Hf Hr Hs) in H.
    by injection H as _ <-.
Qed.

(** ** The greedy search for one component *)

Lemma try_candidates_spec cands c s ct allow : ∀ st b st',
  try_candidates cands c s ct allow st = Ok (b, st') →
  (b = false ∧ st' = st)
  ∨ (b = true
     ∧ ∃ p f r,
         (p, f, r) ∈ cands
         ∧ _can_assign_pattern p f r (section_name s) (faculty_schedule st)
             (room_schedule st) (section_schedule st) allow = Ok true
         ∧ _make_assignment p c s f r ct st = Ok (tt, st')).
Proof.
  induction cands as [|[[p f] r] cands IH]; intros st b st' H.
  - injection H as <- <-. by left.
  - cbn [try_candidates] in H.
    apply bind_inv in H as (ok & st1 & [Hok ->]%lift_inv & H).
    destruct ok.
    + apply bind_inv in H as ([] & st2 & Hmake & Hret).
      injection Hret as <- <-. right. split; [done|].
      exists p, f, r. split; [left|done].
    + apply IH in H as [?|(-> & p' & f' & r' & Hin & ?)]; [by left|].
      right. split; [done|]. exists p', f', r'. split; [by right|done].
Qed.

Lemma elem_of_candidates p f r pats fac rms :
  (p, f, r) ∈ candidates pats fac rms →
  p ∈ pats ∧ (∃ fr, fr ∈ fac ∧ f = faculty_name fr)
  ∧ (∃ rr, rr ∈ rms ∧ r = room_name rr).
Proof.
  unfold candidates.
  intros (p' & (fr & (rr & Hin & Hr)%list_elem_of_bind & Hf)%list_elem_of_bind
          & Hp)%list_elem_of_bind.
  apply list_elem_of_singleton in Hin. injection Hin as -> -> ->.
  split; [done|]. split; [by exists fr|by exists rr].
Qed.

(** A component is placed by one record of one candidate that passed
    [_can_assign_pattern] on the ledgers as they stood, and an unplaced
    component leaves the state alone. *)
Lemma schedule_course_component_spec c s ct hours fac rms allow st b st' :
  _schedule_course_component c s ct hours fac rms allow st = Ok (b, st') →
  (b = false ∧ st' = st)
  ∨ (b = true
     ∧ ∃ p fr rr,
         p ∈ _get_time_patterns (day_pairing_counter st) hours ct
         ∧ fr ∈ fac ∧ rr ∈ rms
         ∧ _can_assign_pattern p (faculty_name fr) (room_name rr)
             (section_name s) (faculty_schedule st) (room_schedule st)
             (section_schedule st) allow = Ok true
         ∧ _make_assignment p c s (faculty_name fr) (room_name rr) ct st
           = Ok (tt, st')).
Proof.
  unfold _schedule_course_component. intros H.
  apply bind_inv in H as (pats & st1 & [Hpats ->]%lift_inv & H).
  injection Hpats as <-.
  apply try_candidates_spec in H as [?|(-> & p & f & r & Hin & Hcan & Hmake)];
    [by left|].
  apply elem_of_candidates in Hin as (Hp & (fr & Hfr & ->) & (rr & Hrr & ->)).
  right. split; [done|]. by exists p, fr, rr.
Qed.

Lemma schedule_course_component_rows c s ct hours kind allow st b st' :
  _schedule_course_component c s ct hours faculty (rooms_of_type kind) allow st
  = Ok (b, st') →
  ∃ es, schedule_list st' = schedule_list st ++ es
        ∧ component_rows c s ct hours kind es.
Proof.
  intros [[-> ->]|(-> & p & fr & rr & Hp & Hfr & Hrr & _ & Hmake)]
    %schedule_course_component_spec.
  - exists []. split; [by rewrite app_nil_r|by left].
  - apply make_assignment_schedule in Hmake as [Hs _].
    eexists. split; [done|]. right.
    apply list_elem_of_filter in Hrr as [Hty Hrr].
    by exists (day_pairing_counter st), p, fr, rr.
Qed.

(** ** Sorting keeps the elements *)

Lemma elem_of_insert_by_key {A} rev k (x : A) l y :
  y ∈ insert_by_key rev k x l → y = (k, x) ∨ y ∈ l.
Proof.
  induction l as [|[k' z] l IH]; simpl.
  - intros ->%list_elem_of_singleton. by left.
  - case_match.
    + intros [->|[->|?]%IH]%elem_of_cons; [right; left|by left|by right; right].
    + intros [->|?]%elem_of_cons; [by left|by right].
Qed.

Lemma elem_of_sort_by_key {A} rev (l : list (Z * A)) x :
  x ∈ sort_by_key rev l → x ∈ l.*2.
Proof.
  unfold sort_by_key. intros ([k y] & -> & Hin)%list_elem_of_fmap. simpl.
  induction l as [|[k' z] l IH]; simpl in Hin; [by apply elem_of_nil in Hin|].
  apply elem_of_insert_by_key in Hin as [[= -> ->]|Hin]; [left|right; auto].
Qed.

Lemma with_keys_snd {A} (key : A → result Z) l keyed :
  with_keys key l = Ok keyed → keyed.*2 = l.
Proof.
  revert keyed. induction l as [|x l IH]; intros keyed H.
  - by injection H as <-.
  - cbn in H. apply rbind_inv in H as (k & _ & H).
    apply rbind_inv in H as (more & Hmore & H). injection H as <-.
    simpl. f_equal. by apply IH.
Qed.

Lemma feasible_options_elem cands sn fs rs ss allow opts o :
  feasible_options cands sn fs rs ss allow = Ok opts → o ∈ opts →
  (opt_pattern o, opt_faculty o, opt_room o) ∈ cands
  ∧ assignment_data o = None.
Proof.
  revert opts. induction cands as [|[[p f] r] cands IH]; intros opts H Hin.
  - injection H as <-. by apply elem_of_nil in Hin.
  - cbn [feasible_options] in H.
    apply rbind_inv in H as (ok & _ & H).
    apply rbind_inv in H as (more & Hmore & H). injection H as <-.
    destruct ok.
    + apply elem_of_cons in Hin as [->|Hin]; [split; [left|done]|].
      destruct (IH _ Hmore Hin). split; [by right|done].
    + destruct (IH _ Hmore Hin). split; [by right|done].
Qed.

(** ** The no-overlap invariant of the greedy assigner *)

Lemma conflicts_false sess l x :
  conflicts sess l = false → x ∈ l →
  _times_overlap (start_time sess) (end_time sess)
    (si_start_time x) (si_end_time x) = false.
Proof.
  unfold conflicts. induction l as [|y l IH]; intros H Hx.
  - by apply elem_of_nil in Hx.
  - simpl in H. apply orb_false_iff in H as [Hy Hl].
    apply elem_of_cons in Hx as [->|Hx]; auto.
Qed.

Lemma tracked_record key L sched n d c s p r f ct :
  tracked key L sched →
  L !! n = Some d →
  fits p d →
  NoDup (day <$> p) →
  (∀ sess, key (make_entry c s sess r f ct) = n) →
  tracked key (<[n := book_days c s d p]> L)
    (sched ++ entries_of c s p r f ct).
Proof.
  intros [Hin Hfree] Hn Hfits Hdays Hkey. split.
  - intros e [He|He]%elem_of_app.
    + destruct (Hin e He) as (d' & x & Hd' & Hx & Hst & Hen).
      destruct (decide (key e = n)) as [Heq|Hne].
      * exists (book_days c s d p), x. rewrite Heq, lookup_insert_eq.
        split; [done|]. split; [|done].
        rewrite booked_book_days. apply elem_of_app. left.
        rewrite Heq, Hn in Hd'. by injection Hd' as <-.
      * exists d', x. by rewrite lookup_insert_ne.
    + apply list_elem_of_fmap in He as (sess & -> & Hsess).
      exists (book_days c s d p), (make_info c s sess).
      rewrite Hkey, lookup_insert_eq. split; [done|]. split; [|done].
      simpl. rewrite booked_book_days. apply elem_of_app. right.
      apply list_elem_of_fmap_2. by apply list_elem_of_filter.
  - intros i j e1 e2 Hij H1 H2 Hk Hd.
    apply lookup_app_Some in H1 as [H1|[Hi H1]];
      apply lookup_app_Some in H2 as [H2|[Hj H2]].
    + by apply (Hfree i j).
    + apply list_lookup_fmap_Some in H2 as (sess & -> & H2).
      apply list_elem_of_lookup_2 in H1, H2.
      destruct (Hin e1 H1) as (d' & x & Hd' & Hx & Hst & Hen).
      rewrite Hk, Hkey, Hn in Hd'. injection Hd' as <-.
      rewrite times_overlap_sym, <-Hst, <-Hen. simpl.
      apply conflicts_false with (booked d (day sess)); [by apply Hfits|].
      by rewrite Hd in Hx.
    + apply list_lookup_fmap_Some in H1 as (sess & -> & H1).
      apply list_elem_of_lookup_2 in H1, H2.
      destruct (Hin e2 H2) as (d' & x & Hd' & Hx & Hst & Hen).
      rewrite <-Hk, Hkey, Hn in Hd'. injection Hd' as <-.
      rewrite <-Hst, <-Hen. simpl.
      apply conflicts_false with (booked d (day sess)); [by apply Hfits|].
      by rewrite <-Hd in Hx.
    + apply list_lookup_fmap_Some in H1 as (s1 & -> & H1).
      apply list_lookup_fmap_Some in H2 as (s2 & -> & H2).
      simpl in Hd. exfalso. apply Hij.
      assert (i - length sched = j - length sched)%nat; [|lia].
      apply (NoDup_lookup (day <$> p) _ _ (day s1)); [done|..].
      * by apply list_lookup_fmap_Some_2.
      * rewrite Hd. by apply list_lookup_fmap_Some_2.
Qed.

Lemma can_assign_sessions_fits p f r sn fs rs ss df dr ds :
  fs !! f = Some df → rs !! r = Some dr → ss !! sn = Some ds →
  can_assign_sessions p f r sn fs rs ss = Ok true →
  fits p df ∧ fits p dr ∧ fits p ds.
Proof.
  intros Hf Hr Hs. induction p as [|sess p IH]; intros H.
  - repeat split; intros ? []%elem_of_nil.
  - cbn [can_assign_sessions] in H.
    rewrite (ledger_get_ok _ _ _ Hf), (ledger_get_ok _ _ _ Hr),
      (ledger_get_ok _ _ _ Hs) in H. cbn [rbind] in H.
    destruct (conflicts sess (booked df (day sess))) eqn:E1; [done|].
    destruct (conflicts sess (booked dr (day sess))) eqn:E2; [done|].
    destruct (conflicts sess (booked ds (day sess))) eqn:E3; [done|].
    destruct (IH H) as (? & ? & ?).
    repeat split; intros ? [->|?]%elem_of_cons; auto.
Qed.

Lemma can_assign_sessions_total p f r sn fs rs ss :
  is_Some (fs !! f) → is_Some (rs !! r) → is_Some (ss !! sn) →
  ∃ b, can_assign_sessions p f r sn fs rs ss = Ok b.
Proof.
  intros [df Hf] [dr Hr] [ds Hs]. induction p as [|sess p IH]; [by eexists|].
  cbn [can_assign_sessions].
  rewrite (ledger_get_ok _ _ _ Hf), (ledger_get_ok _ _ _ Hr),
    (ledger_get_ok _ _ _ Hs). cbn [rbind].
  repeat case_match; eauto.
Qed.

Lemma preserves_ret {A} seen ts sn (a : A) : preserves seen ts sn (ret a).
Proof. intros st ??. by exists a, st. Qed.

Lemma preserves_bind {A B} seen ts sn (m : M A) (k : A → M B) :
  preserves seen ts sn m → (∀ a, preserves seen ts sn (k a)) →
  preserves seen ts sn (bind m k).
Proof.
  intros Hm Hk st Hinv Hkey.
  destruct (Hm st Hinv Hkey) as (a & st1 & Hrun & Hinv1 & Hkey1).
  destruct (Hk a st1 Hinv1 Hkey1) as (b & st2 & Hrun2 & ? & ?).
  exists b, st2. by rewrite (bind_ok _ _ _ _ _ Hrun).
Qed.

Lemma make_assignment_preserves seen ts c s p fr rr ct st :
  greedy_inv seen ts st →
  is_Some (section_schedule st !! section_name s) →
  section_name s ∈ seen → fr ∈ faculty → rr ∈ rooms →
  NoDup (day <$> p) → Forall on_grid p →
  can_assign_sessions p (faculty_name fr) (room_name rr) (section_name s)
    (faculty_schedule st) (room_schedule st) (section_schedule st) = Ok true →
  ∃ st', _make_assignment p c s (faculty_name fr) (room_name rr) ct st
         = Ok (tt, st')
         ∧ greedy_inv seen ts st'
         ∧ is_Some (section_schedule st' !! section_name s).
Proof.
  intros Hinv [ds Hs] Hseen Hfr Hrr Hdays Hgrid Hcan.
  destruct (inv_faculty_keys _ _ _ Hinv fr Hfr) as [df Hf].
  destruct (inv_room_keys _ _ _ Hinv rr Hrr) as [dr Hr].
  destruct (can_assign_sessions_fits _ _ _ _ _ _ _ _ _ _ Hf Hr Hs Hcan)
    as (Ff & Fr & Fs).
  eexists. split.
  { unfold _make_assignment.
    erewrite bind_ok by (by apply record_sessions_ok).
    by rewrite bump_counter_eq. }
  cbn [schedule_list faculty_schedule room_schedule section_schedule
       day_pairing_counter].
  split; [|by rewrite lookup_insert_eq].
  split; cbn [schedule_list faculty_schedule room_schedule section_schedule].
  - intros fr' Hfr'. apply lookup_insert_is_Some'. right.
    by apply (inv_faculty_keys _ _ _ Hinv).
  - intros rr' Hrr'. apply lookup_insert_is_Some'. right.
    by apply (inv_room_keys _ _ _ Hinv).
  - apply tracked_record; try done. apply Hinv.
  - apply tracked_record; try done. apply Hinv.
  - intros Hts. apply tracked_record; try done. by apply Hinv.
  - intros e [He|He]%elem_of_app; [by apply (inv_seen _ _ _ Hinv)|].
    by apply list_elem_of_fmap in He as (sess & -> & _).
  - intros e [He|He]%elem_of_app; [by apply (inv_grid _ _ _ Hinv)|].
    apply list_elem_of_fmap in He as (sess & -> & Hsess).
    by apply (proj1 (Forall_forall _ _) Hgrid).
Qed.

Lemma base_day_pairings_distinct :
  Forall (λ pr : string * string, pr.1 ≠ pr.2) base_day_pairings.
Proof. repeat constructor; done. Qed.

Lemma paired_patterns_distinct_days pairings starts h :
  Forall (λ pr : string * string, pr.1 ≠ pr.2) pairings →
  Forall (λ p, NoDup (day <$> p)) (paired_patterns pairings starts h).
Proof.
  intros Hpairs. unfold paired_patterns.
  apply Forall_bind. eapply Forall_impl; [exact Hpairs|].
  intros [day1 day2] Hne. simpl in *.
  apply Forall_bind, Forall_forall. intros start _. simpl.
  destruct (_add_hours_to_time start h) as [e|]; [|constructor].
  case_match; [|constructor]. apply Forall_singleton. simpl.
  apply NoDup_cons. split; [by intros ->%list_elem_of_singleton|].
  apply NoDup_singleton.
Qed.

Lemma single_patterns_distinct_days starts h :
  Forall (λ p, NoDup (day <$> p)) (single_patterns starts h).
Proof.
  unfold single_patterns.
  apply Forall_bind, Forall_forall. intros d _. simpl.
  apply Forall_bind, Forall_forall. intros start _. simpl.
  destruct (_add_hours_to_time start h) as [e|]; [|constructor].
  case_match; [|constructor]. apply Forall_singleton, NoDup_singleton.
Qed.

Lemma get_time_patterns_distinct_days counter hours component_type :
  Forall (λ p, NoDup (day <$> p))
    (_get_time_patterns counter hours component_type).
Proof.
  assert (∀ n, Forall (λ pr : string * string, pr.1 ≠ pr.2)
                 (drop n base_day_pairings ++ take n base_day_pairings)).
  { intros n. apply Forall_app. split.
    - apply Forall_drop, base_day_pairings_distinct.
    - apply Forall_take, base_day_pairings_distinct. }
  unfold _get_time_patterns.
  repeat case_match;
    first [by apply paired_patterns_distinct_days
          | apply single_patterns_distinct_days].
Qed.

Lemma try_candidates_preserves seen ts c s ct cands :
  section_name s ∈ seen → Forall good_candidate cands →
  preserves seen ts (section_name s) (try_candidates cands c s ct false).
Proof.
  intros Hseen. induction cands as [|[[p f] r] cands IH]; intros Hgood.
  - apply preserves_ret.
  - apply Forall_cons in Hgood as [(Hdays & Hgrid & (fr & Hfr & Hf)
      & (rr & Hrr & Hr)) Hgood]. simpl in *. subst f r.
    intros st Hinv Hkey. cbn [try_candidates].
    destruct (can_assign_sessions_total p (faculty_name fr) (room_name rr)
      (section_name s) (faculty_schedule st) (room_schedule st)
      (section_schedule st)) as [b Hb];
      [by apply (inv_faculty_keys _ _ _ Hinv)
      |by apply (inv_room_keys _ _ _ Hinv)|done|].
    unfold bind at 1, lift, _can_assign_pattern. rewrite Hb. cbn [rbind].
    destruct b.
    + destruct (make_assignment_preserves seen ts c s p fr rr ct st)
        as (st' & Hmake & Hinv' & Hkey'); try done.
      exists true, st'. by rewrite (bind_ok _ _ _ _ _ Hmake).
    + by apply IH.
Qed.

Lemma schedule_course_component_preserves seen ts c s ct hours fac rms :
  section_name s ∈ seen → fac ⊆ faculty → rms ⊆ rooms →
  preserves seen ts (section_name s)
    (_schedule_course_component c s ct hours fac rms false).
Proof.
  intros Hseen Hfac Hrms st Hinv Hkey. unfold _schedule_course_component.
  unfold bind at 1, lift. cbn [rbind].
  apply try_candidates_preserves; try done.
  apply Forall_forall. intros [[p f] r] Hin.
  apply elem_of_candidates in Hin as (Hp & (fr & Hfr & ->) & (rr & Hrr & ->)).
  split; [|split; [|split]]; simpl.
  - by apply (proj1 (Forall_forall _ _)
                (get_time_patterns_distinct_days
                   (day_pairing_counter st) hours ct)).
  - by apply (proj1 (Forall_forall _ _)
                (get_time_patterns_on_grid (day_pairing_counter st) hours ct)).
  - exists fr. split; [by apply Hfac|done].
  - exists rr. split; [by apply Hrms|done].
Qed.

Lemma rooms_of_type_subseteq kind : rooms_of_type kind ⊆ rooms.
Proof. intros rr Hrr. by apply list_elem_of_filter in Hrr as [_ ?]. Qed.

Lemma assign_course_to_section_preserves seen ts c s :
  section_name s ∈ seen →
  preserves seen ts (section_name s) (_assign_course_to_section c s false).
Proof.
  intros Hseen. unfold _assign_course_to_section.
  case_bool_decide; [apply preserves_ret|].
  case_bool_decide; [apply preserves_ret|].
  case_bool_decide.
  - unfold _schedule_lecture_lab_course.
    apply preserves_bind.
    { apply schedule_course_component_preserves;
        [done|done|apply rooms_of_type_subseteq]. }
    intros lecture_assigned. case_match; [apply preserves_ret|].
    apply preserves_bind; [|intros; apply preserves_ret].
    apply schedule_course_component_preserves;
      [done|done|apply rooms_of_type_subseteq].
  - unfold _schedule_single_type_course.
    apply schedule_course_component_preserves;
      [done|done|apply rooms_of_type_subseteq].
Qed.

Lemma greedy_courses_preserves seen ts s section_courses :
  section_name s ∈ seen →
  preserves seen ts (section_name s) (greedy_courses section_courses s false).
Proof.
  intros Hseen. induction section_courses as [|c cs IH].
  - apply preserves_ret.
  - cbn [greedy_courses]. apply preserves_bind; [|done].
    by apply assign_course_to_section_preserves.
Qed.

Lemma greedy_inv_seen_mono seen seen' ts st :
  seen ⊆ seen' → greedy_inv seen ts st → greedy_inv seen' ts st.
Proof.
  intros Hsub [????? Hseen ?]. split; try done.
  intros e He. by apply Hsub, Hseen.
Qed.

Lemma reset_section_inv seen ts name st :
  greedy_inv seen ts st → (ts = true → name ∉ seen) →
  ∃ st', reset_section name st = Ok (tt, st')
         ∧ greedy_inv (name :: seen) ts st'
         ∧ is_Some (section_schedule st' !! name).
Proof.
  intros Hinv Hfresh. eexists. split; [done|].
  cbn [section_schedule]. split; [|by rewrite lookup_insert_eq].
  destruct Hinv as [Hfk Hrk Hf Hr Hs Hseen Hgrid].
  split; cbn [schedule_list faculty_schedule room_schedule section_schedule];
    try done.
  - intros Hts. destruct (Hs Hts) as [Hin Hfree]. split; [|done].
    intros e He. destruct (Hin e He) as (d & x & Hd & Hx).
    exists d, x. split; [|done]. rewrite lookup_insert_ne; [done|].
    intros ->. by apply (Hfresh Hts), Hseen.
  - intros e He. right. by apply Hseen.
Qed.

Lemma greedy_sections_inv ts courses_to_schedule section_rows : ∀ seen st,
  greedy_inv seen ts st →
  (ts = true →
   NoDup (section_name <$> section_rows)
   ∧ ∀ s, s ∈ section_rows → section_name s ∉ seen) →
  ∃ seen' st',
    greedy_sections section_rows courses_to_schedule false st = Ok (tt, st')
    ∧ greedy_inv seen' ts st'.
Proof.
  induction section_rows as [|s rest IH]; intros seen st Hinv Hfresh.
  - by exists seen, st.
  - cbn [greedy_sections].
    destruct (reset_section_inv seen ts (section_name s) st Hinv)
      as (st1 & Hreset & Hinv1 & Hkey1).
    { intros Hts. apply (Hfresh Hts). left. }
    rewrite (bind_ok _ _ _ _ _ Hreset).
    destruct (greedy_courses_preserves (section_name s :: seen) ts s
                (courses_of_section courses_to_schedule s)
                ltac:(left) st1 Hinv1 Hkey1)
      as ([] & st2 & Hcourses & Hinv2 & _).
    rewrite (bind_ok _ _ _ _ _ Hcourses).
    apply (IH (section_name s :: seen) st2 Hinv2).
    intros Hts. destruct (Hfresh Hts) as [Hnodup Hnot].
    rewrite fmap_cons in Hnodup. apply NoDup_cons in Hnodup as [Hs Hnodup].
    split; [done|]. intros s' Hs' [Heq|Hin]%elem_of_cons.
    + apply Hs. rewrite <-Heq. by apply list_elem_of_fmap_2.
    + apply (Hnot s'); [by right|done].
Qed.

Lemma empty_ledger_lookup names n :
  n ∈ names → empty_ledger names !! n = Some ∅.
Proof.
  unfold empty_ledger. generalize (∅ : ledger).
  induction names as [|m names IH] using rev_ind; intros L Hn.
  - by apply elem_of_nil in Hn.
  - rewrite foldl_app. simpl. destruct (decide (m = n)) as [->|Hne].
    + apply lookup_insert_eq.
    + rewrite lookup_insert_ne by done. apply IH.
      apply elem_of_app in Hn as [?|Hn%list_elem_of_singleton]; done.
Qed.

Lemma fresh_state_inv ts counter : greedy_inv [] ts (fresh_state counter).
Proof.
  unfold fresh_state.
  split; cbn [schedule_list faculty_schedule room_schedule section_schedule].
  - intros fr Hfr. rewrite empty_ledger_lookup; [done|].
    by apply list_elem_of_fmap_2.
  - intros rr Hrr. rewrite empty_ledger_lookup; [done|].
    by apply list_elem_of_fmap_2.
  - split; [by intros ? ?%elem_of_nil|]. by intros i j ?? _ ?.
  - split; [by intros ? ?%elem_of_nil|]. by intros i j ?? _ ?.
  - intros _. split; [by intros ? ?%elem_of_nil|]. by intros i j ?? _ ?.
  - by intros ? ?%elem_of_nil.
  - by intros ? ?%elem_of_nil.
Qed.

(** X18.  On tables without blank cells the greedy assigner with
    conflicts disallowed returns a schedule, all of whose rows lie on the
    grid; no two of its rows with the same room, or with the same faculty
    member, are on the same day with overlapping times; and when the
    section names of the section table are pairwise distinct the same
    holds of two rows with the same section.  Each component it places is
    recorded by one call of [_make_assignment] for a candidate that passed
    [_can_assign_pattern] on the three ledgers as they stood. *)
Theorem greedy_schedule_overlap_free courses_to_schedule counter :
  (∃ schedule counter',
     _greedy_scheduling courses_to_schedule false counter
     = Ok (schedule, counter')
     ∧ Forall (λ e, e_start_time e ∈ time_slots ∧ e_end_time e ∈ time_slots)
         schedule
     ∧ overlap_free e_room schedule
     ∧ overlap_free e_faculty schedule
     ∧ (NoDup (section_name <$> sections) → overlap_free e_section schedule))
  ∧ (∀ c s ct hours fac rms st st',
       _schedule_course_component c s ct hours fac rms false st
       = Ok (true, st') →
       ∃ p fr rr,
         _can_assign_pattern p (faculty_name fr) (room_name rr)
           (section_name s) (faculty_schedule st) (room_schedule st)
           (section_schedule st) false = Ok true
         ∧ _make_assignment p c s (faculty_name fr) (room_name rr) ct st
           = Ok (tt, st')).
Proof.
  split.
  - destruct (decide (NoDup (section_name <$> sections))) as [Hnd|Hnd].
    + destruct (greedy_sections_inv true courses_to_schedule sections []
                  (fresh_state counter) (fresh_state_inv _ _))
        as (seen & st & Hrun & Hinv).
      { intros _. split; [done|]. by intros s _ ?%elem_of_nil. }
      exists (schedule_list st), (day_pairing_counter st).
      unfold _greedy_scheduling, finish. rewrite Hrun.
      split; [done|]. split; [apply Forall_forall, Hinv|].
      split; [apply Hinv|]. split; [apply Hinv|].
      intros _. by apply Hinv.
    + destruct (greedy_sections_inv false courses_to_schedule sections []
                  (fresh_state counter) (fresh_state_inv _ _))
        as (seen & st & Hrun & Hinv); [done|].
      exists (schedule_list st), (day_pairing_counter st).
      unfold _greedy_scheduling, finish. rewrite Hrun.
      split; [done|]. split; [apply Forall_forall, Hinv|].
      split; [apply Hinv|]. split; [apply Hinv|done].
  - intros c s ct hours fac rms st st'
      [[? _]|(_ & p & fr & rr & _ & _ & _ & ? & ?)]
      %schedule_course_component_spec; [done|].
    by exists p, fr, rr.
Qed.

(** ** The rotation counter and the output *)

Lemma rotation_only_ret {A} (a : A) : rotation_only (ret a).
Proof. done. Qed.

Lemma rotation_only_bind {A B} (m : M A) (f : A → M B) :
  rotation_only m → (∀ a, rotation_only (f a)) → rotation_only (bind m f).
Proof.
  intros Hm Hf k st. unfold bind. rewrite Hm.
  destruct (m st) as [[a st']| |]; simpl; [apply Hf|done|done].
Qed.

Lemma rotation_only_lift {A} (r : state → result A) :
  (∀ k st, r (shift k st) = r st) → rotation_only (lift r).
Proof. intros Hr k st. unfold lift. rewrite Hr. by destruct (r st). Qed.

Lemma rotation_only_update (f : state → result state) :
  (∀ k st, f (shift k st) = rmap (shift k) (f st)) →
  rotation_only (update f).
Proof. intros Hf k st. unfold update. rewrite Hf. by destruct (f st). Qed.

Lemma get_time_patterns_shift counter k hours ct :
  _get_time_patterns (counter + 3 * k) hours ct
  = _get_time_patterns counter hours ct.
Proof.
  unfold _get_time_patterns.
  by replace ((counter + 3 * k) mod 3) with (counter mod 3)
    by (rewrite (Z.mul_comm 3 k), Z.mod_add; lia).
Qed.

Lemma rotation_only_record_session c s f r ct sess :
  rotation_only (record_session c s f r ct sess).
Proof.
  apply rotation_only_update. intros k st. cbn.
  destruct (ledger_append (faculty_schedule st) f (day sess) _); try done.
  destruct (ledger_append (room_schedule st) r (day sess) _); try done.
  by destruct (ledger_append (section_schedule st) (section_name s)
                 (day sess) _).
Qed.

Lemma rotation_only_bump delta : rotation_only (bump_counter delta).
Proof.
  intros k st. rewrite !bump_counter_eq. unfold shift_answer, shift. cbn.
  do 3 f_equal. lia.
Qed.

Lemma rotation_only_record_sessions c s f r ct p :
  rotation_only (record_sessions c s f r ct p).
Proof.
  induction p as [|sess p IH]; [apply rotation_only_ret|].
  apply rotation_only_bind; [apply rotation_only_record_session|done].
Qed.

Lemma rotation_only_make_assignment p c s f r ct :
  rotation_only (_make_assignment p c s f r ct).
Proof.
  apply rotation_only_bind; [apply rotation_only_record_sessions|].
  intros _. apply rotation_only_bump.
Qed.

Lemma rotation_only_try_candidates cands c s ct allow :
  rotation_only (try_candidates cands c s ct allow).
Proof.
  induction cands as [|[[p f] r] cands IH]; [apply rotation_only_ret|].
  cbn [try_candidates]. apply rotation_only_bind.
  { by apply rotation_only_lift. }
  intros [|]; [|done].
  apply rotation_only_bind; [apply rotation_only_make_assignment|].
  intros _. apply rotation_only_ret.
Qed.

Lemma rotation_only_component c s ct hours fac rms allow :
  rotation_only (_schedule_course_component c s ct hours fac rms allow).
Proof.
  apply rotation_only_bind.
  { apply rotation_only_lift. intros k st. cbn.
    by rewrite get_time_patterns_shift. }
  intros pats. apply rotation_only_try_candidates.
Qed.

Lemma rotation_only_assign c s allow :
  rotation_only (_assign_course_to_section c s allow).
Proof.
  unfold _assign_course_to_section.
  repeat case_bool_decide; try apply rotation_only_ret.
  - apply rotation_only_bind; [apply rotation_only_component|].
    intros lecture_assigned. case_match; [apply rotation_only_ret|].
    apply rotation_only_bind; [apply rotation_only_component|].
    intros lab_assigned. apply rotation_only_ret.
  - apply rotation_only_component.
Qed.

Lemma rotation_only_greedy_courses cs s allow :
  rotation_only (greedy_courses cs s allow).
Proof.
  induction cs as [|c cs IH]; [apply rotation_only_ret|].
  apply rotation_only_bind; [apply rotation_only_assign|done].
Qed.

Lemma rotation_only_greedy_sections secs cts allow :
  rotation_only (greedy_sections secs cts allow).
Proof.
  induction secs as [|s secs IH]; [apply rotation_only_ret|].
  apply rotation_only_bind; [by apply rotation_only_update|].
  intros _. apply rotation_only_bind; [apply rotation_only_greedy_courses|].
  done.
Qed.

Lemma greedy_scheduling_shift cts allow counter k :
  _greedy_scheduling cts allow (counter + 3 * k)
  = shift_run k (_greedy_scheduling cts allow counter).
Proof.
  unfold _greedy_scheduling.
  change (fresh_state (counter + 3 * k)) with (shift k (fresh_state counter)).
  rewrite rotation_only_greedy_sections.
  by destruct (greedy_sections sections cts allow (fresh_state counter))
    as [[[] st]| |].
Qed.

Lemma rotation_only_record_sessions_backtrack c s f r ct p : ∀ acc,
  rotation_only (record_sessions_backtrack c s f r ct p acc).
Proof.
  induction p as [|sess p IH]; intros acc; [apply rotation_only_ret|].
  apply rotation_only_bind; [apply rotation_only_record_session|].
  intros _. apply rotation_only_bind; [by apply rotation_only_lift|].
  intros idx. apply IH.
Qed.

Lemma rotation_only_make_assignment_backtrack opt c s :
  rotation_only (_make_assignment_backtrack opt c s).
Proof.
  apply rotation_only_bind; [apply rotation_only_record_sessions_backtrack|].
  intros data. apply rotation_only_bind; [apply rotation_only_bump|].
  intros _. apply rotation_only_ret.
Qed.

Lemma rotation_only_unrecord_session c s f r sess :
  rotation_only (unrecord_session c s f r sess).
Proof.
  apply rotation_only_update. intros k st. cbn.
  destruct (ledger_remove (faculty_schedule st) f (day sess) _); try done.
  destruct (ledger_remove (room_schedule st) r (day sess) _); try done.
  by destruct (ledger_remove (section_schedule st) (section_name s)
                 (day sess) _).
Qed.

Lemma rotation_only_unrecord_sessions c s f r p :
  rotation_only (unrecord_sessions c s f r p).
Proof.
  induction p as [|sess p IH]; [apply rotation_only_ret|].
  apply rotation_only_bind; [apply rotation_only_unrecord_session|done].
Qed.

Lemma rotation_only_undo opt c s :
  rotation_only (_undo_assignment_backtrack opt c s).
Proof.
  unfold _undo_assignment_backtrack.
  destruct (assignment_data opt) as [data|]; [|apply rotation_only_ret].
  apply rotation_only_bind; [by apply rotation_only_update|].
  intros _. apply rotation_only_bind; [apply rotation_only_unrecord_sessions|].
  intros _. apply rotation_only_bump.
Qed.

Lemma rotation_only_possible_assignments c s allow :
  rotation_only (_get_possible_assignments c s allow).
Proof.
  apply rotation_only_lift. intros k st. cbn.
  by rewrite get_time_patterns_shift.
Qed.

Lemma rotation_only_try_options rest c s options :
  rotation_only rest → rotation_only (try_options rest c s options).
Proof.
  intros Hrest. induction options as [|opt more IH]; [apply rotation_only_ret|].
  cbn [try_options].
  apply rotation_only_bind; [apply rotation_only_make_assignment_backtrack|].
  intros recorded. apply rotation_only_bind; [done|].
  intros [|]; [apply rotation_only_ret|].
  apply rotation_only_bind; [apply rotation_only_undo|done].
Qed.

Lemma rotation_only_backtrack_from assignments max_iterations allow :
  rotation_only (backtrack_from assignments max_iterations allow).
Proof.
  induction assignments as [|[c s] rest IH]; [apply rotation_only_ret|].
  cbn [backtrack_from].
  apply rotation_only_bind; [by apply rotation_only_lift|].
  intros placed. case_match; [apply rotation_only_ret|].
  apply rotation_only_bind; [apply rotation_only_possible_assignments|].
  intros options. by apply rotation_only_try_options.
Qed.

Lemma backtracking_scheduling_shift cts max_iterations allow counter k :
  _backtracking_scheduling cts max_iterations allow (counter + 3 * k)
  = shift_run k (_backtracking_scheduling cts max_iterations allow counter).
Proof.
  unfold _backtracking_scheduling, _backtrack_assign.
  match goal with
  | |- context [backtrack_from ?a ?m ?b
                  {| schedule_list := []; faculty_schedule := ?f;
                     room_schedule := ?r; section_schedule := ?s;
                     day_pairing_counter := counter + 3 * k |}] =>
      change {| schedule_list := []; faculty_schedule := f;
                room_schedule := r; section_schedule := s;
                day_pairing_counter := counter + 3 * k |}
        with (shift k {| schedule_list := []; faculty_schedule := f;
                         room_schedule := r; section_schedule := s;
                         day_pairing_counter := counter |})
  end.
  rewrite rotation_only_backtrack_from.
  match goal with
  | |- context [shift_answer k ?r] => destruct r as [[[|] st]| |]
  end; cbn; try done.
  apply greedy_scheduling_shift.
Qed.

Lemma generate_csp_domain_shift counter k c s :
  _generate_csp_domain (counter + 3 * k) c s = _generate_csp_domain counter c s.
Proof. unfold _generate_csp_domain. by rewrite get_time_patterns_shift. Qed.

Lemma csp_domains_shift counter k obs :
  csp_domains (counter + 3 * k) obs = csp_domains counter obs.
Proof.
  unfold csp_domains. generalize (∅ : domains_t).
  induction obs as [|o obs IH]; intros acc; [done|].
  cbn [foldl]. by rewrite generate_csp_domain_shift, IH.
Qed.

Lemma csp_scheduling_shift fuel cts max_iterations allow counter k :
  _constraint_satisfaction_scheduling fuel cts max_iterations allow
    (counter + 3 * k)
  = shift_run k
      (_constraint_satisfaction_scheduling fuel cts max_iterations allow
         counter).
Proof.
  unfold _constraint_satisfaction_scheduling.
  rewrite csp_domains_shift.
  match goal with
  | |- context [_solve_csp ?a ?b ?c ?d ?e ?f] =>
      destruct (_solve_csp a b c d e f) as [[[|kv sol]|]| |]
  end; cbn; try done; apply greedy_scheduling_shift.
Qed.

Lemma generate_schedule_shift fuel algorithm max_iterations term_filter
    allow counter k :
  generate_schedule fuel algorithm max_iterations term_filter allow
    (counter + 3 * k)
  = shift_run k
      (generate_schedule fuel algorithm max_iterations term_filter allow
         counter).
Proof.
  unfold generate_schedule. repeat case_bool_decide; try done.
  - apply greedy_scheduling_shift.
  - apply backtracking_scheduling_shift.
  - apply csp_scheduling_shift.
Qed.

(** C2 (amended).  For fixed tables, algorithm selector, iteration budget,
    term filter and conflict flag, two runs of [generate_schedule] on the
    same date that start from values of the rotation counter equal modulo
    3 (two freshly built scheduler objects, or one object whose counter
    came back to the same rotation) produce the same schedule, or fail
    alike.  The ledgers are created by each call; the counter is a field
    of the object, read at the start of the call and left changed by
    it. *)
Theorem same_rotation_same_schedule fuel algorithm max_iterations term_filter
    allow counter1 counter2 :
  counter1 mod 3 = counter2 mod 3 →
  schedule_of (generate_schedule fuel algorithm max_iterations term_filter
                 allow counter1)
  = schedule_of (generate_schedule fuel algorithm max_iterations term_filter
                   allow counter2).
Proof.
  intros Hmod.
  replace counter2 with (counter1 + 3 * ((counter2 - counter1) / 3)).
  - rewrite generate_schedule_shift.
    by destruct (generate_schedule _ _ _ _ _ counter1) as [[??]| |].
  - pose proof (Z.div_mod counter1 3). pose proof (Z.div_mod counter2 3).
    assert ((counter2 - counter1) mod 3 = 0) as H3.
    { rewrite Zminus_mod, Hmod, Z.sub_diag. done. }
    pose proof (Z.div_mod (counter2 - counter1) 3). lia.
Qed.

(** ** The single-session branch of the pattern generator *)

Lemma time_slots_NoDup : NoDup time_slots.
Proof. by apply (bool_decide_unpack _); vm_compute. Qed.

Lemma days_NoDup : NoDup days.
Proof. by apply (bool_decide_unpack _); vm_compute. Qed.

Lemma elem_of_single_patterns starts h p :
  p ∈ single_patterns starts h
  ↔ ∃ d start e,
      d ∈ days ∧ start ∈ starts
      ∧ _add_hours_to_time start h = Some e ∧ e ∈ time_slots
      ∧ p = [Session d start e h].
Proof.
  unfold single_patterns. split.
  - intros (d & (start & Hp & Hstart)%list_elem_of_bind & Hd)%list_elem_of_bind.
    destruct (_add_hours_to_time start h) as [e|] eqn:He;
      [|by apply elem_of_nil in Hp].
    simpl in Hp. case_bool_decide as Hin; [|by apply elem_of_nil in Hp].
    apply list_elem_of_singleton in Hp. by exists d, start, e.
  - intros (d & start & e & Hd & Hstart & He & Hin & ->).
    apply list_elem_of_bind. exists d. split; [|done].
    apply list_elem_of_bind. exists start. split; [|done].
    rewrite He. simpl. rewrite bool_decide_eq_true_2 by done.
    by apply list_elem_of_singleton.
Qed.

Lemma single_patterns_NoDup starts h :
  NoDup starts → NoDup (single_patterns starts h).
Proof.
  intros Hstarts. unfold single_patterns.
  apply NoDup_bind; [| |apply days_NoDup].
  - intros d1 d2 p _ _ (s1 & Hp1 & _)%list_elem_of_bind
      (s2 & Hp2 & _)%list_elem_of_bind.
    destruct (_add_hours_to_time s1 h); [|by apply elem_of_nil in Hp1].
    destruct (_add_hours_to_time s2 h); [|by apply elem_of_nil in Hp2].
    simpl in *. repeat case_bool_decide;
      try (by apply elem_of_nil in Hp1); try (by apply elem_of_nil in Hp2).
    apply list_elem_of_singleton in Hp1, Hp2. congruence.
  - intros d _. apply NoDup_bind; [| |done].
    + intros s1 s2 p _ _ Hp1 Hp2.
      destruct (_add_hours_to_time s1 h); [|by apply elem_of_nil in Hp1].
      destruct (_add_hours_to_time s2 h); [|by apply elem_of_nil in Hp2].
      simpl in *. repeat case_bool_decide;
        try (by apply elem_of_nil in Hp1); try (by apply elem_of_nil in Hp2).
      apply list_elem_of_singleton in Hp1, Hp2. congruence.
    + intros start _. destruct (_add_hours_to_time start h); [|constructor].
      simpl. case_bool_decide; [apply NoDup_singleton|constructor].
Qed.

(** X2.  What the single-session branch of [_get_time_patterns]
    returns: the candidates are pairwise different, and they are the
    single sessions of every day and every start among the first 24 slots
    of the grid (07:00 to 18:30) whose end is a slot of the grid. *)
Theorem single_session_patterns_exact counter hours component_type :
  hours ≤ 2 → ¬ (component_type = "Lab" ∧ 2 ≤ hours) →
  NoDup (_get_time_patterns counter hours component_type)
  ∧ ∀ p,
      p ∈ _get_time_patterns counter hours component_type
      ↔ ∃ d start e,
          d ∈ days ∧ start ∈ take 24 time_slots
          ∧ _add_hours_to_time start (2 * hours) = Some e
          ∧ e ∈ time_slots
          ∧ p = [Session d start e (2 * hours)].
Proof.
  intros Hle Hlab.
  assert (_get_time_patterns counter hours component_type
          = single_patterns (take 24 time_slots) (2 * hours)) as ->.
  { unfold _get_time_patterns.
    assert ((hours <=? 2)
            && negb (bool_decide (component_type = "Lab") && (2 <=? hours)
                     || (2 <? hours) && (hours <=? 4)) = true) as ->; [|done].
    apply andb_true_intro. split; [by apply Z.leb_le|].
    apply negb_true_iff, orb_false_iff. split.
    - apply andb_false_iff. destruct (decide (component_type = "Lab")).
      + right. apply Z.leb_gt. destruct (decide (2 ≤ hours)); [|lia].
        by destruct Hlab.
      + left. by apply bool_decide_eq_false_2.
    - apply andb_false_iff. left. apply Z.ltb_ge. lia. }
  split.
  - apply single_patterns_NoDup.
    eapply sublist_NoDup; [apply time_slots_NoDup|apply sublist_take].
  - intros p. apply elem_of_single_patterns.
Qed.

(** ** The empty dictionary of arc consistency *)

(** X1.  When [_apply_arc_consistency] answers the empty dictionary (a
    domain was emptied) and there is a variable, [_solve_csp] raises
    [KeyError] on the first variable: it neither answers [None] nor
    searches. *)
Theorem solve_csp_raises_on_emptied_domain fuel var variables domains
    constraints max_iterations :
  _apply_arc_consistency fuel constraints domains = Ok ∅ →
  _solve_csp fuel (var :: variables) domains constraints max_iterations false
  = Raise (KeyError var).
Proof.
  intros Hac. unfold _solve_csp. rewrite Hac. cbn [rbind foldr].
  unfold domain_get at 1. by rewrite lookup_empty.
Qed.

(** * Further properties *)

(** ** Times *)

(** X3.  [_times_overlap] does not depend on the order of its two
    intervals; it answers [False] as soon as one of the four strings is not
    a time, so a malformed time never conflicts with anything; and an
    interval of well-formed times that ends after it starts overlaps
    itself. *)
Theorem times_overlap_symmetric_and_lenient s1 e1 s2 e2 :
  _times_overlap s1 e1 s2 e2 = _times_overlap s2 e2 s1 e1
  ∧ (strptime s1 = None ∨ strptime e1 = None
     ∨ strptime s2 = None ∨ strptime e2 = None →
     _times_overlap s1 e1 s2 e2 = false)
  ∧ (∀ a b, strptime s1 = Some a → strptime e1 = Some b →
            minutes_of a < minutes_of b →
            _times_overlap s1 e1 s1 e1 = true).
Proof.
  split; [apply times_overlap_sym|]. split.
  - unfold _times_overlap.
    intros [-> | [-> | [-> | ->]]]; repeat case_match; done.
  - intros a b Ha Hb Hlt.
    pose proof (strptime_range _ _ Ha) as [_ ?].
    pose proof (strptime_range _ _ Hb) as [_ ?].
    unfold _times_overlap. rewrite Ha, Hb.
    rewrite !time_le_minutes, orb_diag by done.
    apply negb_true_iff, Z.leb_gt. lia.
Qed.

Lemma strftime_reads_back m :
  0 ≤ m < 1440 → strptime (strftime m) = Some (Time (m / 60) (m mod 60)).
Proof.
  intros Hm.
  assert (Forall (λ m, reads_back m = true) (seqZ 0 1440)) as Hall.
  { apply Forall_forall. intros x Hx%list_elem_of_In. revert x Hx.
    apply forallb_forall. by vm_compute. }
  assert (m ∈ seqZ 0 1440) as Hin by (apply elem_of_seqZ; lia).
  apply (proj1 (Forall_forall _ _) Hall) in Hin.
  unfold reads_back in Hin. destruct (strptime (strftime m)) as [[h mi]|];
    [|done].
  simpl in Hin. apply andb_prop in Hin as [?%Z.eqb_eq ?%Z.eqb_eq].
  by subst.
Qed.

(** X4.  [_add_hours_to_time] answers [None] on a string that is not a
    time.  On a time, as long as the sum stays inside the dates a
    [datetime] can hold, it answers the text of the time of day reached,
    wrapping around midnight: read back, the answer is the start plus the
    duration modulo one day. *)
Theorem add_hours_to_time_wraps time_str hours :
  (strptime time_str = None → _add_hours_to_time time_str hours = None)
  ∧ (∀ t,
       strptime time_str = Some t →
       1 ≤ today + (minutes_of t + 30 * hours) / 1440 ≤ 3652059 →
       ∃ answer t',
         _add_hours_to_time time_str hours = Some answer
         ∧ strptime answer = Some t'
         ∧ minutes_of t' = (minutes_of t + 30 * hours) mod 1440).
Proof.
  unfold _add_hours_to_time. split; [by intros ->|].
  intros t Ht Hday. rewrite Ht. fold (minutes_of t).
  assert ((1 <=? today + (minutes_of t + 30 * hours) / 1440)
          && (today + (minutes_of t + 30 * hours) / 1440 <=? 3652059) = true)
    as ->.
  { apply andb_true_intro. split; apply Z.leb_le; lia. }
  pose proof (Z.mod_pos_bound (minutes_of t + 30 * hours) 1440 ltac:(lia))
    as Hm.
  eexists _, _. split; [done|]. split; [by apply strftime_reads_back|].
  set (x := (minutes_of t + 30 * hours) mod 1440) in *.
  unfold minutes_of at 1. simpl.
  pose proof (Z.div_mod x 60 ltac:(lia)). lia.
Qed.

(** ** Pattern generator *)

Lemma paired_patterns_no_start pairings h : paired_patterns pairings [] h = [].
Proof.
  unfold paired_patterns. induction pairings as [|[day1 day2] l IH]; [done|].
  by rewrite bind_cons, IH.
Qed.

Lemma rotation_Permutation {A} n (l : list A) : drop n l ++ take n l ≡ₚ l.
Proof. by rewrite Permutation_app_comm, take_drop. Qed.

Lemma paired_patterns_Permutation pairings pairings' starts h :
  pairings ≡ₚ pairings' →
  paired_patterns pairings starts h ≡ₚ paired_patterns pairings' starts h.
Proof. intros Hp. unfold paired_patterns. by rewrite Hp. Qed.

(** X5.  The rotation counter changes the order of the generated
    patterns and nothing else: for the same hours and component kind, the
    candidates under two values of the counter are permutations of each
    other. *)
Theorem rotation_permutes_patterns counter1 counter2 hours component_type :
  _get_time_patterns counter1 hours component_type
  ≡ₚ _get_time_patterns counter2 hours component_type.
Proof.
  unfold _get_time_patterns. repeat case_match; try done;
    apply paired_patterns_Permutation;
    by rewrite !rotation_Permutation.
Qed.

Lemma elem_of_paired_patterns pairings starts h p :
  p ∈ paired_patterns pairings starts h
  ↔ ∃ day1 day2 start e,
      (day1, day2) ∈ pairings ∧ start ∈ starts
      ∧ _add_hours_to_time start h = Some e ∧ e ∈ time_slots
      ∧ p = [Session day1 start e h; Session day2 start e h].
Proof.
  unfold paired_patterns. split.
  - intros ([day1 day2] & (start & Hp & Hstart)%list_elem_of_bind & Hd)
      %list_elem_of_bind.
    destruct (_add_hours_to_time start h) as [e|] eqn:He;
      [|by apply elem_of_nil in Hp].
    simpl in Hp. case_bool_decide as Hin; [|by apply elem_of_nil in Hp].
    apply list_elem_of_singleton in Hp. by exists day1, day2, start, e.
  - intros (day1 & day2 & start & e & Hd & Hstart & He & Hin & ->).
    apply list_elem_of_bind. exists (day1, day2). split; [|done].
    apply list_elem_of_bind. exists start. split; [|done].
    rewrite He. simpl. rewrite bool_decide_eq_true_2 by done.
    by apply list_elem_of_singleton.
Qed.

Lemma elem_of_rotation {A} n (l : list A) x : x ∈ drop n l ++ take n l ↔ x ∈ l.
Proof. by rewrite rotation_Permutation. Qed.

(** X6.  Outside the single-session branch (more than two hours, or a
    lab of two hours) every generated pattern consists of exactly two
    sessions: they are on the two days of one of the three fixed pairings,
    they start at the same slot and end at the same slot of the grid, and
    each lasts half of the weekly hours. *)
Theorem paired_patterns_shape counter hours component_type p :
  2 < hours ∨ (component_type = "Lab" ∧ hours = 2) →
  p ∈ _get_time_patterns counter hours component_type →
  ∃ day1 day2 start e,
    (day1, day2) ∈ base_day_pairings
    ∧ start ∈ time_slots ∧ e ∈ time_slots
    ∧ _add_hours_to_time start hours = Some e
    ∧ p = [Session day1 start e hours; Session day2 start e hours].
Proof.
  intros Hh. unfold _get_time_patterns.
  assert ((hours <=? 2)
          && negb (bool_decide (component_type = "Lab") && (2 <=? hours)
                   || (2 <? hours) && (hours <=? 4)) = false) as ->.
  { destruct Hh as [Hh|[-> ->]]; [|done].
    apply andb_false_iff. left. apply Z.leb_gt. lia. }
  assert (∀ n starts,
            starts ⊆ time_slots →
            p ∈ paired_patterns
                  (drop n base_day_pairings ++ take n base_day_pairings)
                  starts hours →
            ∃ day1 day2 start e,
              (day1, day2) ∈ base_day_pairings
              ∧ start ∈ time_slots ∧ e ∈ time_slots
              ∧ _add_hours_to_time start hours = Some e
              ∧ p = [Session day1 start e hours; Session day2 start e hours])
    as Hgen.
  { intros n starts Hsub
      (day1 & day2 & start & e & Hd%elem_of_rotation & Hs & He & Hin & ->)
      %elem_of_paired_patterns.
    exists day1, day2, start, e. split; [done|]. split; [by apply Hsub|].
    done. }
  repeat case_match.
  - assert (hours = 2) as -> by (apply andb_prop in H as [?%Z.eqb_eq _]; done).
    apply Hgen, drop_last_subseteq.
  - apply Hgen, drop_last_subseteq.
  - apply Hgen, drop_last_subseteq.
  - apply Hgen, drop_last_subseteq.
  - apply Hgen, drop_last_subseteq.
Qed.

Lemma no_pattern_from_28_hours counter hours component_type :
  28 ≤ hours → _get_time_patterns counter hours component_type = [].
Proof.
  intros Hh. unfold _get_time_patterns.
  assert ((hours <=? 2)
          && negb (bool_decide (component_type = "Lab") && (2 <=? hours)
                   || (2 <? hours) && (hours <=? 4)) = false) as ->.
  { apply andb_false_iff. left. apply Z.leb_gt. lia. }
  assert ((hours =? 2) = false) as -> by (apply Z.eqb_neq; lia).
  assert ((hours <=? 4) = false) as -> by (apply Z.leb_gt; lia).
  assert ((0 <? hours) = true) as -> by (apply Z.ltb_lt; lia).
  simpl.
  assert (drop_last (Z.to_nat hours) time_slots = []) as ->.
  { unfold drop_last.
    replace (length time_slots - Z.to_nat hours)%nat with 0%nat; [done|].
    assert (length time_slots = 28%nat) as -> by by vm_compute. lia. }
  apply paired_patterns_no_start.
Qed.

Lemma nonempty_of_elem {A} (x : A) l : x ∈ l → l ≠ [].
Proof. intros H ->. by apply elem_of_nil in H. Qed.

Lemma first_slot_plus d :
  1 ≤ today ≤ 3652059 → 0 ≤ d ≤ 27 →
  ∃ e, _add_hours_to_time "07:00" d = Some e ∧ e ∈ time_slots.
Proof.
  intros Htoday Hd. unfold _add_hours_to_time.
  replace (strptime "07:00") with (Some (Time 7 0)) by (by vm_compute).
  cbn [hour minute].
  rewrite (Z.div_small (60 * 7 + 0 + 30 * d) 1440) by lia.
  rewrite (Z.mod_small (60 * 7 + 0 + 30 * d) 1440) by lia.
  rewrite Z.add_0_r.
  assert ((1 <=? today) && (today <=? 3652059) = true) as ->.
  { apply andb_true_iff. split; apply Z.leb_le; lia. }
  eexists. split; [done|].
  assert (forallb (λ d, bool_decide (strftime (60 * 7 + 0 + 30 * d)
                                     ∈ time_slots))
            (seqZ 0 28) = true) as Hall by by vm_compute.
  pose proof (proj1 (forallb_forall _ _) Hall d) as H.
  eapply bool_decide_eq_true_1, H, list_elem_of_In, elem_of_seqZ. lia.
Qed.

Lemma first_slot_kept n : (n < 28)%nat → "07:00" ∈ drop_last n time_slots.
Proof.
  intros Hn. unfold drop_last.
  assert (length time_slots = 28%nat) as -> by by vm_compute.
  apply (list_elem_of_lookup_2 _ 0%nat).
  rewrite lookup_take_lt by lia. by vm_compute.
Qed.

Lemma patterns_exist counter hours component_type :
  1 ≤ today ≤ 3652059 → 0 ≤ hours < 28 →
  _get_time_patterns counter hours component_type ≠ [].
Proof.
  intros Htoday Hh. unfold _get_time_patterns.
  assert (∀ n d, (n < 28)%nat → 0 ≤ d ≤ 27 →
            paired_patterns
              (drop (Z.to_nat (counter mod 3)) base_day_pairings
               ++ take (Z.to_nat (counter mod 3)) base_day_pairings)
              (drop_last n time_slots) d ≠ []) as Hpaired.
  { intros n d Hn Hd. destruct (first_slot_plus d Htoday Hd) as (e & He & Hin).
    apply (nonempty_of_elem
             [Session "Monday" "07:00" e d; Session "Thursday" "07:00" e d]).
    apply elem_of_paired_patterns.
    exists "Monday", "Thursday", "07:00", e. split; [|by auto using first_slot_kept].
    apply elem_of_rotation. by left. }
  destruct ((hours <=? 2) && negb _) eqn:Hsingle.
  - apply andb_prop in Hsingle as [?%Z.leb_le _].
    destruct (first_slot_plus (2 * hours) Htoday ltac:(lia)) as (e & He & Hin).
    apply (nonempty_of_elem [Session "Monday" "07:00" e (2 * hours)]).
    apply elem_of_single_patterns. exists "Monday", "07:00", e.
    split; [by left|]. split; [apply first_slot_kept; lia|done].
  - destruct ((hours =? 2) && _); [apply Hpaired; lia|].
    destruct (0 <? hours) eqn:Hpos.
    + apply Z.ltb_lt in Hpos.
      destruct (hours <=? 4); apply Hpaired; lia.
    + destruct (hours <=? 4); apply Hpaired; lia.
Qed.

(** X7.  On a date of the calendar a component of a non-negative number
    of weekly hours has a candidate pattern exactly when it has fewer than
    28 hours, whatever its kind and the rotation: from 28 hours on, half
    of the component does not fit between two slots of the grid. *)
Theorem patterns_exist_iff_under_28_hours counter hours component_type :
  1 ≤ today ≤ 3652059 → 0 ≤ hours →
  _get_time_patterns counter hours component_type ≠ [] ↔ hours < 28.
Proof.
  intros Htoday Hh. split.
  - intros Hne. destruct (decide (hours < 28)) as [|Hge]; [done|].
    destruct Hne. apply no_pattern_from_28_hours. lia.
  - intros ?. by apply patterns_exist.
Qed.

Lemma pattern_length counter hours component_type p :
  p ∈ _get_time_patterns counter hours component_type →
  (1 ≤ length p ≤ 2)%nat.
Proof.
  unfold _get_time_patterns. intros Hp.
  repeat case_match;
    first [apply elem_of_paired_patterns in Hp as (? & ? & ? & ? & _ & _ & _ & _ & ->)
          |apply elem_of_single_patterns in Hp as (? & ? & ? & _ & _ & _ & _ & ->)];
    simpl; lia.
Qed.

Lemma paired_patterns_by_slots pairings starts h :
  paired_patterns pairings starts h
  = pr ← pairings;
    (λ se : string * string,
       [Session pr.1 se.1 se.2 h; Session pr.2 se.1 se.2 h])
    <$> fitting_slots starts h.
Proof.
  unfold paired_patterns, fitting_slots.
  induction pairings as [|[day1 day2] l IH]; [done|].
  rewrite !bind_cons, IH. f_equal. clear IH.
  induction starts as [|st starts IH]; [done|].
  rewrite !bind_cons, fmap_app, IH. f_equal.
  destruct (_add_hours_to_time st h); [|done]. simpl. by case_bool_decide.
Qed.

(** X8.  In the two-session branches the candidates of the pairing
    selected by the rotation come first: when there is a candidate at all,
    the first one is on the days of pairing number [counter mod 3] of
    (Monday, Thursday), (Tuesday, Friday), (Wednesday, Saturday). *)
Theorem first_pattern_follows_rotation counter hours component_type p rest :
  2 < hours ∨ (component_type = "Lab" ∧ hours = 2) →
  _get_time_patterns counter hours component_type = p :: rest →
  ∃ pr, base_day_pairings !! Z.to_nat (counter mod 3) = Some pr
        ∧ day <$> p = [pr.1; pr.2].
Proof.
  intros Hh. unfold _get_time_patterns.
  assert ((hours <=? 2)
          && negb (bool_decide (component_type = "Lab") && (2 <=? hours)
                   || (2 <? hours) && (hours <=? 4)) = false) as ->.
  { destruct Hh as [Hh|[-> ->]]; [|done].
    apply andb_false_iff. left. apply Z.leb_gt. lia. }
  pose proof (Z.mod_pos_bound counter 3 ltac:(lia)) as Hr.
  set (r := Z.to_nat (counter mod 3)).
  assert (r < 3)%nat as Hr3 by lia.
  assert (∀ starts h,
            paired_patterns
              (drop r base_day_pairings ++ take r base_day_pairings)
              starts h = p :: rest →
            ∃ pr, base_day_pairings !! r = Some pr
                  ∧ day <$> p = [pr.1; pr.2]) as Hgen.
  { intros starts h. rewrite paired_patterns_by_slots.
    destruct (drop r base_day_pairings ++ take r base_day_pairings)
      as [|pr prs] eqn:Hrot.
    { apply (f_equal length) in Hrot.
      rewrite length_app, length_drop, length_take in Hrot.
      simpl in Hrot. lia. }
    assert (base_day_pairings !! r = Some pr) as Hpr.
    { destruct r as [|[|[|?]]]; try lia; by injection Hrot as <- _. }
    rewrite bind_cons.
    destruct (fitting_slots starts h) as [|se ses].
    - simpl. intros Hnil. exfalso. clear -Hnil.
      induction prs as [|q prs IH]; [done|]. by rewrite bind_cons in Hnil.
    - simpl. intros [= <- _]. by exists pr. }
  repeat case_match; apply Hgen.
Qed.

(** ** Where the rows of the greedy assigner come from *)

Lemma component_rows_from c s ct hours fac rms allow st b st' :
  _schedule_course_component c s ct hours fac rms allow st = Ok (b, st') →
  ∃ es, schedule_list st' = schedule_list st ++ es
        ∧ Forall (λ e, ∃ sess fr rr,
                    fr ∈ fac ∧ rr ∈ rms ∧ on_grid sess
                    ∧ e = make_entry c s sess (room_name rr)
                            (faculty_name fr) ct) es.
Proof.
  intros [[-> ->]|(-> & p & fr & rr & Hp & Hfr & Hrr & _ & Hmake)]
    %schedule_course_component_spec.
  - exists []. by rewrite app_nil_r.
  - apply make_assignment_schedule in Hmake as [Hs _].
    eexists. split; [done|]. apply Forall_fmap, Forall_forall.
    intros sess Hsess. exists sess, fr, rr. repeat split; try done.
    + pose proof (get_time_patterns_on_grid (day_pairing_counter st) hours ct)
        as Hgrid.
      apply (proj1 (Forall_forall _ _)
               (proj1 (Forall_forall _ _) Hgrid p Hp) sess Hsess).
    + pose proof (get_time_patterns_on_grid (day_pairing_counter st) hours ct)
        as Hgrid.
      apply (proj1 (Forall_forall _ _)
               (proj1 (Forall_forall _ _) Hgrid p Hp) sess Hsess).
Qed.

Lemma assign_course_rows c s allow st b st' :
  _assign_course_to_section c s allow st = Ok (b, st') →
  ∃ es, schedule_list st' = schedule_list st ++ es
        ∧ Forall (greedy_row c s) es.
Proof.
  unfold _assign_course_to_section, _find_suitable_faculty. intros H.
  case_bool_decide;
    [injection H as <- <-; exists []; by rewrite app_nil_r|].
  case_bool_decide;
    [injection H as <- <-; exists []; by rewrite app_nil_r|].
  assert (∀ ct kind es,
            (ct = "Lecture" ∨ ct = "Lab") →
            (lower (course_type c) ∈ ["lecture"; "lab"; "both"] → kind = ct) →
            Forall (λ e, ∃ sess fr rr,
                      fr ∈ faculty ∧ rr ∈ rooms_of_type kind ∧ on_grid sess
                      ∧ e = make_entry c s sess (room_name rr)
                              (faculty_name fr) ct) es →
            Forall (greedy_row c s) es) as Hrows.
  { intros ct kind es Hct Hkind Hes. eapply Forall_impl; [exact Hes|].
    intros e (sess & fr & rr & Hfr & [Hty Hrr]%list_elem_of_filter & Hg & ->).
    exists sess, fr, rr, ct.
    split; [done|]. split; [done|]. split; [done|]. split; [done|].
    split; [done|]. intros Hc. by rewrite Hty, Hkind. }
  case_bool_decide as Hboth.
  - unfold _schedule_lecture_lab_course in H.
    apply bind_inv in H as (lecture_assigned & st1 & Hlec & H).
    apply component_rows_from in Hlec as (lecture & Hl & Hlrows).
    apply (Hrows "Lecture" "Lecture") in Hlrows; [|by left|done].
    case_match.
    + injection H as <- <-. by exists lecture.
    + apply bind_inv in H as (lab_assigned & st2 & Hlab & H).
      injection H as <- <-.
      apply component_rows_from in Hlab as (lab & Hb & Hbrows).
      apply (Hrows "Lab" "Lab") in Hbrows; [|by right|done].
      exists (lecture ++ lab). rewrite Hb, Hl, app_assoc. split; [done|].
      by apply Forall_app.
  - unfold _schedule_single_type_course in H.
    apply component_rows_from in H as (es & He & Hes).
    exists es. split; [done|]. revert Hes. apply Hrows.
    + destruct (str_contains "lecture" _); [by left|by right].
    + unfold required_room_type_of.
      intros [Hc|[Hc|[Hc|[]%elem_of_nil]%elem_of_cons]%elem_of_cons]
        %elem_of_cons; [by rewrite Hc..|done].
Qed.

Lemma greedy_courses_rows cs s allow : ∀ st u st',
  greedy_courses cs s allow st = Ok (u, st') →
  ∃ es, schedule_list st' = schedule_list st ++ es
        ∧ Forall (λ e, ∃ c, c ∈ cs ∧ greedy_row c s e) es.
Proof.
  induction cs as [|c cs IH]; intros st u st' H.
  - injection H as _ <-. exists []. by rewrite app_nil_r.
  - cbn [greedy_courses] in H.
    apply bind_inv in H as (b & st1 & Hassign & H).
    apply assign_course_rows in Hassign as (es1 & He1 & Hrows1).
    apply IH in H as (es2 & He2 & Hrows2).
    exists (es1 ++ es2). rewrite He2, He1, app_assoc. split; [done|].
    apply Forall_app. split.
    + eapply Forall_impl; [exact Hrows1|]. intros e ?. exists c.
      split; [left|done].
    + eapply Forall_impl; [exact Hrows2|]. intros e (c' & ? & ?). exists c'.
      split; [by right|done].
Qed.

Lemma greedy_sections_rows cts allow secs : ∀ st u st',
  greedy_sections secs cts allow st = Ok (u, st') →
  ∃ es, schedule_list st' = schedule_list st ++ es
        ∧ Forall (λ e, ∃ c s, c ∈ cts ∧ s ∈ secs ∧ matches c s
                              ∧ greedy_row c s e) es.
Proof.
  induction secs as [|s secs IH]; intros st u st' H.
  - injection H as _ <-. exists []. by rewrite app_nil_r.
  - cbn [greedy_sections] in H.
    apply bind_inv in H as ([] & st1 & Hreset & H).
    injection Hreset as <-.
    apply bind_inv in H as ([] & st2 & Hcourses & H).
    apply greedy_courses_rows in Hcourses as (es1 & He1 & Hrows1).
    apply IH in H as (es2 & He2 & Hrows2).
    exists (es1 ++ es2). rewrite He2, He1, app_assoc. split; [done|].
    apply Forall_app. split.
    + eapply Forall_impl; [exact Hrows1|].
      intros e (c & [Hm Hc]%list_elem_of_filter & ?). exists c, s.
      split; [done|]. split; [left|]. done.
    + eapply Forall_impl; [exact Hrows2|]. intros e (c & s' & ? & ? & ?).
      exists c, s'. split; [done|]. split; [by right|done].
Qed.

(** X9.  Every row of a schedule returned by the greedy assigner, with
    conflicts allowed or not, belongs to a course of the courses to
    schedule and a section of the table that have the same program, year
    level and term; it carries the code and title of that course, the
    name, program, year level, term and size of that section, a faculty
    member and a room of the tables, a session of the grid, and the tag
    Lecture or Lab; for a course of type Lecture, Lab or Both the type of
    the room is the tag. *)
Theorem greedy_rows_provenance cts allow counter schedule counter' :
  _greedy_scheduling cts allow counter = Ok (schedule, counter') →
  Forall (λ e, ∃ c s, c ∈ cts ∧ s ∈ sections ∧ matches c s
                      ∧ greedy_row c s e) schedule.
Proof.
  unfold _greedy_scheduling, finish. intros H.
  destruct (greedy_sections sections cts allow (fresh_state counter))
    as [[[] st]| |] eqn:Hrun; [|done..].
  injection H as <- _.
  by apply greedy_sections_rows in Hrun as (es & -> & Hrows).
Qed.

(** ** The keys of the ledgers *)

Lemma keyed_weaken sns sns' st : sns' ⊆ sns → keyed sns st → keyed sns' st.
Proof. intros Hsub (? & ? & Hs). repeat split; auto. Qed.

Lemma keyed_insert sns st f df r dr sn ds sched counter :
  keyed sns st →
  keyed sns {| schedule_list := sched;
               faculty_schedule := <[f := df]> (faculty_schedule st);
               room_schedule := <[r := dr]> (room_schedule st);
               section_schedule := <[sn := ds]> (section_schedule st);
               day_pairing_counter := counter |}.
Proof.
  intros (Hf & Hr & Hs). repeat split; simpl; intros;
    apply lookup_insert_is_Some'; right; auto.
Qed.

Lemma keyed_lookup sns st fr rr sn :
  keyed sns st → fr ∈ faculty → rr ∈ rooms → sn ∈ sns →
  ∃ df dr ds,
    faculty_schedule st !! faculty_name fr = Some df
    ∧ room_schedule st !! room_name rr = Some dr
    ∧ section_schedule st !! sn = Some ds.
Proof.
  intros (Hf & Hr & Hs) Hfr Hrr Hsn.
  destruct (Hf fr Hfr) as [df ?], (Hr rr Hrr) as [dr ?], (Hs sn Hsn) as [ds ?].
  by exists df, dr, ds.
Qed.

Lemma extends_refl st : extends st st.
Proof. exists []. rewrite app_nil_r. simpl. split; [done|lia]. Qed.

Lemma extends_trans st1 st2 st3 :
  extends st1 st2 → extends st2 st3 → extends st1 st3.
Proof.
  intros (es1 & He1 & ?) (es2 & He2 & ?). exists (es1 ++ es2).
  rewrite He2, He1, app_assoc, length_app. split; [done|lia].
Qed.

Lemma extends_elem st st' e :
  extends st st' → e ∈ schedule_list st → e ∈ schedule_list st'.
Proof. intros (es & -> & _) ?. apply elem_of_app. by left. Qed.

Lemma make_assignment_keyed sns p c s fr rr ct st :
  keyed sns st → fr ∈ faculty → rr ∈ rooms → section_name s ∈ sns →
  ∃ st', _make_assignment p c s (faculty_name fr) (room_name rr) ct st
         = Ok (tt, st')
         ∧ keyed sns st'
         ∧ schedule_list st'
           = schedule_list st
             ++ entries_of c s p (room_name rr) (faculty_name fr) ct
         ∧ day_pairing_counter st' = day_pairing_counter st + 1.
Proof.
  intros Hkeys Hfr Hrr Hsn.
  destruct (keyed_lookup _ _ _ _ _ Hkeys Hfr Hrr Hsn)
    as (df & dr & ds & Hf & Hr & Hs).
  unfold _make_assignment.
  erewrite bind_ok by (by apply record_sessions_ok).
  rewrite bump_counter_eq. eexists. split; [done|].
  cbn [schedule_list faculty_schedule room_schedule section_schedule
       day_pairing_counter].
  split; [by apply keyed_insert|done].
Qed.

Lemma try_candidates_keyed sns c s ct allow cands :
  section_name s ∈ sns → Forall named_candidate cands →
  ∀ st, keyed sns st →
    ∃ b st', try_candidates cands c s ct allow st = Ok (b, st')
             ∧ keyed sns st' ∧ extends st st'
             ∧ (allow = true → cands ≠ [] →
                ∃ e, e ∈ schedule_list st' ∧ e_course_code e = course_code c
                     ∧ e_section e = section_name s ∧ e_course_type e = ct).
Proof.
  intros Hsn. induction cands as [|[[p f] r] cands IH]; intros Hgood st Hkeys.
  - exists false, st. split; [done|]. split; [done|].
    split; [apply extends_refl|done].
  - apply Forall_cons in Hgood as [(Hlen & (fr & Hfr & Hf) & (rr & Hrr & Hr))
      Hgood]. simpl in *. subst f r.
    cbn [try_candidates].
    assert (∃ ok, _can_assign_pattern p (faculty_name fr) (room_name rr)
                    (section_name s) (faculty_schedule st) (room_schedule st)
                    (section_schedule st) allow = Ok ok
                  ∧ (allow = true → ok = true)) as (ok & Hok & Hallow).
    { unfold _can_assign_pattern. destruct allow; [by exists true|].
      destruct Hkeys as (Hfk & Hrk & Hsk).
      destruct (can_assign_sessions_total p (faculty_name fr) (room_name rr)
        (section_name s) (faculty_schedule st) (room_schedule st)
        (section_schedule st)) as [ok Hok]; auto.
      by exists ok. }
    unfold bind at 1, lift. rewrite Hok. cbn [rbind].
    destruct ok.
    + destruct (make_assignment_keyed sns p c s fr rr ct st)
        as (st' & Hmake & Hkeys' & Hsched & Hcount); try done.
      rewrite (bind_ok _ _ _ _ _ Hmake). exists true, st'.
      split; [done|]. split; [done|]. split.
      * eexists. split; [exact Hsched|].
        unfold entries_of. rewrite length_fmap. lia.
      * intros _ _. destruct p as [|sess p]; [simpl in Hlen; lia|].
        exists (make_entry c s sess (room_name rr) (faculty_name fr) ct).
        split; [|done]. rewrite Hsched. apply elem_of_app. right. left.
    + destruct (IH Hgood st Hkeys) as (b & st' & Hrun & ? & ? & _).
      exists b, st'. split; [done|]. split; [done|]. split; [done|].
      intros Ha. by specialize (Hallow Ha).
Qed.

Lemma candidates_named counter hours ct fac rms :
  fac ⊆ faculty → rms ⊆ rooms →
  Forall named_candidate
    (candidates (_get_time_patterns counter hours ct) fac rms).
Proof.
  intros Hfac Hrms. apply Forall_forall. intros [[p f] r] Hin.
  apply elem_of_candidates in Hin as (Hp & (fr & Hfr & ->) & (rr & Hrr & ->)).
  split; [by eapply pattern_length|]. simpl.
  split; [exists fr|exists rr]; auto.
Qed.

Lemma candidates_nonempty (pats : list pattern) fac rms :
  pats ≠ [] → fac ≠ [] → rms ≠ [] → candidates pats fac rms ≠ [].
Proof.
  destruct pats as [|p pats], fac as [|fr fac], rms as [|rr rms]; try done.
Qed.

Lemma schedule_course_component_keyed sns c s ct hours fac rms allow st :
  section_name s ∈ sns → fac ⊆ faculty → rms ⊆ rooms → keyed sns st →
  ∃ b st', _schedule_course_component c s ct hours fac rms allow st
           = Ok (b, st')
           ∧ keyed sns st' ∧ extends st st'
           ∧ (allow = true → 1 ≤ today ≤ 3652059 → 0 ≤ hours < 28 →
              fac ≠ [] → rms ≠ [] →
              ∃ e, e ∈ schedule_list st' ∧ e_course_code e = course_code c
                   ∧ e_section e = section_name s ∧ e_course_type e = ct).
Proof.
  intros Hsn Hfac Hrms Hkeys. unfold _schedule_course_component.
  unfold bind at 1, lift. cbn [rbind].
  destruct (try_candidates_keyed sns c s ct allow
              (candidates (_get_time_patterns (day_pairing_counter st) hours ct)
                 fac rms) Hsn (candidates_named _ _ _ _ _ Hfac Hrms) st Hkeys)
    as (b & st' & Hrun & Hkeys' & Hext & Hcov).
  exists b, st'. split; [done|]. split; [done|]. split; [done|].
  intros Ha Htoday Hh Hf Hr. apply Hcov; [done|].
  apply candidates_nonempty; [|done..]. by apply patterns_exist.
Qed.

Lemma assign_course_to_section_keyed sns c s allow st :
  section_name s ∈ sns → keyed sns st →
  ∃ b st', _assign_course_to_section c s allow st = Ok (b, st')
           ∧ keyed sns st' ∧ extends st st'
           ∧ (allow = true → 1 ≤ today ≤ 3652059 → faculty ≠ [] →
              rooms_of_type (required_room_type_of c) ≠ [] →
              covered c s (schedule_list st')).
Proof.
  intros Hsn Hkeys. unfold _assign_course_to_section, _find_suitable_faculty.
  case_bool_decide as Hfac.
  { exists false, st. split; [done|]. split; [done|].
    split; [apply extends_refl|done]. }
  case_bool_decide as Hrms.
  { exists false, st. split; [done|]. split; [done|].
    split; [apply extends_refl|done]. }
  unfold covered, components. case_bool_decide as Hboth.
  - unfold _schedule_lecture_lab_course.
    destruct (schedule_course_component_keyed sns c s "Lecture"
                (hours_per_week c / 2) faculty (rooms_of_type "Lecture")
                allow st) as (b1 & st1 & Hrun1 & Hkeys1 & Hext1 & Hcov1);
      [done|done|apply rooms_of_type_subseteq|done|].
    rewrite (bind_ok _ _ _ _ _ Hrun1).
    destruct (negb b1 && negb allow) eqn:Hstop.
    { exists false, st1. split; [done|]. split; [done|]. split; [done|].
      intros ->. by rewrite andb_false_r in Hstop. }
    destruct (schedule_course_component_keyed sns c s "Lab"
                (hours_per_week c - hours_per_week c / 2) faculty
                (rooms_of_type "Lab") allow st1)
      as (b2 & st2 & Hrun2 & Hkeys2 & Hext2 & Hcov2);
      [done|done|apply rooms_of_type_subseteq|done|].
    rewrite (bind_ok _ _ _ _ _ Hrun2).
    exists (b1 && b2), st2. split; [done|]. split; [done|].
    split; [by eapply extends_trans|].
    intros Ha Htoday _ _ ct h kind
      [[= -> -> ->]|[[= -> -> ->]|[]%elem_of_nil]%elem_of_cons]%elem_of_cons
      Hh Hkind.
    + destruct Hcov1 as (e & He & ?); try done.
      exists e. split; [by eapply extends_elem|done].
    + by apply Hcov2.
  - unfold _schedule_single_type_course.
    destruct (schedule_course_component_keyed sns c s
                (if str_contains "lecture" (lower (course_type c))
                 then "Lecture" else "Lab")
                (hours_per_week c) faculty
                (rooms_of_type (required_room_type_of c)) allow st)
      as (b & st' & Hrun & Hkeys' & Hext & Hcov);
      [done|done|apply rooms_of_type_subseteq|done|].
    exists b, st'. split; [done|]. split; [done|]. split; [done|].
    intros Ha Htoday _ _ ct h kind [[= -> -> ->]|[]%elem_of_nil]%elem_of_cons
      Hh Hkind.
    by apply Hcov.
Qed.

Lemma greedy_courses_keyed sns s allow cs :
  section_name s ∈ sns →
  ∀ st, keyed sns st →
    ∃ st', greedy_courses cs s allow st = Ok (tt, st')
           ∧ keyed sns st' ∧ extends st st'
           ∧ (allow = true → 1 ≤ today ≤ 3652059 → faculty ≠ [] →
              ∀ c, c ∈ cs → rooms_of_type (required_room_type_of c) ≠ [] →
                   covered c s (schedule_list st')).
Proof.
  intros Hsn. induction cs as [|c cs IH]; intros st Hkeys.
  - exists st. split; [done|]. split; [done|]. split; [apply extends_refl|].
    by intros _ _ _ ? ?%elem_of_nil.
  - cbn [greedy_courses].
    destruct (assign_course_to_section_keyed sns c s allow st Hsn Hkeys)
      as (b & st1 & Hrun1 & Hkeys1 & Hext1 & Hcov1).
    rewrite (bind_ok _ _ _ _ _ Hrun1).
    destruct (IH st1 Hkeys1) as (st' & Hrun & Hkeys' & Hext & Hcov).
    exists st'. split; [done|]. split; [done|].
    split; [by eapply extends_trans|].
    intros Ha Htoday Hfac c' [->|Hc']%elem_of_cons Hrms; [|by apply Hcov].
    intros ct h kind Hcomp Hh Hkind.
    destruct (Hcov1 Ha Htoday Hfac Hrms ct h kind Hcomp Hh Hkind)
      as (e & He & ?).
    exists e. split; [by eapply extends_elem|done].
Qed.

Lemma greedy_sections_keyed cts allow secs :
  ∀ sns st, keyed sns st →
    ∃ sns' st', greedy_sections secs cts allow st = Ok (tt, st')
           ∧ keyed sns' st' ∧ extends st st'
           ∧ (allow = true → 1 ≤ today ≤ 3652059 → faculty ≠ [] →
              ∀ c s, c ∈ cts → s ∈ secs → matches c s →
                     rooms_of_type (required_room_type_of c) ≠ [] →
                     covered c s (schedule_list st')).
Proof.
  induction secs as [|s secs IH]; intros sns st Hkeys.
  - exists sns, st. split; [done|]. split; [done|].
    split; [apply extends_refl|]. by intros _ _ _ ?? _ ?%elem_of_nil.
  - cbn [greedy_sections]. unfold bind at 1. cbn [reset_section update rbind].
    set (st0 := {| schedule_list := schedule_list st;
                   faculty_schedule := faculty_schedule st;
                   room_schedule := room_schedule st;
                   section_schedule :=
                     <[section_name s := ∅]> (section_schedule st);
                   day_pairing_counter := day_pairing_counter st |}).
    assert (keyed [section_name s] st0) as Hkeys0.
    { destruct Hkeys as (Hf & Hr & _). repeat split; try done.
      intros sn ->%list_elem_of_singleton. simpl.
      by rewrite lookup_insert_eq. }
    assert (extends st st0) as Hext0 by apply (extends_refl st).
    destruct (greedy_courses_keyed [section_name s] s allow
                (courses_of_section cts s) ltac:(left) st0 Hkeys0)
      as (st1 & Hrun1 & Hkeys1 & Hext1 & Hcov1).
    rewrite (bind_ok _ _ _ _ _ Hrun1).
    destruct (IH _ st1 Hkeys1) as (sns' & st' & Hrun & Hkeys' & Hext & Hcov).
    exists sns', st'. split; [done|]. split; [done|].
    split; [eauto using extends_trans|].
    intros Ha Htoday Hfac c s' Hc [->|Hs']%elem_of_cons Hm Hrms;
      [|by apply Hcov].
    intros ct h kind Hcomp Hh Hkind.
    destruct (Hcov1 Ha Htoday Hfac c ltac:(by apply list_elem_of_filter)
                Hrms ct h kind Hcomp Hh Hkind) as (e & He & ?).
    exists e. split; [by eapply extends_elem|done].
Qed.

Lemma fresh_state_keyed counter : keyed [] (fresh_state counter).
Proof.
  repeat split; simpl.
  - intros fr Hfr. rewrite empty_ledger_lookup; [done|].
    by apply list_elem_of_fmap_2.
  - intros rr Hrr. rewrite empty_ledger_lookup; [done|].
    by apply list_elem_of_fmap_2.
  - by intros ? ?%elem_of_nil.
Qed.

(** X10.  On tables without blank cells (every cell a string or an
    integer, as the row records say) the greedy assigner raises neither
    [KeyError] nor [ValueError], with conflicts allowed or not: every read
    of a ledger finds its key.  It returns a schedule and a counter, and
    the counter has advanced by the number of components placed, each of
    which gave one or two rows. *)
Theorem greedy_never_raises cts allow counter :
  ∃ schedule counter',
    _greedy_scheduling cts allow counter = Ok (schedule, counter')
    ∧ counter' - counter ≤ Z.of_nat (length schedule)
      ≤ 2 * (counter' - counter).
Proof.
  unfold _greedy_scheduling, finish.
  destruct (greedy_sections_keyed cts allow sections [] (fresh_state counter)
              (fresh_state_keyed counter))
    as (sns & st & -> & _ & (es & Hes & Hlen) & _).
  exists (schedule_list st), (day_pairing_counter st). split; [done|].
  simpl in Hes, Hlen. by rewrite Hes.
Qed.

(** X11.  With conflicts allowed, on a date of the calendar and with a
    faculty table that is not empty, the greedy assigner places every
    component that can be placed at all: for every course of the courses
    to schedule, every section of its program, year level and term, when a
    room of the type the course asks for exists, each component of fewer
    than 28 hours whose type of room exists has a row with the course
    code, the section name and the tag of the component. *)
Theorem greedy_with_conflicts_places_all cts counter :
  1 ≤ today ≤ 3652059 → faculty ≠ [] →
  ∃ schedule counter',
    _greedy_scheduling cts true counter = Ok (schedule, counter')
    ∧ ∀ c s, c ∈ cts → s ∈ sections → matches c s →
             rooms_of_type (required_room_type_of c) ≠ [] →
             covered c s schedule.
Proof.
  intros Htoday Hfac. unfold _greedy_scheduling, finish.
  destruct (greedy_sections_keyed cts true sections [] (fresh_state counter)
              (fresh_state_keyed counter))
    as (sns & st & -> & _ & _ & Hcov).
  exists (schedule_list st), (day_pairing_counter st). split; [done|].
  by apply Hcov.
Qed.

(** ** The backtracking search *)

Lemma slot_hour x : x ∈ time_slots → ∃ h, py_int (before_colon x) = Ok h.
Proof.
  intros Hx%list_elem_of_In.
  assert (forallb (λ x, match py_int (before_colon x) with
                        | Ok _ => true
                        | _ => false
                        end) time_slots = true) as Hall by by vm_compute.
  pose proof (proj1 (forallb_forall _ _) Hall x Hx) as H. cbv beta in H.
  destruct (py_int (before_colon x)) as [h| |]; [by exists h|done..].
Qed.

Lemma assignment_preference_total o :
  Forall on_grid (opt_pattern o) → ∃ k, _assignment_preference o = Ok k.
Proof.
  unfold _assignment_preference. destruct (opt_pattern o) as [|sess p].
  - intros _. cbn [rbind]. case_match; eauto.
  - intros [[Hstart _] _]%Forall_cons.
    destruct (slot_hour _ Hstart) as [h ->]. cbn [rbind]. case_match; eauto.
Qed.

Lemma with_keys_total {A} (key : A → result Z) l :
  Forall (λ x, ∃ k, key x = Ok k) l → ∃ keyed, with_keys key l = Ok keyed.
Proof.
  induction 1 as [|x l [k Hk] _ [more Hmore]]; [by eexists|].
  cbn [with_keys]. rewrite Hk, Hmore. by eexists.
Qed.

Lemma feasible_options_total sns st sn allow cands :
  keyed sns st → sn ∈ sns → Forall named_candidate cands →
  ∃ opts, feasible_options cands sn (faculty_schedule st) (room_schedule st)
            (section_schedule st) allow = Ok opts.
Proof.
  intros (Hf & Hr & Hs) Hsn. induction 1 as [|[[p f] r] cands Hx _ [more Hmore]];
    [by eexists|].
  destruct Hx as (_ & (fr & Hfr & Hfn) & (rr & Hrr & Hrn)). simpl in *.
  subst f r. cbn [feasible_options]. rewrite Hmore.
  destruct allow; [by eexists|]. unfold _can_assign_pattern.
  destruct (can_assign_sessions_total p (faculty_name fr) (room_name rr) sn
              (faculty_schedule st) (room_schedule st) (section_schedule st))
    as [ok ->]; auto.
  by eexists.
Qed.

Lemma get_possible_assignments_keyed sns c s allow st :
  keyed sns st → section_name s ∈ sns →
  ∃ options, _get_possible_assignments c s allow st = Ok (options, st)
             ∧ Forall (option_for c) options.
Proof.
  intros Hkeys Hsn. unfold _get_possible_assignments, lift,
    _find_suitable_faculty.
  destruct (feasible_options_total sns st (section_name s) allow
              (candidates
                 (_get_time_patterns (day_pairing_counter st)
                    (hours_per_week c) "Lecture")
                 faculty (rooms_of_type (required_room_type_of c)))
              Hkeys Hsn) as [opts Hopts].
  { apply candidates_named; [done|apply rooms_of_type_subseteq]. }
  rewrite Hopts. cbn [rbind].
  assert (Forall (option_for c) opts) as Hfor.
  { apply Forall_forall. intros o Ho.
    destruct (feasible_options_elem _ _ _ _ _ _ _ _ Hopts Ho) as [Hin Hdata].
    apply elem_of_candidates in Hin
      as (Hp & (fr & Hfr & Hfn) & (rr & [Hty Hrr]%list_elem_of_filter & Hrn)).
    split; [done|].
    by exists (day_pairing_counter st), fr, rr. }
  destruct (with_keys_total _assignment_preference opts) as [keyed' Hkeyed].
  { eapply Forall_impl; [exact Hfor|].
    intros o (_ & counter & _ & _ & Hp & _). apply assignment_preference_total.
    apply (proj1 (Forall_forall _ _)
             (get_time_patterns_on_grid counter (hours_per_week c) "Lecture")
             _ Hp). }
  rewrite Hkeyed. cbn [rbind]. eexists. split; [done|].
  apply Forall_forall. intros o Ho%elem_of_sort_by_key.
  rewrite (with_keys_snd _ _ _ Hkeyed) in Ho.
  by apply (proj1 (Forall_forall _ _) Hfor).
Qed.

Lemma make_assignment_backtrack_keyed sns o c s st :
  keyed sns st → option_for c o → section_name s ∈ sns →
  ∃ st',
    _make_assignment_backtrack o c s st
    = Ok (AssignmentOption (opt_pattern o) (opt_faculty o) (opt_room o)
            (Some (seq (length (schedule_list st))
                     (length (opt_pattern o)))), st')
    ∧ keyed sns st'
    ∧ schedule_list st'
      = schedule_list st
        ++ entries_of c s (opt_pattern o) (opt_room o) (opt_faculty o)
             (backtrack_component_type c)
    ∧ day_pairing_counter st' = day_pairing_counter st + 1.
Proof.
  intros Hkeys (_ & _ & fr & rr & _ & Hfr & Hfn & Hrr & _ & Hrn) Hsn.
  destruct (keyed_lookup _ _ _ _ _ Hkeys Hfr Hrr Hsn)
    as (df & dr & ds & Hf & Hr & Hs).
  unfold _make_assignment_backtrack. rewrite Hfn, Hrn.
  rewrite (bind_ok _ _ _ _ _
             (record_sessions_backtrack_ok c s _ _ _ _ [] st df dr ds
                Hf Hr Hs)).
  eexists. split; [done|].
  cbn [schedule_list faculty_schedule room_schedule section_schedule
       day_pairing_counter].
  split; [by apply keyed_insert|done].
Qed.

Lemma undo_assignment_backtrack_keyed sns o data c s st :
  keyed sns st → option_for c o → section_name s ∈ sns →
  ∃ st',
    _undo_assignment_backtrack
      (AssignmentOption (opt_pattern o) (opt_faculty o) (opt_room o)
         (Some data)) c s st
    = Ok (tt, st')
    ∧ keyed sns st'
    ∧ schedule_list st' = pop_indices (reverse data) (schedule_list st)
    ∧ day_pairing_counter st' = day_pairing_counter st - 1.
Proof.
  intros Hkeys (_ & _ & fr & rr & _ & Hfr & Hfn & Hrr & _ & Hrn) Hsn.
  destruct (keyed_lookup _ _ _ _ _ Hkeys Hfr Hrr Hsn)
    as (df & dr & ds & Hf & Hr & Hs).
  unfold _undo_assignment_backtrack.
  cbn [assignment_data opt_pattern opt_faculty opt_room]. rewrite Hfn, Hrn.
  erewrite bind_ok by reflexivity.
  erewrite (bind_ok (unrecord_sessions _ _ _ _ _))
    by (apply unrecord_sessions_ok; [exact Hf|exact Hr|exact Hs]).
  eexists. split; [done|].
  cbn [schedule_list faculty_schedule room_schedule section_schedule
       day_pairing_counter].
  split; [by apply keyed_insert|]. split; [done|lia].
Qed.

Lemma try_options_keyed sns max_iterations c s rest_of (rest : M bool) :
  section_name s ∈ sns →
  (∀ st, keyed sns st →
     ∃ b st', rest st = Ok (b, st') ∧ keyed sns st'
              ∧ search_outcome rest_of max_iterations st st' b) →
  ∀ options, Forall (option_for c) options →
  ∀ st, keyed sns st →
    Z.of_nat (length (schedule_list st)) ≤ max_iterations →
    ∃ b st', try_options rest c s options st = Ok (b, st') ∧ keyed sns st'
             ∧ search_outcome ((c, s) :: rest_of) max_iterations st st' b.
Proof.
  intros Hsn Hrest. induction 1 as [|o options Ho _ IH]; intros st Hkeys Hlen.
  - by exists false, st.
  - cbn [try_options].
    destruct (make_assignment_backtrack_keyed sns o c s st Hkeys Ho Hsn)
      as (st1 & Hmake & Hkeys1 & Hsched1 & Hcount1).
    rewrite (bind_ok _ _ _ _ _ Hmake).
    destruct (Hrest st1 Hkeys1) as (b & st2 & Hrun & Hkeys2 & Hout).
    rewrite (bind_ok _ _ _ _ _ Hrun).
    destruct b.
    + exists true, st2. split; [done|]. split; [done|].
      destruct Hout as (Hcount2 & (rowss & Hrows & Hsched2) & Hbound).
      split; [|split].
      * rewrite Hcount2, Hcount1. cbn [length]. lia.
      * eexists (_ :: rowss). split.
        -- apply Forall2_cons. split; [|done]. by exists o.
        -- rewrite Hsched2, Hsched1. cbn [concat]. by rewrite app_assoc.
      * intros _. destruct rest_of as [|a rest_of]; [|by apply Hbound].
        apply Forall2_nil_inv_l in Hrows as ->.
        rewrite Hsched2, Hsched1. cbn [concat].
        rewrite app_nil_r, length_app. unfold entries_of.
        rewrite length_fmap.
        destruct Ho as (_ & counter & _ & _ & Hp%pattern_length & _). lia.
    + destruct Hout as [Hsched2 Hcount2].
      destruct (undo_assignment_backtrack_keyed sns o
                  (seq (length (schedule_list st)) (length (opt_pattern o)))
                  c s st2 Hkeys2 Ho Hsn)
        as (st3 & Hundo & Hkeys3 & Hsched3 & Hcount3).
      rewrite (bind_ok _ _ _ _ _ Hundo).
      assert (schedule_list st3 = schedule_list st) as Hback.
      { rewrite Hsched3, Hsched2, Hsched1.
        rewrite <- (length_fmap
                      (λ sess, make_entry c s sess (opt_room o) (opt_faculty o)
                                 (backtrack_component_type c))
                      (opt_pattern o)).
        apply pop_indices_appended. }
      assert (day_pairing_counter st3 = day_pairing_counter st) as Hsame
        by lia.
      destruct (IH st3 Hkeys3) as (b & st' & Hmore & Hkeys' & Hout');
        [by rewrite Hback|].
      exists b, st'. split; [done|]. split; [done|].
      unfold search_outcome in *. by rewrite <- Hback, <- Hsame.
Qed.

Lemma backtrack_from_keyed sns max_iterations allow assignments :
  Forall (λ a : course * section, section_name a.2 ∈ sns) assignments →
  ∀ st, keyed sns st →
    ∃ b st', backtrack_from assignments max_iterations allow st = Ok (b, st')
             ∧ keyed sns st'
             ∧ search_outcome assignments max_iterations st st' b.
Proof.
  induction 1 as [|[c s] rest Hsn _ IH]; intros st Hkeys.
  - exists true, st. split; [done|]. split; [done|].
    split; [simpl; lia|]. split; [|done].
    exists []. split; [constructor|]. by rewrite app_nil_r.
  - cbn [backtrack_from]. unfold bind at 1, lift. cbn [rbind].
    destruct (max_iterations <? _) eqn:Hcap; [by exists false, st|].
    apply Z.ltb_ge in Hcap.
    destruct (get_possible_assignments_keyed sns c s allow st Hkeys Hsn)
      as (options & Hget & Hoptions).
    rewrite (bind_ok _ _ _ _ _ Hget).
    by apply (try_options_keyed sns max_iterations c s rest).
Qed.

Lemma elem_of_obligations cts c s :
  (c, s) ∈ obligations cts ↔ s ∈ sections ∧ c ∈ cts ∧ matches c s.
Proof.
  unfold obligations, courses_of_section, matches. split.
  - intros (s' & (c' & Hin & [Hm Hc]%list_elem_of_filter)%list_elem_of_bind
            & Hs)%list_elem_of_bind.
    apply list_elem_of_singleton in Hin. by injection Hin as -> ->.
  - intros (Hs & Hc & Hm). apply list_elem_of_bind. exists s. split; [|done].
    apply list_elem_of_bind. exists c. split; [by left|].
    by apply list_elem_of_filter.
Qed.

Lemma elem_of_search_order cts a :
  a ∈ search_order cts → a ∈ obligations cts.
Proof.
  unfold search_order. intros Ha%elem_of_sort_by_key.
  by rewrite <- list_fmap_compose, list_fmap_id in Ha.
Qed.


(** ** The conflict detector *)

Lemma elem_of_unique values x : x ∈ unique values ↔ x ∈ values.
Proof.
  unfold unique.
  assert (∀ seen, x ∈ foldl (λ seen x, if bool_decide (x ∈ seen) then seen
                                        else seen ++ [x]) seen values
                  ↔ x ∈ seen ∨ x ∈ values) as H.
  { induction values as [|y values IH]; intros seen; simpl.
    - rewrite elem_of_nil. tauto.
    - rewrite IH, elem_of_cons. case_bool_decide as Hy.
      + split; [tauto|]. intros [?|[->|?]]; tauto.
      + rewrite elem_of_app, list_elem_of_singleton. tauto. }
  rewrite H, elem_of_nil. tauto.
Qed.

Lemma elem_of_iterrows df idx row :
  (idx, row) ∈ iterrows df ↔ df !! idx = Some row.
Proof.
  unfold iterrows. rewrite elem_of_lookup_imap. split.
  - by intros (i & y & [= -> ->] & ?).
  - intros ?. by exists idx, row.
Qed.

Lemma elem_of_detect_scheduling_conflicts schedule_df c :
  c ∈ detect_scheduling_conflicts schedule_df
  ↔ ∃ idx1 idx2 row1 row2,
      (idx1 < idx2)%nat
      ∧ schedule_df !! idx1 = Some row1 ∧ schedule_df !! idx2 = Some row2
      ∧ e_room row1 = e_room row2 ∧ e_day row1 = e_day row2
      ∧ times_overlap (e_start_time row1) (e_end_time row1)
          (e_start_time row2) (e_end_time row2) = true
      ∧ c = room_conflict (e_room row1) row1 row2.
Proof.
  unfold detect_scheduling_conflicts. destruct schedule_df as [|row0 df].
  { split; [by intros ?%elem_of_nil|].
    by intros (? & ? & ? & ? & _ & ? & _). }
  set (schedule_df := row0 :: df). split.
  - intros (room & ([idx1 row1] & ([idx2 row2] & Hc & Hin2)%list_elem_of_bind
                    & Hin1)%list_elem_of_bind & _)%list_elem_of_bind.
    apply list_elem_of_filter in Hin1 as [Hr1 Hin1%elem_of_iterrows].
    apply list_elem_of_filter in Hin2 as [Hr2 Hin2%elem_of_iterrows].
    simpl in *. destruct (idx2 <=? idx1)%nat eqn:Hle;
      [by apply elem_of_nil in Hc|].
    apply Nat.leb_gt in Hle.
    destruct (bool_decide (e_day row1 = e_day row2)
              && times_overlap _ _ _ _) eqn:Hov;
      [|by apply elem_of_nil in Hc].
    apply andb_prop in Hov as [Hday%bool_decide_eq_true Hov].
    apply list_elem_of_singleton in Hc.
    exists idx1, idx2, row1, row2. repeat split; try done; congruence.
  - intros (idx1 & idx2 & row1 & row2 & Hlt & H1 & H2 & Hroom & Hday & Hov
            & ->).
    apply list_elem_of_bind. exists (e_room row1). split.
    + apply list_elem_of_bind. exists (idx1, row1). split.
      * apply list_elem_of_bind. exists (idx2, row2). split.
        -- simpl. apply Nat.leb_gt in Hlt. rewrite Hlt, Hov.
           rewrite bool_decide_eq_true_2 by done. simpl.
           by apply list_elem_of_singleton.
        -- apply list_elem_of_filter. split; [done|].
           by apply elem_of_iterrows.
      * apply list_elem_of_filter. split; [done|]. by apply elem_of_iterrows.
    + apply elem_of_unique, list_elem_of_fmap. exists row1. split; [done|].
      by eapply list_elem_of_lookup_2.
Qed.

Lemma times_overlap_agrees start1 end1 start2 end2 :
  times_overlap start1 end1 start2 end2
  = _times_overlap start1 end1 start2 end2.
Proof. done. Qed.

Lemma detector_room_free schedule_df :
  overlap_free e_room schedule_df →
  detect_scheduling_conflicts schedule_df = [].
Proof.
  intros Hfree.
  destruct (detect_scheduling_conflicts schedule_df) as [|c l] eqn:Hd;
    [done|].
  assert (c ∈ detect_scheduling_conflicts schedule_df) as Hc
    by (rewrite Hd; left).
  apply elem_of_detect_scheduling_conflicts in Hc
    as (i & j & e1 & e2 & Hlt & Hi & Hj & Hroom & Hday & Hov & _).
  rewrite times_overlap_agrees, (Hfree i j e1 e2) in Hov;
    [done|lia|done..].
Qed.

(** X13.  [detect_scheduling_conflicts] reports exactly the pairs of rows
    at positions [idx1 < idx2] that have the same room and the same day
    and whose times overlap, once each.  So it reports nothing exactly
    when no two rows of one room overlap on a day; in particular it
    reports nothing on a schedule whose rows are all in different rooms,
    whatever faculty member or section is booked twice at one time: the
    detector looks at rooms only. *)
Theorem detector_reports_room_overlaps schedule_df :
  (∀ c, c ∈ detect_scheduling_conflicts schedule_df
        ↔ ∃ idx1 idx2 row1 row2,
            (idx1 < idx2)%nat
            ∧ schedule_df !! idx1 = Some row1
            ∧ schedule_df !! idx2 = Some row2
            ∧ e_room row1 = e_room row2 ∧ e_day row1 = e_day row2
            ∧ times_overlap (e_start_time row1) (e_end_time row1)
                (e_start_time row2) (e_end_time row2) = true
            ∧ c = room_conflict (e_room row1) row1 row2)
  ∧ (detect_scheduling_conflicts schedule_df = []
     ↔ overlap_free e_room schedule_df)
  ∧ (NoDup (e_room <$> schedule_df) →
     detect_scheduling_conflicts schedule_df = []).
Proof.
  split; [apply elem_of_detect_scheduling_conflicts|].
  assert (detect_scheduling_conflicts schedule_df = []
          ↔ overlap_free e_room schedule_df) as Hiff.
  { split.
    - intros Hnone i j e1 e2 Hij Hi Hj Hroom Hday.
      destruct (_times_overlap (e_start_time e1) (e_end_time e1)
                  (e_start_time e2) (e_end_time e2)) eqn:Hov; [|done].
      assert (∃ c, c ∈ detect_scheduling_conflicts schedule_df) as [c Hc];
        [|by rewrite Hnone in Hc; apply elem_of_nil in Hc].
      destruct (decide (i < j)%nat) as [Hlt|Hge].
      + eexists. apply elem_of_detect_scheduling_conflicts.
        by exists i, j, e1, e2.
      + eexists. apply elem_of_detect_scheduling_conflicts.
        exists j, i, e2, e1. split; [lia|]. repeat split; try done.
        by rewrite times_overlap_agrees, times_overlap_sym.
    - apply detector_room_free. }
  split; [done|].
  intros Hnd. apply Hiff. intros i j e1 e2 Hij Hi Hj Hroom _.
  destruct Hij. apply (NoDup_lookup _ _ _ (e_room e1) Hnd).
  - by rewrite list_lookup_fmap, Hi.
  - by rewrite list_lookup_fmap, Hj, Hroom.
Qed.

(** X14.  The check of the repository's own test holds for every input:
    on the schedule the greedy assigner returns with conflicts
    disallowed, [detect_scheduling_conflicts] reports nothing. *)
Theorem detector_passes_greedy_schedule cts counter :
  ∃ schedule counter',
    _greedy_scheduling cts false counter = Ok (schedule, counter')
    ∧ detect_scheduling_conflicts schedule = [].
Proof.
  destruct (greedy_sections_inv false cts sections []
              (fresh_state counter) (fresh_state_inv _ _))
    as (seen & st & Hrun & Hinv); [done|].
  exists (schedule_list st), (day_pairing_counter st).
  unfold _greedy_scheduling, finish. rewrite Hrun. split; [done|].
  apply detector_room_free, Hinv.
Qed.

(** ** The CSP solver *)

Lemma time_patterns_overlap_false p1 p2 :
  _time_patterns_overlap p1 p2 = false
  ↔ ∀ s1 s2, s1 ∈ p1 → s2 ∈ p2 → day s1 = day s2 →
             _times_overlap (start_time s1) (end_time s1)
               (start_time s2) (end_time s2) = false.
Proof.
  unfold _time_patterns_overlap. split.
  - intros H s1 s2 Hs1%list_elem_of_In Hs2%list_elem_of_In Hday.
    destruct (_times_overlap _ _ _ _) eqn:Hov; [|done].
    rewrite <- H. symmetry. apply existsb_exists. exists s1. split; [done|].
    apply existsb_exists. exists s2. split; [done|].
    by rewrite bool_decide_eq_true_2.
  - intros H. apply not_true_iff_false.
    intros (s1 & Hs1%list_elem_of_In & (s2 & Hs2%list_elem_of_In & Hov)
              %existsb_exists)%existsb_exists.
    apply andb_prop in Hov as [Hday%bool_decide_eq_true Hov].
    by rewrite (H s1 s2) in Hov.
Qed.

Lemma time_patterns_overlap_sym p1 p2 :
  _time_patterns_overlap p1 p2 = _time_patterns_overlap p2 p1.
Proof.
  assert (∀ p1 p2, _time_patterns_overlap p1 p2 = false →
                   _time_patterns_overlap p2 p1 = false) as H.
  { intros q1 q2 Hq.
    pose proof (proj1 (time_patterns_overlap_false _ _) Hq) as Hq'.
    apply time_patterns_overlap_false. intros s1 s2 Hs1 Hs2 Hday.
    rewrite times_overlap_sym. by apply Hq'. }
  destruct (_time_patterns_overlap p1 p2) eqn:H12,
    (_time_patterns_overlap p2 p1) eqn:H21; try done.
  - by rewrite (H _ _ H21) in H12.
  - by rewrite (H _ _ H12) in H21.
Qed.

Lemma values_satisfy_constraint_sym v1 v2 :
  _values_satisfy_constraint v1 v2 = _values_satisfy_constraint v2 v1.
Proof.
  unfold _values_satisfy_constraint.
  rewrite (time_patterns_overlap_sym (v_pattern v2) (v_pattern v1)).
  destruct (_time_patterns_overlap (v_pattern v1) (v_pattern v2));
    [|by rewrite !andb_false_r].
  rewrite !andb_true_r.
  repeat case_bool_decide; congruence.
Qed.

Lemma values_satisfy_constraint_true v1 v2 :
  _values_satisfy_constraint v1 v2 = true
  ↔ (_time_patterns_overlap (v_pattern v1) (v_pattern v2) = false
     ∨ (v_faculty v1 ≠ v_faculty v2 ∧ v_room v1 ≠ v_room v2
        ∧ section_name (v_section v1) ≠ section_name (v_section v2))).
Proof.
  unfold _values_satisfy_constraint.
  destruct (_time_patterns_overlap (v_pattern v1) (v_pattern v2)).
  - rewrite !andb_true_r. repeat case_bool_decide; split; try done;
      try (intros [?|(? & ? & ?)]; done). intros _. by right.
  - rewrite !andb_false_r. split; [by left|done].
Qed.

(** *** The ordered dictionary *)

Lemma odict_get_None {V} (d : odict V) k : odict_get d k = None ↔ k ∉ d.*1.
Proof.
  induction d as [|[k' v] d IH]; simpl.
  - split; [by intros _ ?%elem_of_nil|done].
  - rewrite not_elem_of_cons. case_bool_decide as Hk.
    + split; [done|]. by intros [? _].
    + rewrite IH. split; [|by intros [_ ?]].
      intros ?. split; [congruence|done].
Qed.

Lemma odict_mem_false {V} (d : odict V) k : odict_mem d k = false ↔ k ∉ d.*1.
Proof.
  unfold odict_mem. rewrite bool_decide_eq_false, <- odict_get_None.
  rewrite <- eq_None_not_Some. done.
Qed.

Lemma odict_set_fresh {V} (d : odict V) k v :
  k ∉ d.*1 → odict_set d k v = d ++ [(k, v)].
Proof.
  induction d as [|[k' v'] d IH]; simpl; [done|].
  intros [? ?]%not_elem_of_cons.
  rewrite bool_decide_eq_false_2 by done. by rewrite IH.
Qed.

Lemma odict_del_fresh {V} (d : odict V) k v :
  k ∉ d.*1 → odict_del (d ++ [(k, v)]) k = d.
Proof.
  unfold odict_del. induction d as [|[k' v'] d IH]; simpl.
  - by rewrite bool_decide_eq_true_2.
  - intros [? ?]%not_elem_of_cons.
    rewrite bool_decide_eq_false_2 by done. simpl. by rewrite IH.
Qed.

Lemma pairwise_snoc {A} (R : A → A → Prop) l x :
  pairwise R l → Forall (λ y, R y x) l → pairwise R (l ++ [x]).
Proof.
  induction l as [|y l IH]; simpl; [done|].
  intros [Hy Hl] [Hyx Hlx]%Forall_cons. split; [|by apply IH].
  apply Forall_app. split; [done|]. by apply Forall_singleton.
Qed.

(** *** Domains only shrink *)

Lemma Forall_list_remove_first {A} `{EqDecision A} (P : A → Prop) x l :
  Forall P l → Forall P (list_remove_first x l).
Proof.
  induction 1 as [|y l Hy Hl IH]; simpl; [done|].
  case_bool_decide; [done|]. by constructor.
Qed.

Lemma domain_get_inv domains var d :
  domain_get domains var = Ok d → domains !! var = Some d.
Proof. unfold domain_get. destruct (domains !! var); by intros [= ->]. Qed.

Lemma domain_get_fuel domains var : domain_get domains var ≠ OutOfFuel.
Proof. unfold domain_get. by destruct (domains !! var). Qed.

Lemma within_insert domains0 domains var d :
  within domains0 domains → Forall (from_domains domains0 var) d →
  within domains0 (<[var := d]> domains).
Proof.
  intros Hw Hd var' d'. destruct (decide (var = var')) as [->|Hne].
  - rewrite lookup_insert_eq. by intros [= <-].
  - rewrite lookup_insert_ne by done. apply Hw.
Qed.

Lemma within_empty domains0 : within domains0 ∅.
Proof. intros var d. by rewrite lookup_empty. Qed.

Lemma within_refl domains0 : within domains0 domains0.
Proof.
  intros var d Hd. apply Forall_forall. intros v Hv. by exists d.
Qed.

Lemma revise_loop_within domains0 var1 var2 values :
  ∀ domains revised r,
    revise_loop values var1 var2 domains revised = Ok r →
    within domains0 domains → within domains0 r.2.
Proof.
  induction values as [|value1 rest IH]; intros domains revised r H Hw.
  - by injection H as <-.
  - cbn [revise_loop] in H. apply rbind_inv in H as (d2 & _ & H).
    destruct (existsb _ d2); [by eapply IH|].
    apply rbind_inv in H as (d1 & Hd1%domain_get_inv & H).
    eapply IH; [exact H|]. apply within_insert; [done|].
    by apply Forall_list_remove_first, Hw.
Qed.


Lemma ac3_loop_within domains0 constraints fuel :
  ∀ queue domains domains',
    ac3_loop fuel queue constraints domains = Ok domains' →
    within domains0 domains → within domains0 domains'.
Proof.
  induction fuel as [|fuel IH]; intros queue domains domains' H Hw.
  - destruct queue as [|[var1 var2] queue]; [by injection H as <-|done].
  - destruct queue as [|[var1 var2] queue]; [by injection H as <-|].
    cbn [ac3_loop] in H.
    apply rbind_inv in H as ([revised domains1] & Hrev & H).
    unfold _revise_domain in Hrev.
    apply rbind_inv in Hrev as (d1 & _ & Hrev).
    apply (revise_loop_within domains0) in Hrev; [|done].
    cbn [fst snd] in *. destruct revised; [|by eapply IH].
    apply rbind_inv in H as (d1' & _ & H).
    destruct d1'; [injection H as <-; apply within_empty|by eapply IH].
Qed.

Lemma forward_check_loop_fuel var value domains assignment others :
  ∀ inference,
    forward_check_loop others var value domains assignment inference
    ≠ OutOfFuel.
Proof.
  induction others as [|other_var rest IH]; intros inference; [done|].
  cbn [forward_check_loop]. destruct (negb _ && negb _); [|apply IH].
  destruct (domain_get domains other_var) as [d| |] eqn:Hd; [|done|];
    [|by apply domain_get_fuel in Hd].
  cbn [rbind]. destruct (List.filter _ d); [apply IH|].
  destruct (_ =? _)%nat; [done|apply IH].
Qed.

Lemma saved_within_set domains0 old var d :
  saved_within domains0 old → Forall (from_domains domains0 var) d →
  saved_within domains0 (odict_set old var d).
Proof.
  unfold saved_within. induction 1 as [|[k v] old Hk Hold IH]; intros Hd.
  - by apply Forall_singleton.
  - simpl. case_bool_decide; constructor; auto.
Qed.

Lemma apply_inference_within domains0 inference :
  ∀ domains old r,
    apply_inference inference domains old = Ok r →
    within domains0 domains → saved_within domains0 old →
    within domains0 r.1 ∧ saved_within domains0 r.2.
Proof.
  induction inference as [|[inf_var removed] rest IH];
    intros domains old r H Hw Hold.
  - by injection H as <-.
  - cbn [apply_inference] in H.
    apply rbind_inv in H as (d & Hd%domain_get_inv & H).
    eapply IH; [exact H| |].
    + apply within_insert; [done|]. specialize (Hw _ _ Hd).
      clear -Hw. revert d Hw.
      induction removed as [|x removed IHr]; intros d Hd; [done|].
      simpl. apply IHr. case_bool_decide; [|done].
      by apply Forall_list_remove_first.
    + apply saved_within_set; [done|]. by apply Hw.
Qed.

Lemma apply_inference_fuel inference :
  ∀ domains old, apply_inference inference domains old ≠ OutOfFuel.
Proof.
  induction inference as [|[inf_var removed] rest IH]; intros domains old;
    [done|].
  cbn [apply_inference].
  destruct (domain_get domains inf_var) as [d| |] eqn:Hd; [|done|];
    [|by apply domain_get_fuel in Hd].
  apply IH.
Qed.

Lemma restore_domains_within domains0 old :
  ∀ domains,
    saved_within domains0 old → within domains0 domains →
    within domains0 (restore_domains old domains).
Proof.
  unfold restore_domains.
  induction old as [|[k d] old IH]; intros domains Hold Hw; [done|].
  apply Forall_cons in Hold as [Hd Hold]. simpl. apply IH; [done|].
  by apply within_insert.
Qed.

Lemma min_by_domain_elem domains vars :
  ∀ best var n,
    min_by_domain vars domains best = Ok (Some (var, n)) →
    var ∈ vars ∨ ∃ m, best = Some (var, m).
Proof.
  induction vars as [|v rest IH]; intros best var n H.
  - injection H as ->. right. by exists n.
  - cbn [min_by_domain] in H. apply rbind_inv in H as (d & _ & H).
    cbv zeta in H. destruct best as [[b m]|].
    + apply IH in H as [?|[m' H]]; [left; by right|].
      case_match; injection H as -> ?; [left; left|right; by exists m].
    + apply IH in H as [?|[m' [= -> _]]]; left; [by right|left].
Qed.

Lemma min_by_domain_fuel domains vars :
  ∀ best, min_by_domain vars domains best ≠ OutOfFuel.
Proof.
  induction vars as [|v rest IH]; intros best; [done|].
  cbn [min_by_domain].
  destruct (domain_get domains v) as [d| |] eqn:Hd; [|done|];
    [|by apply domain_get_fuel in Hd].
  cbn [rbind]. destruct best as [[b m]|]; apply IH.
Qed.

(** *** The keys of the domains *)

Lemma has_keys_insert names domains var d :
  has_keys names domains → has_keys names (<[var := d]> domains).
Proof.
  intros Hk v Hv. apply lookup_insert_is_Some'. right. by apply Hk.
Qed.

Lemma domain_get_ok domains var :
  is_Some (domains !! var) → ∃ d, domain_get domains var = Ok d.
Proof. intros [d Hd]. exists d. unfold domain_get. by rewrite Hd. Qed.







Lemma min_by_domain_None domains vars :
  ∀ best, min_by_domain vars domains best = Ok None →
          vars = [] ∧ best = None.
Proof.
  induction vars as [|v rest IH]; intros best H.
  - by injection H as ->.
  - cbn [min_by_domain] in H. apply rbind_inv in H as (d & _ & H).
    cbv zeta in H. destruct best as [[b m]|].
    + apply IH in H as [_ H]. by case_match.
    + by apply IH in H as [_ H].
Qed.

Lemma min_by_domain_no_raise domains vars e :
  has_keys vars domains →
  ∀ best, min_by_domain vars domains best ≠ Raise e.
Proof.
  induction vars as [|v rest IH]; intros Hk best; [done|].
  cbn [min_by_domain].
  destruct (domain_get_ok domains v) as [d ->]; [apply Hk; left|].
  cbn [rbind]. cbv zeta.
  assert (has_keys rest domains) by (intros ??; apply Hk; by right).
  destruct best as [[b m]|]; by apply IH.
Qed.

Lemma elem_of_odict_set_keys {V} (d : odict V) k v x :
  x ∈ (odict_set d k v).*1 → x = k ∨ x ∈ d.*1.
Proof.
  induction d as [|[k' v'] d IH]; simpl.
  - intros ->%list_elem_of_singleton. by left.
  - case_bool_decide; simpl.
    + intros [->|?]%elem_of_cons; [by left|right; by right].
    + intros [->|[->|?]%IH]%elem_of_cons;
        [right; left|by left|right; by right].
Qed.

Lemma forward_check_loop_keys var value domains assignment names others :
  others ⊆ names →
  ∀ inference inference',
    forward_check_loop others var value domains assignment inference
    = Ok (Some inference') →
    inference.*1 ⊆ names → inference'.*1 ⊆ names.
Proof.
  induction others as [|other_var rest IH]; intros Hsub inference inference' H
    Hinf.
  - by injection H as <-.
  - assert (rest ⊆ names) as Hrest by (intros ??; apply Hsub; by right).
    cbn [forward_check_loop] in H.
    destruct (negb _ && negb _); [|by eapply IH].
    apply rbind_inv in H as (d & _ & H).
    destruct (List.filter _ d) as [|x removed]; [by eapply IH|].
    destruct (_ =? _)%nat; [done|].
    eapply IH; [done|exact H|].
    intros y [->|?]%elem_of_odict_set_keys; [apply Hsub; left|by apply Hinf].
Qed.

Lemma forward_check_loop_no_raise var value domains assignment e others :
  has_keys others domains →
  ∀ inference,
    forward_check_loop others var value domains assignment inference
    ≠ Raise e.
Proof.
  induction others as [|other_var rest IH]; intros Hk inference; [done|].
  assert (has_keys rest domains) by (intros ??; apply Hk; by right).
  cbn [forward_check_loop]. destruct (negb _ && negb _); [|by apply IH].
  destruct (domain_get_ok domains other_var) as [d ->]; [apply Hk; left|].
  cbn [rbind]. destruct (List.filter _ d); [by apply IH|].
  destruct (_ =? _)%nat; [done|by apply IH].
Qed.

Lemma apply_inference_keys names inference :
  ∀ domains old r,
    apply_inference inference domains old = Ok r →
    has_keys names domains → has_keys names r.1.
Proof.
  induction inference as [|[inf_var removed] rest IH]; intros domains old r H Hk.
  - by injection H as <-.
  - cbn [apply_inference] in H. apply rbind_inv in H as (d & _ & H).
    eapply IH; [exact H|]. by apply has_keys_insert.
Qed.

Lemma apply_inference_no_raise e inference :
  ∀ domains old,
    has_keys inference.*1 domains →
    apply_inference inference domains old ≠ Raise e.
Proof.
  induction inference as [|[inf_var removed] rest IH]; intros domains old Hk;
    [done|].
  cbn [apply_inference].
  destruct (domain_get_ok domains inf_var) as [d ->]; [apply Hk; left|].
  cbn [rbind]. apply IH. apply has_keys_insert.
  intros ??. apply Hk. by right.
Qed.

Lemma restore_domains_keys names old :
  ∀ domains, has_keys names domains →
             has_keys names (restore_domains old domains).
Proof.
  unfold restore_domains.
  induction old as [|[k d] old IH]; intros domains Hk; [done|].
  simpl. by apply IH, has_keys_insert.
Qed.

Lemma all_assigned variables (assignment : odict csp_value) :
  List.filter (λ v, negb (odict_mem assignment v)) variables = [] →
  variables ⊆ assignment.*1.
Proof.
  intros Hnone v Hv.
  destruct (odict_mem assignment v) eqn:Hmem.
  - destruct (decide (v ∈ assignment.*1)) as [|Hout]; [done|].
    apply odict_mem_false in Hout. congruence.
  - assert (In v (List.filter (λ v, negb (odict_mem assignment v)) variables))
      as Hin by (apply filter_In; split; [by apply list_elem_of_In|];
                 by rewrite Hmem).
    by rewrite Hnone in Hin.
Qed.

(** *** The search *)

Lemma partial_solution_length variables domains0 allow assignment :
  partial_solution variables domains0 allow assignment →
  (length assignment ≤ length variables)%nat.
Proof.
  intros (Hnd & Hsub & _). rewrite <- (length_fmap fst assignment).
  by apply submseteq_length, NoDup_submseteq.
Qed.

Lemma partial_solution_snoc variables domains0 allow assignment var value :
  partial_solution variables domains0 allow assignment →
  var ∈ variables → var ∉ assignment.*1 →
  from_domains domains0 var value →
  allow || _assignment_consistent value assignment = true →
  partial_solution variables domains0 allow (assignment ++ [(var, value)]).
Proof.
  intros (Hnd & Hsub & Hfrom & Hpair) Hvar Hfresh Hvalue Hcons.
  split; [|split; [|split]].
  - rewrite fmap_app. apply NoDup_app. split; [done|]. split.
    + intros x Hx ->%list_elem_of_singleton. done.
    + apply NoDup_singleton.
  - rewrite fmap_app. intros x [?| ->%list_elem_of_singleton]%elem_of_app;
      auto.
  - apply Forall_app. split; [done|]. by apply Forall_singleton.
  - intros ->. apply pairwise_snoc; [by apply Hpair|].
    apply Forall_forall. intros kv Hkv%list_elem_of_In.
    unfold compatible. rewrite values_satisfy_constraint_sym.
    simpl in Hcons. unfold _assignment_consistent in Hcons.
    by apply (proj1 (forallb_forall _ _) Hcons).
Qed.

Lemma csp_backtrack_answer variables domains0 max_iterations allow :
  ∀ fuel domains assignment,
    within domains0 domains → has_keys variables domains →
    partial_solution variables domains0 allow assignment →
    (length variables - length assignment < fuel)%nat →
    search_answer variables domains0 allow assignment
      (_csp_backtrack fuel variables domains assignment max_iterations allow).
Proof.
  induction fuel as [|fuel IH]; intros domains assignment Hw Hk Ha Hfuel;
    [lia|].
  cbn [_csp_backtrack].
  destruct (length assignment =? length variables)%nat eqn:Hlen.
  { apply Nat.eqb_eq in Hlen. split; [done|]. split; [done|]. by split. }
  apply Nat.eqb_neq in Hlen.
  destruct (max_iterations <? _); [split; [done|]; by split|].
  pose proof (partial_solution_length _ _ _ _ Ha) as Hle.
  destruct (min_by_domain _ domains None) as [best|e|] eqn:Hmin;
    [| |by apply min_by_domain_fuel in Hmin].
  2:{ apply min_by_domain_no_raise in Hmin; [done|].
      intros v [Hv%list_elem_of_In _]%list_elem_of_In%filter_In.
      by apply Hk. }
  cbn [rbind]. destruct best as [[var n]|].
  2:{ apply min_by_domain_None in Hmin as [Hnone%all_assigned _].
      split; [done|]. intros Hnd. apply Hlen.
      apply Nat.le_antisymm; [done|].
      rewrite <- (length_fmap fst assignment).
      by apply submseteq_length, NoDup_submseteq. }
  apply min_by_domain_elem in Hmin as [Hvar|[m [=]]].
  apply list_elem_of_In, filter_In in Hvar
    as [Hvar%list_elem_of_In Hfresh%negb_true_iff%odict_mem_false].
  destruct (domain_get_ok domains var (Hk var Hvar)) as [d Hd].
  rewrite Hd. cbn [rbind]. apply domain_get_inv in Hd.
  assert (Forall (from_domains domains0 var)
            (sort_by_key false
               ((λ val, (_count_conflicts val assignment, val)) <$> d)))
    as Hvalues.
  { apply Forall_forall. intros v Hv%elem_of_sort_by_key.
    rewrite <- list_fmap_compose, list_fmap_id in Hv.
    by apply (proj1 (Forall_forall _ _) (Hw _ _ Hd)). }
  clear Hd. revert Hvalues domains Hw Hk.
  generalize (sort_by_key false
                ((λ val, (_count_conflicts val assignment, val)) <$> d)).
  intros values. induction values as [|value more IHv];
    intros Hvalues domains Hw Hk; [split; [done|]; by split|].
  apply Forall_cons in Hvalues as [Hvalue Hmore].
  lazy beta iota zeta.
  destruct (allow || _assignment_consistent value assignment) eqn:Hcons;
    [|by apply IHv].
  rewrite (odict_set_fresh assignment var value Hfresh).
  pose proof (partial_solution_snoc _ _ _ _ _ _ Ha Hvar Hfresh Hvalue Hcons)
    as Ha1.
  destruct (_forward_check var value variables domains
              (assignment ++ [(var, value)])) as [inference|e|] eqn:Hfc;
    [|by apply forward_check_loop_no_raise in Hfc
     |by apply forward_check_loop_fuel in Hfc].
  cbn [rbind].
  assert (∀ inference,
            inference.*1 ⊆ variables →
            search_answer variables domains0 allow assignment
              (let? applied := apply_inference inference domains [] in
               let? r := _csp_backtrack fuel variables applied.1
                           (assignment ++ [(var, value)]) max_iterations
                           allow in
               match r.1.1 with
               | Some _ => Ok r
               | None =>
                   (fix try_values (values : list csp_value)
                        (domains : domains_t)
                        (assignment : odict csp_value)
                        : result (option (odict csp_value) * domains_t
                                  * odict csp_value) :=
                      match values with
                      | [] => Ok (None, domains, assignment)
                      | value :: more =>
                          if allow
                             || _assignment_consistent value assignment
                          then
                            let assignment1 :=
                              odict_set assignment var value in
                            let? inference :=
                              _forward_check var value variables domains
                                assignment1 in
                            match inference, allow with
                            | None, false =>
                                try_values more domains
                                  (odict_del assignment1 var)
                            | _, _ =>
                                let? applied :=
                                  apply_inference (default [] inference)
                                    domains [] in
                                let? r :=
                                  _csp_backtrack fuel variables applied.1
                                    assignment1 max_iterations allow in
                                match r.1.1 with
                                | Some solution => Ok r
                                | None =>
                                    try_values more
                                      (restore_domains applied.2 r.1.2)
                                      (odict_del r.2 var)
                                end
                            end
                          else try_values more domains assignment
                      end) more (restore_domains applied.2 r.1.2)
                     (odict_del r.2 var)
               end)) as Hgo.
  { intros inf Hinf.
    destruct (apply_inference inf domains []) as [[domains1 old]|e|] eqn:Happ;
      [| |by apply apply_inference_fuel in Happ].
    2:{ apply apply_inference_no_raise in Happ; [done|].
        intros v Hv. by apply Hk, Hinf. }
    cbn [rbind fst snd].
    pose proof (apply_inference_keys variables _ _ _ _ Happ Hk) as Hk1.
    apply (apply_inference_within domains0) in Happ as [Hw1 Hold];
      [|done|by constructor].
    cbn [fst snd] in Hw1, Hold, Hk1.
    assert (length variables - length (assignment ++ [(var, value)]) < fuel)%nat
      as Hfuel1 by (rewrite length_app; simpl; lia).
    pose proof (IH domains1 _ Hw1 Hk1 Ha1 Hfuel1) as Hrec.
    destruct (_csp_backtrack fuel variables domains1
                (assignment ++ [(var, value)]) max_iterations allow)
      as [[[res d'] a']|e|]; [|exact Hrec|done].
    cbn [rbind fst snd]. destruct res as [sol|]; [exact Hrec|].
    destruct Hrec as (Hw' & Hk' & ->). rewrite odict_del_fresh by done.
    apply IHv; [done| |].
    - by apply restore_domains_within.
    - by apply restore_domains_keys. }
  destruct inference as [inference|].
  - apply (Hgo inference).
    unfold _forward_check in Hfc.
    eapply (forward_check_loop_keys _ _ _ _ variables variables);
      [done|exact Hfc|by intros ? ?%elem_of_nil].
  - destruct allow; [apply (Hgo []); by intros ? ?%elem_of_nil|].
    rewrite odict_del_fresh by done. by apply IHv.
Qed.

Lemma some_empty_fuel (domains : domains_t) variables :
  foldr (λ var acc,
           let? d := domain_get domains var in
           match d with
           | [] => Ok true
           | _ => acc
           end) (Ok false) variables ≠ OutOfFuel.
Proof.
  induction variables as [|var rest IH]; [done|]. simpl.
  destruct (domain_get domains var) as [[|v d]| |] eqn:Hd; try done.
  by apply domain_get_fuel in Hd.
Qed.

Lemma solve_csp_answer fuel variables domains0 constraints max_iterations
    allow solution :
  has_keys variables domains0 →
  (length variables < fuel)%nat →
  _solve_csp fuel variables domains0 constraints max_iterations allow
  = Ok (Some solution) →
  partial_solution variables domains0 allow solution
  ∧ length solution = length variables.
Proof.
  intros Hk0 Hfuel. unfold _solve_csp.
  assert (∀ domains1,
            within domains0 domains1 → has_keys variables domains1 →
            rmap (λ r : option (odict csp_value) * domains_t
                        * odict csp_value, r.1.1)
              (_csp_backtrack fuel variables domains1 [] max_iterations allow)
            = Ok (Some solution) →
            partial_solution variables domains0 allow solution
            ∧ length solution = length variables) as Hsearch.
  { intros domains1 Hw Hk H.
    pose proof (csp_backtrack_answer variables domains0 max_iterations allow
                  fuel domains1 [] Hw Hk) as Hans.
    destruct (_csp_backtrack fuel variables domains1 [] max_iterations allow)
      as [[[res d'] a']| |]; [|done..].
    injection H as ->.
    destruct Hans as (_ & _ & Hsol & Hlen); [|simpl; lia|done].
    split; [constructor|]. split; [by intros ? ?%elem_of_nil|].
    split; [constructor|done]. }
  destruct allow.
  { cbn [rbind]. apply Hsearch; [apply within_refl|done]. }
  intros (domains & Hdom & H)%rbind_inv.
  apply rbind_inv in Hdom as (domains1 & Hac & Hdom).
  apply rbind_inv in Hdom as (some_empty & Hsome & Hdom).
  unfold _apply_arc_consistency in Hac.
  pose proof (ac3_loop_within domains0 _ _ _ _ _ Hac (within_refl _)) as Hw.
  destruct some_empty; injection Hdom as <-; [done|].
  apply (Hsearch domains1); [done| |done].
  intros var Hvar. revert Hsome. clear -Hvar.
  induction variables as [|v rest IH]; [by apply elem_of_nil in Hvar|].
  simpl. intros (d & Hd%domain_get_inv & H)%rbind_inv.
  apply elem_of_cons in Hvar as [->|Hvar]; [by rewrite Hd|].
  destruct d; [done|]. by apply IH.
Qed.

Lemma csp_domains_keys counter obs :
  has_keys (csp_var_name <$> obs) (csp_domains counter obs).
Proof.
  unfold csp_domains. induction obs as [|o obs IH] using rev_ind.
  - by intros ? ?%elem_of_nil.
  - rewrite foldl_app, fmap_app. simpl.
    intros var [Hvar| ->%list_elem_of_singleton]%elem_of_app.
    + apply lookup_insert_is_Some'. right. by apply IH.
    + apply lookup_insert_is_Some'. by left.
Qed.

Lemma csp_domains_lookup counter obs var d :
  csp_domains counter obs !! var = Some d →
  ∃ o, o ∈ obs ∧ csp_var_name o = var
       ∧ d = _generate_csp_domain counter o.1 o.2.
Proof.
  unfold csp_domains. induction obs as [|o obs IH] using rev_ind.
  - simpl. by rewrite lookup_empty.
  - rewrite foldl_app. simpl.
    destruct (decide (csp_var_name o = var)) as [<-|Hne].
    + rewrite lookup_insert_eq. intros [= <-]. exists o.
      split; [apply elem_of_app; right; left|done].
    + rewrite lookup_insert_ne by done. intros (o' & ? & ?)%IH.
      exists o'. split; [apply elem_of_app; by left|done].
Qed.

Lemma elem_of_generate_csp_domain counter c s v :
  v ∈ _generate_csp_domain counter c s →
  v_course v = c ∧ v_section v = s
  ∧ v_pattern v ∈ _get_time_patterns counter (hours_per_week c) "Lecture"
  ∧ (∃ fr, fr ∈ faculty ∧ v_faculty v = faculty_name fr)
  ∧ (∃ rr, rr ∈ rooms ∧ room_type rr = required_room_type_of c
           ∧ v_room v = room_name rr).
Proof.
  unfold _generate_csp_domain, _find_suitable_faculty.
  intros ([[p f] r] & -> & Hin)%list_elem_of_fmap. simpl.
  apply elem_of_candidates in Hin
    as (Hp & Hf & (rr & [Hty Hrr]%list_elem_of_filter & ->)).
  split; [done|]. split; [done|]. split; [done|]. split; [done|].
  by exists rr.
Qed.

(** *** From a solution to the schedule *)

Lemma convert_csp_solution_cons kv solution :
  _convert_csp_solution_to_schedule (kv :: solution)
  = entries_of (v_course kv.2) (v_section kv.2) (v_pattern kv.2)
      (v_room kv.2) (v_faculty kv.2)
      (backtrack_component_type (v_course kv.2))
    ++ _convert_csp_solution_to_schedule solution.
Proof.
  unfold _convert_csp_solution_to_schedule. rewrite bind_cons. by f_equal.
Qed.

Lemma elem_of_convert_csp_solution solution e :
  e ∈ _convert_csp_solution_to_schedule solution
  ↔ ∃ kv sess,
      kv ∈ solution ∧ sess ∈ v_pattern kv.2
      ∧ e = make_entry (v_course kv.2) (v_section kv.2) sess (v_room kv.2)
              (v_faculty kv.2) (backtrack_component_type (v_course kv.2)).
Proof.
  unfold _convert_csp_solution_to_schedule. rewrite list_elem_of_bind. split.
  - intros (kv & (sess & ->%list_elem_of_singleton & Hsess)%list_elem_of_bind
            & Hkv).
    by exists kv, sess.
  - intros (kv & sess & Hkv & Hsess & ->). exists kv. split; [|done].
    apply list_elem_of_bind. exists sess. split; [|done].
    by apply list_elem_of_singleton.
Qed.

Lemma overlap_free_app key l1 l2 :
  overlap_free key l1 → overlap_free key l2 →
  (∀ e1 e2, e1 ∈ l1 → e2 ∈ l2 → key e1 = key e2 → e_day e1 = e_day e2 →
            _times_overlap (e_start_time e1) (e_end_time e1)
              (e_start_time e2) (e_end_time e2) = false) →
  overlap_free key (l1 ++ l2).
Proof.
  intros H1 H2 Hcross i j e1 e2 Hij Hi Hj Hkey Hday.
  apply lookup_app_Some in Hi as [Hi|[Hi1 Hi]];
    apply lookup_app_Some in Hj as [Hj|[Hj1 Hj]].
  - by apply (H1 i j).
  - apply Hcross; try done; by eapply list_elem_of_lookup_2.
  - rewrite times_overlap_sym.
    apply Hcross; try done; by eapply list_elem_of_lookup_2.
  - apply (H2 (i - length l1)%nat (j - length l1)%nat); try done. lia.
Qed.

Lemma overlap_free_entries key c s p r f ct :
  NoDup (day <$> p) → overlap_free key (entries_of c s p r f ct).
Proof.
  unfold entries_of. intros Hnd i j e1 e2 Hij Hi Hj _ Hday. destruct Hij.
  apply list_lookup_fmap_Some in Hi as (s1 & -> & Hi).
  apply list_lookup_fmap_Some in Hj as (s2 & -> & Hj).
  simpl in Hday. apply (NoDup_lookup _ _ _ (day s1) Hnd).
  - by rewrite list_lookup_fmap, Hi.
  - by rewrite list_lookup_fmap, Hj, Hday.
Qed.

Lemma convert_overlap_free (key : schedule_entry → string)
    (vkey : csp_value → string) solution :
  (∀ v sess ct,
     key (make_entry (v_course v) (v_section v) sess (v_room v)
            (v_faculty v) ct) = vkey v) →
  (∀ v1 v2, _values_satisfy_constraint v1 v2 = true → vkey v1 = vkey v2 →
            _time_patterns_overlap (v_pattern v1) (v_pattern v2) = false) →
  Forall (λ kv, NoDup (day <$> v_pattern kv.2)) solution →
  pairwise compatible solution →
  overlap_free key (_convert_csp_solution_to_schedule solution).
Proof.
  intros Hkey Hsat. induction solution as [|kv solution IH].
  - intros _ _ i j e1 e2 _ Hi. by destruct i.
  - intros [Hdays Hrest]%Forall_cons [Hkv Hpair].
    rewrite convert_csp_solution_cons. apply overlap_free_app.
    + by apply overlap_free_entries.
    + by apply IH.
    + intros e1 e2 (sess1 & -> & Hs1)%list_elem_of_fmap
        (kv2 & sess2 & Hkv2 & Hs2 & ->)%elem_of_convert_csp_solution
        Hk Hday.
      rewrite !Hkey in Hk. simpl in *.
      pose proof (proj1 (Forall_forall _ _) Hkv kv2 Hkv2) as Hc.
      pose proof (Hsat _ _ Hc Hk) as Hno.
      by apply (proj1 (time_patterns_overlap_false _ _) Hno).
Qed.

(** X15.  With conflicts disallowed and a budget above the number of
    obligations, the constraint-satisfaction scheduler ends, when it
    answers, in one of two ways.  Either its search found a solution, and
    then the counter is left as it was; no two rows of the schedule with
    the same room, the same faculty member or the same section name are
    on the same day with overlapping times; the names of the variables
    (course code, underscore, section name) are pairwise different; and
    the schedule is the conversion of a solution that gives each variable
    exactly one value, taken from the domain generated for an obligation
    of that name.  Or the answer is the one of the greedy assigner with
    conflicts allowed, started from the same counter. *)
Theorem csp_solution_is_conflict_free fuel cts max_iterations counter
    schedule counter' :
  (length (obligations cts) < fuel)%nat →
  _constraint_satisfaction_scheduling fuel cts max_iterations false counter
  = Ok (schedule, counter') →
  (counter' = counter
   ∧ overlap_free e_room schedule
   ∧ overlap_free e_faculty schedule
   ∧ overlap_free e_section schedule
   ∧ NoDup (csp_var_name <$> obligations cts)
   ∧ ∃ solution,
       schedule = _convert_csp_solution_to_schedule solution
       ∧ solution.*1 ≡ₚ csp_var_name <$> obligations cts
       ∧ Forall (csp_choice counter (obligations cts)) solution)
  ∨ _greedy_scheduling cts true counter = Ok (schedule, counter').
Proof.
  intros Hfuel. unfold _constraint_satisfaction_scheduling.
  intros (solution & Hsolve & H)%rbind_inv.
  destruct solution as [[|kv rest]|]; [by right| |by right].
  left.
  assert (schedule = _convert_csp_solution_to_schedule (kv :: rest)
          ∧ counter' = counter) as [-> ->] by (by injection H).
  clear H.
  apply solve_csp_answer in Hsolve
    as [(Hnd & Hsub & Hfrom & Hpair) Hlen];
    [|apply csp_domains_keys|by rewrite length_fmap].
  specialize (Hpair eq_refl).
  set (solution := kv :: rest) in *.
  assert (solution.*1 ≡ₚ csp_var_name <$> obligations cts) as Hperm.
  { apply submseteq_length_Permutation; [by apply NoDup_submseteq|].
    by rewrite (length_fmap fst solution), Hlen. }
  assert (Forall (csp_choice counter (obligations cts)) solution) as Hch.
  { eapply Forall_impl; [exact Hfrom|].
    intros [var v] (d0 & (o & Ho & Hname & ->)%csp_domains_lookup & Hv).
    by exists o. }
  assert (Forall (λ kv, NoDup (day <$> v_pattern kv.2)) solution) as Hdays.
  { eapply Forall_impl; [exact Hch|].
    intros [var v] (o & _ & _ & (_ & _ & Hp & _)%elem_of_generate_csp_domain).
    by apply (proj1 (Forall_forall _ _)
                (get_time_patterns_distinct_days counter
                   (hours_per_week o.1) "Lecture")). }
  split; [done|].
  assert (∀ v1 v2, _values_satisfy_constraint v1 v2 = true →
            _time_patterns_overlap (v_pattern v1) (v_pattern v2) = false
            ∨ (v_faculty v1 ≠ v_faculty v2 ∧ v_room v1 ≠ v_room v2
               ∧ section_name (v_section v1) ≠ section_name (v_section v2)))
    as Hsat by (intros ??; apply values_satisfy_constraint_true).
  split; [|split; [|split; [|split]]].
  - apply (convert_overlap_free e_room v_room); try done.
    intros v1 v2 [?|(_ & ? & _)]%Hsat ?; done.
  - apply (convert_overlap_free e_faculty v_faculty); try done.
    intros v1 v2 [?|(? & _ & _)]%Hsat ?; done.
  - apply (convert_overlap_free e_section
             (λ v, section_name (v_section v))); try done.
    intros v1 v2 [?|(_ & _ & ?)]%Hsat ?; done.
  - by rewrite <- Hperm.
  - by exists solution.
Qed.

(** *** The budget of the arc-consistency loop *)







(** *** The outcomes of the solver *)




(** ** The rows of the three algorithms *)

Lemma greedy_rows_match cts allow counter schedule counter' :
  _greedy_scheduling cts allow counter = Ok (schedule, counter') →
  rows_match cts schedule.
Proof.
  unfold _greedy_scheduling, finish. intros H.
  destruct (greedy_sections sections cts allow (fresh_state counter))
    as [[[] st]| |] eqn:Hrun; [|done..].
  injection H as <- _.
  apply greedy_sections_rows in Hrun as (es & -> & Hrows).
  eapply Forall_impl; [exact Hrows|].
  intros e (c & s & ? & ? & ? & Hrow). unfold greedy_row in Hrow.
  destruct Hrow as (sess & fr & rr & ct & ? & ? & ? & ? & _).
  exists c, s. split; [done|]. split; [done|]. split; [done|].
  by exists sess, fr, rr, ct.
Qed.

Lemma placed_rows_match cts assignments rowss :
  Forall (λ a, a ∈ obligations cts) assignments →
  Forall2 placed_rows assignments rowss →
  rows_match cts (concat rowss).
Proof.
  intros Hobs Hrows. revert Hobs.
  induction Hrows as [|[c s] rows assignments rowss Hplaced _ IH];
    intros Hobs; [constructor|].
  apply Forall_cons in Hobs as [(Hs & Hc & Hm)%elem_of_obligations Hobs].
  cbn [concat]. apply Forall_app. split; [|by apply IH].
  destruct Hplaced as (o & (_ & counter & fr & rr & Hp & Hfr & -> & Hrr & _
                            & ->) & ->).
  simpl. apply Forall_fmap, Forall_forall. intros sess Hsess.
  exists c, s. split; [done|]. split; [done|]. split; [done|].
  exists sess, fr, rr, (backtrack_component_type c).
  split; [done|]. split; [done|]. split; [|done].
  apply (proj1 (Forall_forall _ _)
           (proj1 (Forall_forall _ _)
              (get_time_patterns_on_grid counter (hours_per_week c)
                 "Lecture") _ Hp) _ Hsess).
Qed.

Lemma backtracking_rows_match cts max_iterations allow counter schedule
    counter' :
  _backtracking_scheduling cts max_iterations allow counter
  = Ok (schedule, counter') →
  rows_match cts schedule.
Proof.
  unfold _backtracking_scheduling, _backtrack_assign. rewrite drop_0.
  fold (search_order cts).
  set (st0 := {| schedule_list := [];
                 faculty_schedule := empty_ledger (faculty_name <$> faculty);
                 room_schedule := empty_ledger (room_name <$> rooms);
                 section_schedule := empty_ledger (section_name <$> sections);
                 day_pairing_counter := counter |}).
  assert (keyed (section_name <$> sections) st0) as Hkeys0.
  { repeat split; simpl.
    - intros fr Hfr. rewrite empty_ledger_lookup; [done|].
      by apply list_elem_of_fmap_2.
    - intros rr Hrr. rewrite empty_ledger_lookup; [done|].
      by apply list_elem_of_fmap_2.
    - intros sn Hsn. by rewrite empty_ledger_lookup. }
  destruct (backtrack_from_keyed (section_name <$> sections) max_iterations
              allow (search_order cts)) with (st := st0)
    as (b & st & -> & _ & Hout); [|done|].
  { apply Forall_forall. intros [c s] (Hs & _)%elem_of_search_order
      %elem_of_obligations. by apply list_elem_of_fmap_2. }
  destruct b; [|apply greedy_rows_match].
  intros [= <- _]. destruct Hout as (_ & (rowss & Hrows & ->) & _).
  simpl. eapply placed_rows_match; [|exact Hrows].
  apply Forall_forall. by intros a ?%elem_of_search_order.
Qed.

Lemma csp_rows_match fuel cts max_iterations allow counter schedule counter' :
  (length (obligations cts) < fuel)%nat →
  _constraint_satisfaction_scheduling fuel cts max_iterations allow counter
  = Ok (schedule, counter') →
  rows_match cts schedule.
Proof.
  intros Hfuel. unfold _constraint_satisfaction_scheduling.
  intros (solution & Hsolve & H)%rbind_inv.
  destruct solution as [[|kv rest]|];
    [by eapply greedy_rows_match| |by eapply greedy_rows_match].
  assert (schedule = _convert_csp_solution_to_schedule (kv :: rest)) as ->
    by (by injection H).
  clear H.
  apply solve_csp_answer in Hsolve as [(_ & _ & Hfrom & _) _];
    [|apply csp_domains_keys|by rewrite length_fmap].
  apply Forall_forall.
  intros e (kv' & sess & Hkv & Hsess & ->)%elem_of_convert_csp_solution.
  destruct (proj1 (Forall_forall _ _) Hfrom kv' Hkv)
    as (d0 & ([c s] & (Hs & Hc & Hm)%elem_of_obligations & _ & ->)
               %csp_domains_lookup & Hv).
  apply elem_of_generate_csp_domain in Hv
    as (-> & -> & Hp & (fr & Hfr & ->) & (rr & Hrr & _ & ->)).
  exists c, s. split; [done|]. split; [done|]. split; [done|].
  exists sess, fr, rr, (backtrack_component_type c).
  split; [done|]. split; [done|]. split; [|done].
  apply (proj1 (Forall_forall _ _)
           (proj1 (Forall_forall _ _)
              (get_time_patterns_on_grid counter (hours_per_week c)
                 "Lecture") _ Hp) _ Hsess).
Qed.

Lemma section_obligations_length cts s :
  (length (course_row ← courses_of_section cts s; [(course_row, s)])
   ≤ length cts)%nat.
Proof.
  unfold courses_of_section. induction cts as [|c cts IH]; [done|].
  rewrite filter_cons. case_decide.
  - rewrite bind_cons, length_app. cbn [length]. lia.
  - cbn [length]. lia.
Qed.

Lemma obligations_length cts :
  (length (obligations cts) ≤ length sections * length cts)%nat.
Proof.
  unfold obligations. induction sections as [|s secs IH]; [done|].
  rewrite bind_cons, length_app.
  pose proof (section_obligations_length cts s). cbn [length]. lia.
Qed.

(** X17.  Whatever the algorithm, the flag and the term filter, every
    row of a schedule [generate_schedule] returns is for a course of the
    course table and a section of the section table that have the same
    program, year level and term, with a faculty member and a room of the
    tables and a session on the grid; and with a term filter other than
    0 every row is of that term.  (The budget of the CSP loops is taken
    above the number of course-section pairs.) *)
Theorem generate_schedule_rows fuel algorithm max_iterations term_filter
    allow counter schedule counter' :
  (length sections * length courses < fuel)%nat →
  generate_schedule fuel algorithm max_iterations term_filter allow counter
  = Ok (schedule, counter') →
  rows_match courses schedule
  ∧ ∀ t, term_filter = Some t → t ≠ 0 → Forall (λ e, e_term e = t) schedule.
Proof.
  intros Hfuel. unfold generate_schedule.
  set (cts := match term_filter with
              | Some t => if t =? 0 then courses
                          else filter (λ c, term c = t) courses
              | None => courses
              end).
  assert (cts ⊆ courses) as Hsub.
  { unfold cts. destruct term_filter as [t|]; [|done].
    destruct (t =? 0); [done|]. by intros c [_ ?]%list_elem_of_filter. }
  assert (∀ t, term_filter = Some t → t ≠ 0 →
               ∀ c, c ∈ cts → term c = t) as Hterm.
  { intros t -> Ht%Z.eqb_neq c. unfold cts. rewrite Ht.
    by intros [? _]%list_elem_of_filter. }
  assert ((length (obligations cts) < fuel)%nat) as Hfuel'.
  { pose proof (obligations_length cts).
    assert (length cts ≤ length courses)%nat; [|nia].
    unfold cts. destruct term_filter as [t|]; [|done].
    destruct (t =? 0); [done|]. apply length_filter. }
  intros Hrun.
  assert (rows_match cts schedule) as Hrows.
  { repeat case_bool_decide.
    - by eapply greedy_rows_match.
    - by eapply backtracking_rows_match.
    - by eapply csp_rows_match.
    - done. }
  split.
  - eapply Forall_impl; [exact Hrows|].
    intros e (c & s & ? & ? & ? & ?). exists c, s. auto.
  - intros t Hfilter Ht. eapply Forall_impl; [exact Hrows|].
    intros e (c & s & Hc & _ & (_ & _ & Hm) & sess & fr & rr & ct & _ & _ & _
              & ->).
    simpl. rewrite <- Hm. by eapply Hterm.
Qed.

(** ** Courses of type Both *)

Lemma schedule_course_component_placed c s ct hours kind allow st st' :
  _schedule_course_component c s ct hours faculty (rooms_of_type kind) allow st
  = Ok (true, st') →
  ∃ es, schedule_list st' = schedule_list st ++ es
        ∧ component_placed c s ct hours kind es.
Proof.
  intros [[? _]|(_ & p & fr & rr & Hp & Hfr & Hrr & _ & Hmake)]
    %schedule_course_component_spec; [done|].
  apply make_assignment_schedule in Hmake as [Hs _].
  eexists. split; [done|].
  apply list_elem_of_filter in Hrr as [Hty Hrr].
  by exists (day_pairing_counter st), p, fr, rr.
Qed.

Lemma schedule_course_component_with_conflicts c s ct hours fac rms st b st' :
  _schedule_course_component c s ct hours fac rms true st = Ok (b, st') →
  _get_time_patterns (day_pairing_counter st) hours ct ≠ [] →
  fac ≠ [] → rms ≠ [] →
  b = true.
Proof.
  unfold _schedule_course_component. intros H Hp Hfac Hrms.
  apply bind_inv in H as (pats & st1 & [Hpats ->]%lift_inv & H).
  injection Hpats as <-.
  pose proof (candidates_nonempty _ _ _ Hp Hfac Hrms) as Hne.
  destruct (candidates _ fac rms) as [|[[p f] r] rest]; [done|].
  cbn [try_candidates] in H.
  apply bind_inv in H as (ok & st2 & [Hok ->]%lift_inv & H).
  injection Hok as <-.
  apply bind_inv in H as (? & st3 & _ & H). by injection H as <- _.
Qed.

Lemma three_hour_pattern_length counter ct p :
  p ∈ _get_time_patterns counter 3 ct → length p = 2%nat.
Proof.
  unfold _get_time_patterns.
  replace ((3 <=? 2)
           && negb (bool_decide (ct = "Lab") && (2 <=? 3)
                    || (2 <? 3) && (3 <=? 4))) with false by done.
  replace ((3 =? 2) && bool_decide (ct = "Lab")) with false by done.
  replace (3 <=? 4) with true by done.
  by intros (? & ? & ? & ? & _ & _ & _ & _ & ->)%elem_of_paired_patterns.
Qed.

Lemma component_placed_length c s ct kind es :
  component_placed c s ct 3 kind es → length es = 2%nat.
Proof.
  intros (counter & p & fr & rr & Hp%three_hour_pattern_length & _ & _ & _
          & ->).
  unfold entries_of. by rewrite length_fmap.
Qed.

(** C4 (amended).  For a course of type Both with six hours: the greedy
    assigner appends the rows of at most one three-hour Lecture pattern,
    recorded in a room of type Lecture and tagged Lecture, followed by the
    rows of at most one three-hour Lab pattern, recorded in a room of type
    Lab and tagged Lab; when it answers [True] both components were
    placed, two rows each; and with conflicts allowed, on a date of the
    calendar, it answers [True] as soon as the faculty table, the rooms of
    type Lecture and the rooms of type Lab are not empty.  The
    backtracking assigner does not split the course: each of its options
    is one six-hour pattern of the Lecture kind in a room of type Lecture,
    and the rows of the option it records are tagged Both. *)
Theorem both_course_with_six_hours c s :
  lower (course_type c) = "both" → hours_per_week c = 6 →
  (∀ allow st b st',
     _assign_course_to_section c s allow st = Ok (b, st') →
     ∃ lecture lab,
       schedule_list st' = schedule_list st ++ lecture ++ lab
       ∧ component_rows c s "Lecture" 3 "Lecture" lecture
       ∧ component_rows c s "Lab" 3 "Lab" lab
       ∧ (b = true →
          component_placed c s "Lecture" 3 "Lecture" lecture
          ∧ component_placed c s "Lab" 3 "Lab" lab
          ∧ length lecture = 2%nat ∧ length lab = 2%nat)
       ∧ (allow = true → 1 ≤ today ≤ 3652059 → faculty ≠ [] →
          rooms_of_type "Lecture" ≠ [] → rooms_of_type "Lab" ≠ [] →
          b = true))
  ∧ (∀ allow st options st',
       _get_possible_assignments c s allow st = Ok (options, st') →
       Forall (λ o,
           opt_pattern o
             ∈ _get_time_patterns (day_pairing_counter st) 6 "Lecture"
           ∧ ∃ rr, rr ∈ rooms ∧ room_type rr = "Lecture"
                   ∧ opt_room o = room_name rr)
         options)
  ∧ (∀ o st recorded st',
       _make_assignment_backtrack o c s st = Ok (recorded, st') →
       schedule_list st'
       = schedule_list st
         ++ entries_of c s (opt_pattern o) (opt_room o) (opt_faculty o) "Both").
Proof.
  intros Hboth H6. split; [|split].
  - intros allow st b st' H.
    assert (required_room_type_of c = "Lecture") as Hreq
      by (unfold required_room_type_of; by rewrite Hboth).
    unfold _assign_course_to_section, _find_suitable_faculty in H.
    rewrite Hreq in H.
    case_bool_decide as Hfac.
    { injection H as <- <-. exists [], []. rewrite app_nil_r.
      split; [done|]. split; [by left|]. split; [by left|].
      split; [done|]. by intros _ _ ?. }
    case_bool_decide as Hrms.
    { injection H as <- <-. exists [], []. rewrite app_nil_r.
      split; [done|]. split; [by left|]. split; [by left|].
      split; [done|]. by intros _ _ _ ?. }
    rewrite bool_decide_eq_true_2 in H by done.
    unfold _schedule_lecture_lab_course in H.
    rewrite H6 in H. change (6 / 2) with 3 in H. change (6 - 3) with 3 in H.
    apply bind_inv in H as (lecture_assigned & st1 & Hlec & H).
    pose proof (schedule_course_component_rows _ _ _ _ _ _ _ _ _ Hlec)
      as (lecture & Hl & Hlrows).
    destruct (negb lecture_assigned && negb allow) eqn:Hstop.
    + injection H as <- <-. exists lecture, []. rewrite app_nil_r.
      split; [done|]. split; [done|]. split; [by left|].
      split; [done|]. intros ->. by rewrite andb_false_r in Hstop.
    + apply bind_inv in H as (lab_assigned & st2 & Hlab & H).
      injection H as <- <-.
      pose proof (schedule_course_component_rows _ _ _ _ _ _ _ _ _ Hlab)
        as (lab & Hb & Hbrows).
      exists lecture, lab. rewrite Hb, Hl, app_assoc.
      split; [done|]. split; [done|]. split; [done|]. split.
      * intros [-> ->]%andb_prop.
        apply schedule_course_component_placed in Hlec as (lecture' & Hl' & ?).
        apply schedule_course_component_placed in Hlab as (lab' & Hb' & ?).
        rewrite Hl' in Hl. apply app_inv_head in Hl as ->.
        rewrite Hb' in Hb. apply app_inv_head in Hb as ->.
        split; [done|]. split; [done|].
        split; by eapply component_placed_length.
      * intros -> Htoday _ Hlecture Hlab_rooms.
        rewrite (schedule_course_component_with_conflicts
                   _ _ _ _ _ _ _ _ _ Hlec); [|by apply patterns_exist|done..].
        rewrite (schedule_course_component_with_conflicts
                   _ _ _ _ _ _ _ _ _ Hlab); [done|by apply patterns_exist
                                            |done..].
  - intros allow st options st' H. unfold _get_possible_assignments in H.
    apply lift_inv in H as [H _].
    apply rbind_inv in H as (possible & Hfeas & H).
    apply rbind_inv in H as (keyed & Hkeyed & H). injection H as <-.
    apply Forall_forall. intros o Ho%elem_of_sort_by_key.
    rewrite (with_keys_snd _ _ _ Hkeyed) in Ho.
    destruct (feasible_options_elem _ _ _ _ _ _ _ _ Hfeas Ho) as [Hin _].
    apply elem_of_candidates in Hin as (Hp & _ & (rr & Hrr & Hroom)).
    rewrite H6 in Hp. split; [done|].
    unfold required_room_type_of in Hrr. rewrite Hboth in Hrr.
    apply list_elem_of_filter in Hrr as [Hty Hrr]. by exists rr.
  - intros o st recorded st' H. unfold _make_assignment_backtrack in H.
    apply bind_inv in H as (data & st1 & Hrec & H).
    apply record_sessions_backtrack_schedule in Hrec.
    apply bind_inv in H as (? & st2 & Hbump & H).
    rewrite bump_counter_eq in Hbump. injection Hbump as _ <-.
    injection H as _ <-. simpl. rewrite Hrec.
    unfold backtrack_component_type. by rewrite Hboth.
Qed.
End Scheduler.

(** * The model at concrete inputs *)

Lemma times_overlap_half_open_witness :
  (_times_overlap "07:00" "09:00" "09:00" "11:00" = true
   ↔ ¬ minutes_of (Time 9 0) ≤ minutes_of (Time 9 0)
     ∧ ¬ minutes_of (Time 11 0) ≤ minutes_of (Time 7 0))
  ∧ ("09:00" = "09:00" → _times_overlap "07:00" "09:00" "09:00" "11:00" = false)
  ∧ ("11:00" = "07:00" → _times_overlap "07:00" "09:00" "09:00" "11:00" = false).
Proof.
  apply (times_overlap_half_open "07:00" "09:00" "09:00" "11:00"
           (Time 7 0) (Time 9 0) (Time 9 0) (Time 11 0)); reflexivity.
Defined.

(** C5.  A one-hour lecture: 19:00 is a slot and 19:00 plus one hour is
    the slot 20:00, yet no generated pattern starts at 19:00; the
    generator returns 144 candidates where 156 (day, start) pairs end on a
    slot, because its single-session branch only reads the first 24
    slots. *)
Theorem single_session_skips_late_starts :
  "19:00" ∈ time_slots
  ∧ _add_hours_to_time sample_today "19:00" (2 * 1) = Some "20:00"
  ∧ "20:00" ∈ time_slots
  ∧ Forall (Forall (λ s, start_time s ≠ "19:00"))
      (_get_time_patterns sample_today 0 1 "Lecture")
  ∧ length (_get_time_patterns sample_today 0 1 "Lecture") = 144%nat
  ∧ length (single_patterns sample_today time_slots (2 * 1)) = 156%nat.
Proof.
  split; [by apply (bool_decide_unpack _); vm_compute|].
  split; [by vm_compute|].
  split; [by apply (bool_decide_unpack _); vm_compute|].
  split; [by apply (bool_decide_unpack _); vm_compute|].
  split; by vm_compute.
Qed.

(** C6, the claim refuted: a pattern of one session is recorded, by
    either path, and the rotation counter goes from 0 to 1. *)
Lemma single_session_record_bumps_counter :
  length [monday_7_to_9] = 1%nat
  ∧ day_pairing_counter sample_state = 0
  ∧ (∃ st1,
       _make_assignment [monday_7_to_9] cs101 bscs11a "Alice" "R101" "Lecture"
         sample_state = Ok (tt, st1)
       ∧ day_pairing_counter st1 = 1)
  ∧ (∃ recorded st2,
       _make_assignment_backtrack
         (AssignmentOption [monday_7_to_9] "Alice" "R101" None) cs101 bscs11a
         sample_state = Ok (recorded, st2)
       ∧ day_pairing_counter st2 = 1).
Proof.
  split; [done|]. split; [done|]. split.
  - eexists. split; [by vm_compute|done].
  - do 2 eexists. split; [by vm_compute|done].
Qed.

Lemma record_increments_counter_witness :
  day_pairing_counter
    (state_of (_make_assignment [monday_7_to_9] cs101 bscs11a "Alice" "R101"
                 "Lecture" sample_state) sample_state)
  = day_pairing_counter sample_state + 1.
Proof.
  apply (proj1 (record_increments_counter cs101 bscs11a sample_state)
           [monday_7_to_9] "Alice" "R101" "Lecture").
  vm_compute. reflexivity.
Defined.

(** C7, the claim refuted.  CS101 of BSCS11A is already booked on Monday
    07:00 with Alice in R101 (a course table that lists CS101 twice yields
    a second obligation for the same pair).  Recording the second
    obligation on Monday 09:00 and undoing it at once removes the first
    booking as well: Alice's Monday, which held one session before the
    record, is gone after the undo. *)
Lemma undo_removes_earlier_booking :
  ∃ first st0 recorded st1 st2,
    _make_assignment_backtrack
      (AssignmentOption [monday_7_to_9] "Alice" "R101" None) cs101 bscs11a
      sample_state = Ok (first, st0)
    ∧ _make_assignment_backtrack
        (AssignmentOption [monday_9_to_11] "Alice" "R101" None) cs101 bscs11a
        st0 = Ok (recorded, st1)
    ∧ _undo_assignment_backtrack recorded cs101 bscs11a st1 = Ok (tt, st2)
    ∧ (faculty_schedule st0 !! "Alice") ≫= (.!! "Monday")
      = Some [make_info cs101 bscs11a monday_7_to_9]
    ∧ (faculty_schedule st2 !! "Alice") ≫= (.!! "Monday") = None
    ∧ st2 ≠ st0.
Proof.
  do 5 eexists.
  split; [by vm_compute|]. split; [by vm_compute|]. split; [by vm_compute|].
  split; [by vm_compute|]. split; [by vm_compute|].
  intros Heq.
  apply (f_equal (λ st, (faculty_schedule st !! "Alice") ≫= (.!! "Monday")))
    in Heq.
  by vm_compute in Heq.
Qed.

Lemma undo_after_record_restores_witness :
  ∃ recorded st1,
    _make_assignment_backtrack
      (AssignmentOption [monday_7_to_9] "Alice" "R101" None) cs101 bscs11a
      sample_state = Ok (recorded, st1)
    ∧ _undo_assignment_backtrack recorded cs101 bscs11a st1
      = Ok (tt, sample_state).
Proof.
  apply (undo_after_record_restores
           (AssignmentOption [monday_7_to_9] "Alice" "R101" None)
           cs101 bscs11a sample_state ∅ ∅ ∅).
  - by vm_compute.
  - by vm_compute.
  - by vm_compute.
  - intros sess _. unfold booked. rewrite lookup_empty. by split.
  - intros sess _. unfold booked. rewrite lookup_empty. by split.
  - intros sess _. unfold booked. rewrite lookup_empty. by split.
Defined.

(** C9.  One section, one course of type Both with six hours, one
    faculty member, one lecture room and no lab room, conflicts
    disallowed.  The lecture component is placed, the lab component is
    not, [_assign_course_to_section] answers [False], and the two rows
    and the bookings of the lecture stay: the schedule returned by the
    greedy run consists of them. *)
Theorem greedy_keeps_lecture_of_failed_both :
  let assign := _assign_course_to_section sample_today [r101] [alice] in
  let component :=
    _schedule_course_component sample_today cs104_both bscs11a in
  let st0 :=
    state_of (reset_section "BSCS11A" (fresh_state [r101] [alice] 0))
      sample_state in
  ∃ st1,
    lower (course_type cs104_both) = "both"
    ∧ component "Lecture" 3 [alice] [r101] false st0 = Ok (true, st1)
    ∧ component "Lab" 3 [alice] [] false st1 = Ok (false, st1)
    ∧ assign cs104_both bscs11a false st0 = Ok (false, st1)
    ∧ schedule_list st1
      = entries_of cs104_both bscs11a
          [Session "Monday" "07:00" "08:30" 3;
           Session "Thursday" "07:00" "08:30" 3]
          "R101" "Alice" "Lecture"
    ∧ (faculty_schedule st1 !! "Alice") ≫= (.!! "Monday")
      = Some [SessionInfo "07:00" "08:30" "CS104" "BSCS11A"]
    ∧ (room_schedule st1 !! "R101") ≫= (.!! "Monday")
      = Some [SessionInfo "07:00" "08:30" "CS104" "BSCS11A"]
    ∧ (section_schedule st1 !! "BSCS11A") ≫= (.!! "Monday")
      = Some [SessionInfo "07:00" "08:30" "CS104" "BSCS11A"]
    ∧ _greedy_scheduling sample_today [r101] [alice] [bscs11a] [cs104_both]
        false 0
      = Ok (schedule_list st1, 1).
Proof.
  cbv zeta. eexists.
  split; [by vm_compute|]. split; [by vm_compute|].
  repeat (split; [by vm_compute|]). by vm_compute.
Qed.

(** C3.  One section with a two-hour lecture and a two-hour lab, one
    faculty member, one lecture room and no lab room, conflicts
    disallowed.  The lab's domain is empty, arc consistency empties the
    lecture's domain and answers the empty dictionary, and reading the
    first variable in that dictionary raises [KeyError]: the call does not
    return the greedy schedule, which exists. *)
Theorem csp_raises_when_a_domain_empties :
  let obs := [(cs101, bscs11a); (cs103_lab, bscs11a)] in
  let variables := csp_var_name <$> obs in
  let domains := csp_domains sample_today [r101] [alice] 0 obs in
  variables = ["CS101_BSCS11A"; "CS103_BSCS11A"]
  ∧ length (_generate_csp_domain sample_today [r101] [alice] 0 cs101 bscs11a)
    = 144%nat
  ∧ _generate_csp_domain sample_today [r101] [alice] 0 cs103_lab bscs11a = []
  ∧ _apply_arc_consistency 100 (_generate_csp_constraints variables) domains
    = Ok ∅
  ∧ generate_schedule sample_today [cs101; cs103_lab] [r101] [alice] [bscs11a]
      100 "constraint satisfaction" 1000 None false 0
    = Raise (KeyError "CS101_BSCS11A")
  ∧ _greedy_scheduling sample_today [r101] [alice] [bscs11a]
      [cs101; cs103_lab] true 0
    = Ok (entries_of cs101 bscs11a [monday_7_to_9] "R101" "Alice" "Lecture", 1).
Proof.
  cbv zeta. repeat (split; [by vm_compute|]). by vm_compute.
Qed.

(** C4, the claim refuted.  The backtracking assigner, given one course
    of type Both with six hours, a lecture room and a lab room, places a
    single pattern of two three-hour sessions in the lecture room and tags
    both rows Both; no row is tagged Lecture or Lab and the lab room is not
    used. *)
Lemma backtracking_does_not_split_both :
  ∃ entries counter,
    _backtracking_scheduling sample_today [r101; lab1] [alice] [bscs11a]
      [cs104_both] 1000 false 0 = Ok (entries, counter)
    ∧ e_course_type <$> entries = ["Both"; "Both"]
    ∧ e_room <$> entries = ["R101"; "R101"]
    ∧ (λ e, (e_day e, e_start_time e, e_end_time e)) <$> entries
      = [("Monday", "07:00", "10:00"); ("Thursday", "07:00", "10:00")].
Proof.
  do 2 eexists. split; [by vm_compute|]. by vm_compute.
Qed.

(** C1, the code against the claim.  The sections of two terms of one
    year carry the same name.  The greedy run, conflicts disallowed,
    empties the section's ledger when it reaches the second row and books
    CS201 for section BSCS1A on Monday 07:00 to 09:00, where CS101 of
    section BSCS1A already is: two rows of the returned schedule share the
    section and the day and overlap.  The backtracking assigner, which
    fills the section ledger once, puts CS201 of the same input on
    Tuesday. *)
Lemma greedy_overlap_for_repeated_section_name :
  (∃ schedule counter e1 e2,
     _greedy_scheduling sample_today [r101; r102] [alice; bob]
       [bscs1a_term1; bscs1a_term2] [cs101; cs201] false 0
     = Ok (schedule, counter)
     ∧ schedule !! 0%nat = Some e1 ∧ schedule !! 1%nat = Some e2
     ∧ e_section e1 = e_section e2 ∧ e_day e1 = e_day e2
     ∧ _times_overlap (e_start_time e1) (e_end_time e1)
         (e_start_time e2) (e_end_time e2) = true)
  ∧ (∃ schedule counter,
       _greedy_scheduling sample_today [r101; r102] [alice; bob]
         [bscs1a_term1; bscs1a_term2] [cs101; cs201] false 0
       = Ok (schedule, counter)
       ∧ (λ e, (e_course_code e, e_section e, e_day e, e_start_time e,
                e_end_time e)) <$> schedule
         = [("CS101", "BSCS1A", "Monday", "07:00", "09:00");
            ("CS201", "BSCS1A", "Monday", "07:00", "09:00")])
  ∧ (∃ schedule counter,
       _backtracking_scheduling sample_today [r101; r102] [alice; bob]
         [bscs1a_term1; bscs1a_term2] [cs101; cs201] 1000 false 0
       = Ok (schedule, counter)
       ∧ (λ e, (e_course_code e, e_section e, e_day e, e_start_time e,
                e_end_time e)) <$> schedule
         = [("CS101", "BSCS1A", "Monday", "07:00", "09:00");
            ("CS201", "BSCS1A", "Tuesday", "07:00", "09:00")]).
Proof.
  split; [|split].
  - do 4 eexists. split; [by vm_compute|].
    split; [by vm_compute|]. split; [by vm_compute|]. by vm_compute.
  - do 2 eexists. split; [by vm_compute|]. by vm_compute.
  - do 2 eexists. split; [by vm_compute|]. by vm_compute.
Qed.

Lemma greedy_schedule_overlap_free_witness :
  ∃ schedule counter,
    _greedy_scheduling sample_today [r101; r102] [alice; bob] [bscs11a]
      [cs101; cs102] false 0 = Ok (schedule, counter)
    ∧ overlap_free e_room schedule
    ∧ overlap_free e_faculty schedule
    ∧ overlap_free e_section schedule.
Proof.
  destruct (proj1 (greedy_schedule_overlap_free sample_today [r101; r102]
                     [alice; bob] [bscs11a] [cs101; cs102] 0))
    as (schedule & counter & Hrun & _ & Hroom & Hfaculty & Hsection).
  exists schedule, counter. repeat split; try done.
  apply Hsection. apply NoDup_singleton.
Defined.

(** C2, the claim refuted.  One scheduler object, the same tables, the
    greedy algorithm twice: the first call leaves the counter at 1, and
    the second call, starting from it, puts the three-hour lecture on
    Tuesday and Friday where the first had put it on Monday and
    Thursday. *)
Lemma second_run_on_same_object_differs :
  ∃ schedule1 counter1 schedule2 counter2,
    generate_schedule sample_today [cs105] [r101] [alice] [bscs11a]
      100 "greedy" 1000 None false 0 = Ok (schedule1, counter1)
    ∧ generate_schedule sample_today [cs105] [r101] [alice] [bscs11a]
        100 "greedy" 1000 None false counter1 = Ok (schedule2, counter2)
    ∧ counter1 = 1
    ∧ e_day <$> schedule1 = ["Monday"; "Thursday"]
    ∧ e_day <$> schedule2 = ["Tuesday"; "Friday"].
Proof.
  do 4 eexists. split; [by vm_compute|].
  split; [by vm_compute|]. split; [done|]. by vm_compute.
Qed.

Lemma same_rotation_same_schedule_witness :
  schedule_of (generate_schedule sample_today [cs105] [r101] [alice]
                 [bscs11a] 100 "backtracking" 1000 None false 0)
  = schedule_of (generate_schedule sample_today [cs105] [r101] [alice]
                   [bscs11a] 100 "backtracking" 1000 None false 3).
Proof.
  apply (same_rotation_same_schedule sample_today [cs105] [r101] [alice]
           [bscs11a] 100 "backtracking" 1000 None false 0 3).
  reflexivity.
Defined.

Lemma both_course_with_six_hours_witness :
  let st0 :=
    state_of (reset_section "BSCS11A" (fresh_state [r101; lab1] [alice] 0))
      sample_state in
  let st1 :=
    state_of (_assign_course_to_section sample_today [r101; lab1] [alice]
                cs104_both bscs11a false st0) sample_state in
  ∃ lecture lab,
    schedule_list st1 = schedule_list st0 ++ lecture ++ lab
    ∧ component_placed sample_today [r101; lab1] [alice] cs104_both bscs11a
        "Lecture" 3 "Lecture" lecture
    ∧ component_placed sample_today [r101; lab1] [alice] cs104_both bscs11a
        "Lab" 3 "Lab" lab
    ∧ length lecture = 2%nat ∧ length lab = 2%nat.
Proof.
  cbv zeta.
  destruct (proj1 (both_course_with_six_hours sample_today [r101; lab1]
                     [alice] cs104_both bscs11a eq_refl eq_refl)
              false
              (state_of (reset_section "BSCS11A"
                           (fresh_state [r101; lab1] [alice] 0))
                 sample_state)
              true
              (state_of (_assign_course_to_section sample_today [r101; lab1]
                           [alice] cs104_both bscs11a false
                           (state_of (reset_section "BSCS11A"
                                        (fresh_state [r101; lab1] [alice] 0))
                              sample_state))
                 sample_state))
    as (lecture & lab & Hrows & _ & _ & Htrue & _); [by vm_compute|].
  exists lecture, lab. split; [exact Hrows|]. exact (Htrue eq_refl).
Defined.

Lemma single_session_patterns_exact_witness :
  NoDup (_get_time_patterns sample_today 0 1 "Lecture")
  ∧ ∀ p,
      p ∈ _get_time_patterns sample_today 0 1 "Lecture"
      ↔ ∃ d start e,
          d ∈ days ∧ start ∈ take 24 time_slots
          ∧ _add_hours_to_time sample_today start (2 * 1) = Some e
          ∧ e ∈ time_slots
          ∧ p = [Session d start e (2 * 1)].
Proof.
  apply (single_session_patterns_exact sample_today 0 1 "Lecture").
  - lia.
  - intros [? _]. done.
Defined.

Lemma solve_csp_raises_on_emptied_domain_witness :
  let obs := [(cs101, bscs11a); (cs103_lab, bscs11a)] in
  _solve_csp 100 (csp_var_name <$> obs)
    (csp_domains sample_today [r101] [alice] 0 obs)
    (_generate_csp_constraints (csp_var_name <$> obs)) 1000 false
  = Raise (KeyError "CS101_BSCS11A").
Proof.
  cbv zeta.
  apply (solve_csp_raises_on_emptied_domain 100 "CS101_BSCS11A"
           ["CS103_BSCS11A"]).
  by vm_compute.
Defined.

(** ** The further properties on the sample tables *)

Lemma times_overlap_symmetric_and_lenient_witness :
  _times_overlap "07:00" "09:00" "07:00" "09:00" = true
  ∧ _times_overlap "07:00" "09:00" "soon" "10:00" = false.
Proof.
  split.
  - apply (proj2 (proj2 (times_overlap_symmetric_and_lenient
                           "07:00" "09:00" "07:00" "09:00"))
             (Time 7 0) (Time 9 0)); [reflexivity|reflexivity|].
    unfold minutes_of. simpl. lia.
  - apply (proj1 (proj2 (times_overlap_symmetric_and_lenient
                           "07:00" "09:00" "soon" "10:00"))).
    right. right. left. reflexivity.
Defined.

Lemma add_hours_to_time_wraps_witness :
  ∃ answer t',
    _add_hours_to_time sample_today "20:30" 8 = Some answer
    ∧ strptime answer = Some t'
    ∧ minutes_of t' = (minutes_of (Time 20 30) + 30 * 8) mod 1440.
Proof.
  apply (proj2 (add_hours_to_time_wraps sample_today "20:30" 8) (Time 20 30));
    [reflexivity|].
  by vm_compute.
Defined.

Lemma paired_patterns_shape_witness :
  ∃ day1 day2 start e,
    (day1, day2) ∈ base_day_pairings
    ∧ start ∈ time_slots ∧ e ∈ time_slots
    ∧ _add_hours_to_time sample_today start 3 = Some e
    ∧ [Session "Tuesday" "07:00" "08:30" 3;
       Session "Friday" "07:00" "08:30" 3]
      = [Session day1 start e 3; Session day2 start e 3].
Proof.
  apply (paired_patterns_shape sample_today 1 3 "Lecture"); [left; lia|].
  apply list_elem_of_In. vm_compute. left. reflexivity.
Defined.

Lemma patterns_exist_iff_under_28_hours_witness :
  (_get_time_patterns sample_today 0 27 "Lab" ≠ [] ↔ 27 < 28)
  ∧ (_get_time_patterns sample_today 0 28 "Lab" ≠ [] ↔ 28 < 28).
Proof.
  split.
  - apply (patterns_exist_iff_under_28_hours sample_today 0 27 "Lab");
      [unfold sample_today; lia|lia].
  - apply (patterns_exist_iff_under_28_hours sample_today 0 28 "Lab");
      [unfold sample_today; lia|lia].
Defined.

Lemma first_pattern_follows_rotation_witness :
  ∃ pr, base_day_pairings !! Z.to_nat (1 mod 3) = Some pr
        ∧ day <$> [Session "Tuesday" "07:00" "08:30" 3;
                   Session "Friday" "07:00" "08:30" 3]
          = [pr.1; pr.2].
Proof.
  apply (first_pattern_follows_rotation sample_today 1 3 "Lecture" _
           (tail (_get_time_patterns sample_today 1 3 "Lecture")));
    [left; lia|].
  vm_compute. reflexivity.
Defined.

Lemma greedy_rows_provenance_witness :
  ∃ schedule counter',
    _greedy_scheduling sample_today [r101; lab1] [alice; bob] [bscs11a]
      [cs101; cs104_both; cs201] false 0
    = Ok (schedule, counter')
    ∧ Forall (λ e, ∃ c s,
                c ∈ [cs101; cs104_both; cs201] ∧ s ∈ [bscs11a]
                ∧ matches c s
                ∧ greedy_row [r101; lab1] [alice; bob] c s e) schedule.
Proof.
  eexists _, _. split; [vm_compute; reflexivity|].
  apply (greedy_rows_provenance sample_today [r101; lab1] [alice; bob]
           [bscs11a] [cs101; cs104_both; cs201] false 0 _ 3).
  vm_compute. reflexivity.
Defined.

Lemma greedy_with_conflicts_places_all_witness :
  ∃ schedule counter',
    _greedy_scheduling sample_today [r101] [alice] [bscs11a]
      [cs101; cs102; cs104_both] true 0
    = Ok (schedule, counter')
    ∧ ∀ c s, c ∈ [cs101; cs102; cs104_both] → s ∈ [bscs11a] → matches c s →
             rooms_of_type [r101] (required_room_type_of c) ≠ [] →
             covered [r101] c s schedule.
Proof.
  apply (greedy_with_conflicts_places_all sample_today [r101] [alice]
           [bscs11a] [cs101; cs102; cs104_both] 0);
    [unfold sample_today; lia|done].
Defined.

Lemma detector_reports_room_overlaps_witness :
  let rows :=
    [make_entry cs101 bscs11a monday_7_to_9 "R101" "Alice" "Lecture";
     make_entry cs102 bscs11a monday_7_to_9 "R102" "Alice" "Lecture"] in
  detect_scheduling_conflicts rows = []
  ∧ ¬ overlap_free e_faculty rows.
Proof.
  cbv zeta. split.
  - apply (proj2 (proj2 (detector_reports_room_overlaps _))).
    apply (bool_decide_unpack _). by vm_compute.
  - intros Hfree.
    specialize (Hfree 0%nat 1%nat _ _ ltac:(done) eq_refl eq_refl eq_refl
                  eq_refl).
    by vm_compute in Hfree.
Defined.

Lemma csp_solution_is_conflict_free_witness :
  ∃ schedule counter',
    _constraint_satisfaction_scheduling sample_today [r101] [alice] [bscs11a]
      300 [ar301; ar302] 1000 false 0
    = Ok (schedule, counter')
    ∧ ((counter' = 0
        ∧ overlap_free e_room schedule
        ∧ overlap_free e_faculty schedule
        ∧ overlap_free e_section schedule
        ∧ NoDup (csp_var_name <$> obligations [bscs11a] [ar301; ar302])
        ∧ ∃ solution,
            schedule = _convert_csp_solution_to_schedule solution
            ∧ solution.*1
              ≡ₚ csp_var_name <$> obligations [bscs11a] [ar301; ar302]
            ∧ Forall (csp_choice sample_today [r101] [alice] 0
                        (obligations [bscs11a] [ar301; ar302]))
                solution)
       ∨ _greedy_scheduling sample_today [r101] [alice] [bscs11a]
           [ar301; ar302] true 0
         = Ok (schedule, counter')).
Proof.
  eexists _, _. split; [vm_compute; reflexivity|].
  apply (csp_solution_is_conflict_free sample_today [r101] [alice] [bscs11a]
           300 [ar301; ar302] 1000 0).
  - vm_compute. lia.
  - vm_compute. reflexivity.
Defined.


Lemma generate_schedule_rows_witness :
  ∃ schedule counter',
    generate_schedule sample_today [cs101; cs201] [r101] [alice] [bscs11a]
      100 "backtracking" 1000 (Some 1) false 0
    = Ok (schedule, counter')
    ∧ rows_match [r101] [alice] [bscs11a] [cs101; cs201] schedule
    ∧ ∀ t, Some 1 = Some t → t ≠ 0 → Forall (λ e, e_term e = t) schedule.
Proof.
  eexists _, _. split; [vm_compute; reflexivity|].
  apply (generate_schedule_rows sample_today [cs101; cs201] [r101] [alice]
           [bscs11a] 100 "backtracking" 1000 (Some 1) false 0 _ 1).
  - vm_compute. lia.
  - vm_compute. reflexivity.
Defined.
